(** * Orthanc: the resource index (OrthancServer/DatabaseWrapper.cpp)

    A shallow embedding of [DatabaseWrapper], the SQLite-backed index of
    the Orthanc server, and of the scalar functions of namespace
    [Internals] that the backend calls while a resource is deleted.

    Conventions of the embedding:
    - a C++ integer is a [Z]; conversions that lose bits ([int] read out of
      a 64-bit column, [uint32_t] arithmetic) are written out, see [CInt];
    - a C++ enumeration is the [Z] value of its enumerator, since the code
      moves between both with [static_cast] and [BindInt];
    - a table is the list of its rows in rowid order; a prepared statement
      is the list of rows it still has to deliver;
    - a method that may throw returns a [result]. *)

From Stdlib Require Import ZArith List String Ascii Bool Lia.
From Stdlib Require Import Sorting.Sorted Sorting.Permutation.
Import ListNotations.
Open Scope string_scope.
Open Scope list_scope.
Open Scope Z_scope.

Set Implicit Arguments.

(* ================================================================== *)
(** * Machine integers *)

Module CInt.

(** Value of a [w]-bit unsigned object after an arithmetic result [x]
is stored in it. *)
Definition wrap_unsigned (w x : Z) : Z := x mod 2 ^ w.

(** Value of a [w]-bit two's complement object that receives [x]. *)
Definition wrap_signed (w x : Z) : Z :=
(x + 2 ^ (w - 1)) mod 2 ^ w - 2 ^ (w - 1).

Definition to_uint32 : Z -> Z := wrap_unsigned 32.
Definition to_int : Z -> Z := wrap_signed 32.

Definition INT_MIN : Z := - 2 ^ 31.
Definition INT_MAX : Z := 2 ^ 31 - 1.
Definition UINT32_MAX : Z := 2 ^ 32 - 1.
Definition INT64_MAX : Z := 2 ^ 63 - 1.

Definition fits_int (x : Z) : Prop := INT_MIN <= x <= INT_MAX.

Definition to_int64 : Z -> Z := wrap_signed 64.
Definition to_uint64 : Z -> Z := wrap_unsigned 64.

End CInt.

(* ================================================================== *)
(** * Errors *)

(** The error codes of [OrthancException] that the index raises itself,
    and [ErrorCode_Backend] for an exception that comes out of the SQLite
    wrapper when a statement cannot be prepared or run. *)
Inductive ErrorCode : Type :=
| ErrorCode_UnknownResource
| ErrorCode_ParameterOutOfRange
| ErrorCode_IncompatibleDatabaseVersion
| ErrorCode_InternalError
| ErrorCode_Backend.

Inductive result (A : Type) : Type :=
| OK (a : A)
| Throw (e : ErrorCode).

Arguments OK {A} a.
Arguments Throw {A} e.

Definition bind {A B : Type} (m : result A) (k : A -> result B) : result B :=
  match m with
  | OK a => k a
  | Throw e => Throw e
  end.

Notation "x <- m ;; k" := (bind m (fun x => k))
  (at level 61, m at next level, right associativity).


(* ================================================================== *)
(** * Values exchanged with the index *)

(** [enum ResourceType], a value of the enumeration being the integer
    of its enumerator. *)
Definition ResourceType : Type := Z.

(** Modelled from the spec: the enumerators of [ResourceType] are
    declared in a header that is absent; the spec fixes their
    order, Patient < Study < Series < Instance, Patient being the
    topmost level.  Only that order is used below. *)
Definition ResourceType_Patient : ResourceType := 1.

(** Modelled from the spec: second level of the order of the spec. *)
Definition ResourceType_Study : ResourceType := 2.

(** Modelled from the spec: third level of the order of the spec. *)
Definition ResourceType_Series : ResourceType := 3.

(** Modelled from the spec: deepest level of the order of the spec. *)
Definition ResourceType_Instance : ResourceType := 4.

(** [enum ChangeType]: the one enumerator the index names itself, and
    the result of [static_cast<ChangeType>] on a stored integer. *)
Inductive ChangeType : Type :=
| ChangeType_Deleted
| ChangeType_of_int (v : Z).

Definition MetadataType : Type := Z.
Definition FileContentType : Type := Z.
Definition CompressionType : Type := Z.
Definition GlobalProperty : Type := Z.

(** Modelled from the spec: the key of the schema version in
    [GlobalProperties]; the enumerator is declared in a header that is
    absent, the spec names the property and says it holds the decimal
    string of the schema version. *)
Definition GlobalProperty_DatabaseSchemaVersion : GlobalProperty := 1.

Record FileInfo : Type := mkFileInfo {
  GetUuid : string;
  GetContentType : FileContentType;
  GetUncompressedSize : Z;
  GetUncompressedMD5 : string;
  GetCompressionType : CompressionType;
  GetCompressedSize : Z;
  GetCompressedMD5 : string
}.

Record DicomTag : Type := mkDicomTag {
  GetGroup : Z;
  GetElement : Z
}.

(** [ServerIndexChange] and [ExportedResource] as the index builds them
    when it reads the two logs. *)
Module ServerIndexChange.
Record t : Type := mk {
GetSeq : Z;
GetChangeType : ChangeType;
GetResourceType : ResourceType;
GetPublicId : string;
GetDate : string
}.
End ServerIndexChange.

Module ExportedResource.
Record t : Type := mk {
GetSeq : Z;
GetResourceType : ResourceType;
GetPublicId : string;
GetModality : string;
GetDate : string;
GetPatientId : string;
GetStudyInstanceUid : string;
GetSeriesInstanceUid : string;
GetSopInstanceUid : string
}.
End ExportedResource.

(** What the injected [IServerIndexListener] is told. *)
Inductive ListenerCall : Type :=
| Listener_SignalFileDeleted (info : FileInfo)
| Listener_SignalChange (change : ChangeType) (type : ResourceType)
                        (publicId : string)
| Listener_SignalRemainingAncestor (type : ResourceType) (publicId : string).

(* ================================================================== *)
(** * The backend: tables, statements *)

Module SQLite.

Section Table.
Context {Row : Type}.

(** [SELECT ... WHERE p] and [DELETE ... WHERE p]. *)
Definition SELECT_WHERE (p : Row -> bool) (t : list Row) : list Row :=
filter p t.

Definition DELETE_WHERE (p : Row -> bool) (t : list Row) : list Row :=
filter (fun r => negb (p r)) t.

(** [INSERT INTO t VALUES(...)] on a table with a uniqueness
constraint: [conflicts r r'] tells whether the new row [r] and the
stored row [r'] collide.  The default conflict resolution aborts
the statement. *)
Definition INSERT (conflicts : Row -> Row -> bool) (r : Row) (t : list Row)
: result (list Row) :=
if existsb (conflicts r) t then Throw ErrorCode_Backend
else OK (t ++ [r]).

(** [INSERT OR REPLACE INTO t VALUES(...)]: the colliding rows are
deleted before the new row is inserted. *)
Definition INSERT_OR_REPLACE (conflicts : Row -> Row -> bool) (r : Row)
   (t : list Row) : list Row :=
DELETE_WHERE (conflicts r) t ++ [r].

(** [ORDER BY key ASC], a stable insertion sort. *)
Fixpoint insert_by (key : Row -> Z) (r : Row) (l : list Row) : list Row :=
match l with
| [] => [r]
| x :: l' => if key r <=? key x then r :: l else x :: insert_by key r l'
end.

Definition ORDER_BY (key : Row -> Z) (t : list Row) : list Row :=
fold_right (insert_by key) [] t.

Definition ORDER_BY_DESC (key : Row -> Z) (t : list Row) : list Row :=
ORDER_BY (fun r => - key r) t.

(** [LIMIT n]: a negative bound means no bound. *)
Definition LIMIT (n : Z) (t : list Row) : list Row :=
if n <? 0 then t else firstn (Z.to_nat n) t.

(** [Statement::Step]: the next row of the statement, if any, and the
statement advanced past it. *)
Definition Step (s : list Row) : option (Row * list Row) :=
match s with
| [] => None
| r :: s' => Some (r, s')
end.

(** Rowid given to a row inserted with a NULL key into a table whose
key is [INTEGER PRIMARY KEY AUTOINCREMENT]: one more than the
largest rowid the table has ever held ([counter] is the table's
entry of sqlite_sequence).  The insertion fails once the largest
64-bit rowid has been used. *)
Definition largest_rowid (key : Row -> Z) (counter : Z) (t : list Row) : Z :=
fold_right (fun r m => Z.max (key r) m) counter t.

Definition next_rowid (key : Row -> Z) (counter : Z) (t : list Row)
: result Z :=
let m := largest_rowid key counter t in
if CInt.INT64_MAX <=? m then Throw ErrorCode_Backend else OK (m + 1).

End Table.

(** [Statement::ColumnInt] reads a column through a C [int] and keeps
the low 32 bits of the stored integer; [ColumnInt64] reads all of
it.  [BindInt] stores the [int] it is given. *)
Definition ColumnInt (stored : Z) : Z := CInt.to_int stored.
Definition ColumnInt64 (stored : Z) : Z := stored.
Definition BindInt (v : Z) : Z := CInt.to_int v.
Definition BindInt64 (v : Z) : Z := v.

(** [ColumnString] of a column that may hold NULL. *)
Definition ColumnString (stored : option string) : string :=
match stored with
| Some s => s
| None => EmptyString
end.

End SQLite.

(** ** Rows of the schema *)

(** Modelled from the spec: the schema script (PREPARE_DATABASE) is
    absent.  The columns of this table and of the tables below are those
    of the spec's logical schema surface, in the order in which the
    statements of DatabaseWrapper.cpp bind and read them. *)
Record ResourceRow : Type := mkResourceRow {
  internalId : Z;
  resourceType : Z;
  publicId : string;
  parentId : option Z
}.

Record MetadataRow : Type := mkMetadataRow {
  m_id : Z;
  m_type : Z;
  m_value : string
}.

Record AttachedFileRow : Type := mkAttachedFileRow {
  a_id : Z;
  a_fileType : Z;
  a_uuid : string;
  a_compressedSize : Z;
  a_uncompressedSize : Z;
  a_compressionType : Z;
  a_uncompressedMD5 : option string;
  a_compressedMD5 : option string
}.

Record TagRow : Type := mkTagRow {
  t_id : Z;
  t_tagGroup : Z;
  t_tagElement : Z;
  t_value : string
}.

Record ChangeRow : Type := mkChangeRow {
  c_seq : Z;
  c_changeType : Z;
  c_internalId : Z;
  c_resourceType : Z;
  c_date : string
}.

Record ExportedRow : Type := mkExportedRow {
  e_seq : Z;
  e_resourceType : Z;
  e_publicId : string;
  e_remoteModality : string;
  e_patientId : string;
  e_studyInstanceUid : string;
  e_seriesInstanceUid : string;
  e_sopInstanceUid : string;
  e_date : string
}.

Record RecyclingRow : Type := mkRecyclingRow {
  r_seq : Z;
  r_patientId : Z
}.

(** Modelled from the spec: the tables of the spec's logical schema
    surface, that is the content of an open connection.  The
    [_counter] fields are the sqlite_sequence entries of the tables whose
    key the statements of DatabaseWrapper.cpp insert as NULL. *)
Record Tables : Type := mkTables {
  GlobalProperties : list (Z * string);
  Resources : list ResourceRow;
  Resources_counter : Z;
  Metadata : list MetadataRow;
  AttachedFiles : list AttachedFileRow;
  MainDicomTags : list TagRow;
  DicomIdentifiers : list TagRow;
  Changes : list ChangeRow;
  Changes_counter : Z;
  ExportedResources : list ExportedRow;
  ExportedResources_counter : Z;
  PatientRecyclingOrder : list RecyclingRow;
  PatientRecyclingOrder_counter : Z
}.

Definition empty_Tables : Tables :=
  mkTables [] [] 0 [] [] [] [] [] 0 [] 0 [] 0.

Definition with_GlobalProperties (v : list (Z * string)) (t : Tables) : Tables :=
  mkTables v (Resources t) (Resources_counter t) (Metadata t)
           (AttachedFiles t) (MainDicomTags t) (DicomIdentifiers t)
           (Changes t) (Changes_counter t) (ExportedResources t)
           (ExportedResources_counter t) (PatientRecyclingOrder t)
           (PatientRecyclingOrder_counter t).

Definition with_Resources (v : list ResourceRow) (c : Z) (t : Tables) : Tables :=
  mkTables (GlobalProperties t) v c (Metadata t)
           (AttachedFiles t) (MainDicomTags t) (DicomIdentifiers t)
           (Changes t) (Changes_counter t) (ExportedResources t)
           (ExportedResources_counter t) (PatientRecyclingOrder t)
           (PatientRecyclingOrder_counter t).

Definition with_Metadata (v : list MetadataRow) (t : Tables) : Tables :=
  mkTables (GlobalProperties t) (Resources t) (Resources_counter t) v
           (AttachedFiles t) (MainDicomTags t) (DicomIdentifiers t)
           (Changes t) (Changes_counter t) (ExportedResources t)
           (ExportedResources_counter t) (PatientRecyclingOrder t)
           (PatientRecyclingOrder_counter t).

Definition with_AttachedFiles (v : list AttachedFileRow) (t : Tables) : Tables :=
  mkTables (GlobalProperties t) (Resources t) (Resources_counter t) (Metadata t)
           v (MainDicomTags t) (DicomIdentifiers t)
           (Changes t) (Changes_counter t) (ExportedResources t)
           (ExportedResources_counter t) (PatientRecyclingOrder t)
           (PatientRecyclingOrder_counter t).

Definition with_MainDicomTags (v : list TagRow) (t : Tables) : Tables :=
  mkTables (GlobalProperties t) (Resources t) (Resources_counter t) (Metadata t)
           (AttachedFiles t) v (DicomIdentifiers t)
           (Changes t) (Changes_counter t) (ExportedResources t)
           (ExportedResources_counter t) (PatientRecyclingOrder t)
           (PatientRecyclingOrder_counter t).

Definition with_DicomIdentifiers (v : list TagRow) (t : Tables) : Tables :=
  mkTables (GlobalProperties t) (Resources t) (Resources_counter t) (Metadata t)
           (AttachedFiles t) (MainDicomTags t) v
           (Changes t) (Changes_counter t) (ExportedResources t)
           (ExportedResources_counter t) (PatientRecyclingOrder t)
           (PatientRecyclingOrder_counter t).

Definition with_PatientRecyclingOrder (v : list RecyclingRow) (c : Z)
           (t : Tables) : Tables :=
  mkTables (GlobalProperties t) (Resources t) (Resources_counter t) (Metadata t)
           (AttachedFiles t) (MainDicomTags t) (DicomIdentifiers t)
           (Changes t) (Changes_counter t) (ExportedResources t)
           (ExportedResources_counter t) v c.

(* ================================================================== *)
(** * Scalar functions called by the backend (namespace Internals) *)

Module Internals.

(** The seven arguments of SignalFileDeleted as [FunctionContext]
hands them over: [GetStringValue(0)], [GetIntValue(1)],
[GetInt64Value(2)], [GetIntValue(3)], [GetInt64Value(4)], and the
two digests, [None] when [IsNullValue] holds. *)
Record FileContext : Type := mkFileContext {
fc_uuid : string;
fc_fileType : Z;
fc_uncompressedSize : Z;
fc_compressionType : Z;
fc_compressedSize : Z;
fc_uncompressedMD5 : option string;
fc_compressedMD5 : option string
}.

(** The two arguments of SignalResourceDeleted and of
SignalRemainingAncestor: [GetStringValue(0)] and [GetIntValue(1)]. *)
Record FunctionContext : Type := mkFunctionContext {
GetStringValue0 : string;
GetIntValue1 : Z
}.

Definition SignalFileDeleted_Compute (context : FileContext) : ListenerCall :=
let uncompressedMD5 :=
match fc_uncompressedMD5 context with
| Some s => s
| None => EmptyString
end in
let compressedMD5 :=
match fc_compressedMD5 context with
| Some s => s
| None => EmptyString
end in
Listener_SignalFileDeleted
(mkFileInfo (fc_uuid context)
            (fc_fileType context)
            (CInt.to_uint64 (fc_uncompressedSize context))
            uncompressedMD5
            (fc_compressionType context)
            (CInt.to_uint64 (fc_compressedSize context))
            compressedMD5).

Definition SignalResourceDeleted_Compute (context : FunctionContext)
: ListenerCall :=
let type := GetIntValue1 context in
Listener_SignalChange ChangeType_Deleted type (GetStringValue0 context).

Record SignalRemainingAncestor : Type := mkSignalRemainingAncestor {
hasRemainingAncestor_ : bool;
remainingPublicId_ : string;
remainingType_ : ResourceType
}.

(** The constructor sets the flag only; the two other members start
with whatever their default construction leaves. *)
Definition SignalRemainingAncestor_new : SignalRemainingAncestor :=
mkSignalRemainingAncestor false EmptyString 0.

Definition Reset (this : SignalRemainingAncestor) : SignalRemainingAncestor :=
mkSignalRemainingAncestor false (remainingPublicId_ this)
                        (remainingType_ this).

Definition Compute (this : SignalRemainingAncestor)
       (context : FunctionContext) : SignalRemainingAncestor :=
if negb (hasRemainingAncestor_ this)
 || (remainingType_ this >=? GetIntValue1 context)
then mkSignalRemainingAncestor true (GetStringValue0 context)
                             (GetIntValue1 context)
else this.

Definition HasRemainingAncestor (this : SignalRemainingAncestor) : bool :=
hasRemainingAncestor_ this.

Definition GetRemainingAncestorId (this : SignalRemainingAncestor) : string :=
remainingPublicId_ this.

Definition GetRemainingAncestorType (this : SignalRemainingAncestor)
: ResourceType :=
remainingType_ this.

End Internals.

(** One invocation of a registered scalar function by a running
    statement. *)
Inductive ScalarCall : Type :=
| Call_SignalFileDeleted (context : Internals.FileContext)
| Call_SignalResourceDeleted (context : Internals.FunctionContext)
| Call_SignalRemainingAncestor (context : Internals.FunctionContext).

(* ================================================================== *)
(** * Parsing the schema version *)

(** [boost::lexical_cast<unsigned int>] on a [std::string]: an optional
    sign, then one decimal digit or more and nothing else; the number
    must fit 32 bits, and a leading minus negates it in [unsigned int].
    [None] stands for [bad_lexical_cast]. *)
Module boost.

Definition digit_value (c : ascii) : option Z :=
let n := Z.of_nat (nat_of_ascii c) in
if (48 <=? n) && (n <=? 57) then Some (n - 48) else None.

Fixpoint digits_value (acc : Z) (s : string) : option Z :=
match s with
| EmptyString => Some acc
| String c s' =>
  match digit_value c with
  | None => None
  | Some d =>
      let acc' := 10 * acc + d in
      if CInt.UINT32_MAX <? acc' then None else digits_value acc' s'
  end
end.

Definition unsigned_digits (s : string) : option Z :=
match s with
| EmptyString => None
| _ => digits_value 0 s
end.

Definition lexical_cast_unsigned_int (s : string) : option Z :=
match s with
| EmptyString => None
| String c s' =>
  if Ascii.eqb c "-"%char
  then option_map (fun v => CInt.to_uint32 (0 - v)) (unsigned_digits s')
  else if Ascii.eqb c "+"%char
  then unsigned_digits s'
  else unsigned_digits s
end.

End boost.

(* ================================================================== *)
(** * DatabaseWrapper *)

Module DatabaseWrapper.

(** [listener_] is [true] when the pointer is not NULL, that is once
[SetListener] has been called. *)
Record t : Type := mk {
db_ : Tables;
listener_ : bool;
signalRemainingAncestor_ : Internals.SignalRemainingAncestor
}.

Definition with_db (tables : Tables) (this : t) : t :=
mk tables (listener_ this) (signalRemainingAncestor_ this).


(** ** Resources *)

(** Modelled from the spec: the uniqueness constraints of table
Resources belong to the absent schema script.  The spec makes the
internal id the row's identity and the public id globally unique,
and has [CreateResource] fail on a duplicate key. *)
Definition Resources_conflicts (r r' : ResourceRow) : bool :=
(internalId r =? internalId r') || String.eqb (publicId r) (publicId r').

Definition CreateResource (db : Tables) (publicId : string)
       (type : ResourceType) : result (Tables * Z) :=
id <- SQLite.next_rowid internalId (Resources_counter db) (Resources db) ;;
rows <- SQLite.INSERT Resources_conflicts
        (mkResourceRow id (SQLite.BindInt type) publicId None)
        (Resources db) ;;
OK (with_Resources rows id db, id).

(** The [assert] on a second row is not part of the result. *)
Definition LookupResource (db : Tables) (publicId' : string)
: option (Z * ResourceType) :=
let s := SQLite.SELECT_WHERE (fun r => String.eqb (publicId r) publicId')
                           (Resources db) in
match SQLite.Step s with
| None => None
| Some (row, _) =>
  Some (SQLite.ColumnInt (internalId row),
        SQLite.ColumnInt (resourceType row))
end.

Definition IsExistingResource (db : Tables) (id : Z) : bool :=
match SQLite.Step (SQLite.SELECT_WHERE
                   (fun r => internalId r =? SQLite.BindInt64 id)
                   (Resources db)) with
| None => false
| Some _ => true
end.

Definition GetPublicId (db : Tables) (resourceId : Z) : result string :=
match SQLite.Step (SQLite.SELECT_WHERE
                   (fun r => internalId r =? SQLite.BindInt64 resourceId)
                   (Resources db)) with
| None => Throw ErrorCode_UnknownResource
| Some (row, _) => OK (publicId row)
end.

Definition GetResourceType (db : Tables) (resourceId : Z)
: result ResourceType :=
match SQLite.Step (SQLite.SELECT_WHERE
                   (fun r => internalId r =? SQLite.BindInt64 resourceId)
                   (Resources db)) with
| None => Throw ErrorCode_UnknownResource
| Some (row, _) => OK (SQLite.ColumnInt (resourceType row))
end.

Definition has_parent (id : Z) (r : ResourceRow) : bool :=
match parentId r with
| Some p => p =? id
| None => false
end.

(** Modelled from the spec: the reference from [parentId] to
[internalId] belongs to the absent schema script; the spec has the
index enforce that a parent exists or is null. *)
Definition AttachChild (db : Tables) (parent child : Z) : result Tables :=
if IsExistingResource db parent
then OK (with_Resources
         (map (fun r => if internalId r =? SQLite.BindInt64 child
                        then mkResourceRow (internalId r) (resourceType r)
                                           (publicId r)
                                           (Some (SQLite.BindInt64 parent))
                        else r)
              (Resources db))
         (Resources_counter db) db)
else if IsExistingResource db child then Throw ErrorCode_Backend
else OK db.

Definition GetChildren (db : Tables) (id : Z) : list string :=
map publicId
  (SQLite.SELECT_WHERE (has_parent (SQLite.BindInt64 id)) (Resources db)).

(** The two joins: rows [a], [b] of Resources with
[a.parentId = b.internalId AND b.internalId = ?]. *)
Definition join_children (db : Tables) (id : Z) : list ResourceRow :=
flat_map
(fun b => SQLite.SELECT_WHERE (has_parent (internalId b)) (Resources db))
(SQLite.SELECT_WHERE (fun b => internalId b =? SQLite.BindInt64 id)
                     (Resources db)).

Definition GetChildrenPublicId (db : Tables) (id : Z) : list string :=
map publicId (join_children db id).

Definition GetChildrenInternalId (db : Tables) (id : Z) : list Z :=
map (fun a => SQLite.ColumnInt64 (internalId a)) (join_children db id).

(** ** Deletion *)

Section Delete.

(** What the backend does when the row [row] is removed from
Resources: the cascade rules and the triggers of the schema script,
which is absent, leave new tables and invoke scalar functions in
some order. *)
Variable ON_DELETE : Tables -> ResourceRow -> Tables * list ScalarCall.

(** [DELETE FROM Resources WHERE internalId=?]; the internal id is the
key of the table, one row at most has it. *)
Definition DELETE_FROM_Resources (db : Tables) (id : Z)
: Tables * list ScalarCall :=
match SQLite.Step (SQLite.SELECT_WHERE
               (fun r => internalId r =? SQLite.BindInt64 id)
               (Resources db)) with
| None => (db, [])
| Some (row, _) => ON_DELETE db row
end.

(** One scalar call.  SignalFileDeleted and SignalResourceDeleted exist
on the connection once [SetListener] has registered them, and hold
the listener; a statement that calls one of them on a connection
without them fails in the backend.  The SignalRemainingAncestor
object is registered by [Open] and owned by the wrapper. *)
Definition invoke (this : t) (call : ScalarCall)
: result (t * list ListenerCall) :=
match call with
| Call_SignalFileDeleted context =>
if listener_ this
then OK (this, [Internals.SignalFileDeleted_Compute context])
else Throw ErrorCode_Backend
| Call_SignalResourceDeleted context =>
if listener_ this
then OK (this, [Internals.SignalResourceDeleted_Compute context])
else Throw ErrorCode_Backend
| Call_SignalRemainingAncestor context =>
OK (mk (db_ this) (listener_ this)
     (Internals.Compute (signalRemainingAncestor_ this) context),
  [])
end.

Fixpoint invoke_all (this : t) (calls : list ScalarCall)
: result (t * list ListenerCall) :=
match calls with
| [] => OK (this, [])
| call :: calls' =>
r1 <- invoke this call ;;
let '(this1, signals1) := r1 in
r2 <- invoke_all this1 calls' ;;
let '(this2, signals2) := r2 in
OK (this2, signals1 ++ signals2)
end.

(** The wrapper after the call and the calls the listener received,
oldest first; [Throw] when the statement fails, which leaves the
tables as they were. *)
Definition DeleteResource (this : t) (id : Z)
: result (t * list ListenerCall) :=
let this0 := mk (db_ this) (listener_ this)
          (Internals.Reset (signalRemainingAncestor_ this)) in
let '(tables, calls) := DELETE_FROM_Resources (db_ this0) id in
r <- invoke_all this0 calls ;;
let '(this1, signals) := r in
let this2 := with_db tables this1 in
if Internals.HasRemainingAncestor (signalRemainingAncestor_ this2)
&& listener_ this2
then OK (this2,
signals ++
[Listener_SignalRemainingAncestor
   (Internals.GetRemainingAncestorType (signalRemainingAncestor_ this2))
   (Internals.GetRemainingAncestorId (signalRemainingAncestor_ this2))])
else OK (this2, signals).

End Delete.

(** The ancestor reports among the scalar calls of a statement. *)
Fixpoint ancestor_reports (calls : list ScalarCall)
: list Internals.FunctionContext :=
match calls with
| [] => []
| Call_SignalRemainingAncestor context :: calls' =>
  context :: ancestor_reports calls'
| _ :: calls' => ancestor_reports calls'
end.

Definition is_remaining_ancestor (c : ListenerCall) : bool :=
match c with
| Listener_SignalRemainingAncestor _ _ => true
| _ => false
end.

(** ** A cascade to run examples with *)

Definition mem (x : Z) (l : list Z) : bool := existsb (Z.eqb x) l.

(** Modelled from the spec: the cascade rules of the schema script are
absent.  The spec has the deletion remove the target and all its
descendants together with their attachments and metadata, signal
every removed attachment and every removed resource, and report
every surviving ancestor of the target.  [descendants] collects the
ids to remove, level by level. *)
Fixpoint descendants (fuel : nat) (rows : list ResourceRow) (ids : list Z)
: list Z :=
match fuel with
| O => ids
| S fuel' =>
  match filter (fun r => negb (mem (internalId r) ids)
                         && existsb (fun p => has_parent p r) ids) rows with
  | [] => ids
  | children => descendants fuel' rows (ids ++ map internalId children)
  end
end.

(** Modelled from the spec: the ancestors of [r] that the deletion
leaves in place, the nearest first. *)
Fixpoint surviving_ancestors (fuel : nat) (rows : list ResourceRow)
     (doomed : list Z) (r : ResourceRow) : list ResourceRow :=
match fuel with
| O => []
| S fuel' =>
  match parentId r with
  | None => []
  | Some p =>
      if mem p doomed then []
      else match find (fun a => internalId a =? p) rows with
           | None => []
           | Some a => a :: surviving_ancestors fuel' rows doomed a
           end
  end
end.

(** Modelled from the spec: the tables after the cascade, and its
scalar calls: the removed attachments, the removed resources, the
surviving ancestors. *)
Definition cascade (db : Tables) (row : ResourceRow)
: Tables * list ScalarCall :=
let rows := Resources db in
let doomed := descendants (List.length rows) rows [internalId row] in
let gone := fun r : ResourceRow => mem (internalId r) doomed in
(with_Resources (SQLite.DELETE_WHERE gone rows) (Resources_counter db)
 (with_AttachedFiles
    (SQLite.DELETE_WHERE (fun a => mem (a_id a) doomed) (AttachedFiles db))
    (with_Metadata
       (SQLite.DELETE_WHERE (fun m => mem (m_id m) doomed) (Metadata db))
       db)),
map (fun a => Call_SignalFileDeleted
               (Internals.mkFileContext
                  (a_uuid a) (CInt.to_int (a_fileType a))
                  (a_uncompressedSize a)
                  (CInt.to_int (a_compressionType a))
                  (a_compressedSize a)
                  (a_uncompressedMD5 a) (a_compressedMD5 a)))
   (SQLite.SELECT_WHERE (fun a => mem (a_id a) doomed) (AttachedFiles db))
++ map (fun r => Call_SignalResourceDeleted
                  (Internals.mkFunctionContext
                     (publicId r) (CInt.to_int (resourceType r))))
      (SQLite.SELECT_WHERE gone rows)
++ map (fun r => Call_SignalRemainingAncestor
                  (Internals.mkFunctionContext
                     (publicId r) (CInt.to_int (resourceType r))))
      (surviving_ancestors (List.length rows) rows doomed row)).

(** ** Metadata, attachments, tags *)

(** Modelled from the spec: the keys of the tables belong to the absent
schema script; the spec keys metadata by (resource id, metadata
kind), one value at most per key. *)
Definition Metadata_conflicts (r r' : MetadataRow) : bool :=
(m_id r =? m_id r') && (m_type r =? m_type r').

(** Modelled from the spec: one attachment at most per (resource id,
content kind). *)
Definition AttachedFiles_conflicts (r r' : AttachedFileRow) : bool :=
(a_id r =? a_id r') && (a_fileType r =? a_fileType r').

(** Modelled from the spec: tag values are keyed by (resource id, tag
group, tag element), in either of the two tables. *)
Definition Tags_conflicts (r r' : TagRow) : bool :=
(t_id r =? t_id r') && (t_tagGroup r =? t_tagGroup r')
&& (t_tagElement r =? t_tagElement r').

Definition SetMetadata (db : Tables) (id : Z) (type : MetadataType)
       (value : string) : Tables :=
with_Metadata
(SQLite.INSERT_OR_REPLACE Metadata_conflicts
   (mkMetadataRow (SQLite.BindInt64 id) (SQLite.BindInt type) value)
   (Metadata db))
db.

Definition DeleteMetadata (db : Tables) (id : Z) (type : MetadataType)
: Tables :=
with_Metadata
(SQLite.DELETE_WHERE
   (fun r => (m_id r =? SQLite.BindInt64 id)
             && (m_type r =? SQLite.BindInt type))
   (Metadata db))
db.

Definition LookupMetadata (db : Tables) (id : Z) (type : MetadataType)
: option string :=
match SQLite.Step
      (SQLite.SELECT_WHERE
         (fun r => (m_id r =? SQLite.BindInt64 id)
                   && (m_type r =? SQLite.BindInt type))
         (Metadata db)) with
| None => None
| Some (row, _) => Some (m_value row)
end.

Definition AddAttachment (db : Tables) (id : Z) (attachment : FileInfo)
: result Tables :=
rows <- SQLite.INSERT AttachedFiles_conflicts
        (mkAttachedFileRow
           (SQLite.BindInt64 id)
           (SQLite.BindInt (GetContentType attachment))
           (GetUuid attachment)
           (SQLite.BindInt64 (CInt.to_int64 (GetCompressedSize attachment)))
           (SQLite.BindInt64 (CInt.to_int64 (GetUncompressedSize attachment)))
           (SQLite.BindInt (GetCompressionType attachment))
           (Some (GetUncompressedMD5 attachment))
           (Some (GetCompressedMD5 attachment)))
        (AttachedFiles db) ;;
OK (with_AttachedFiles rows db).

Definition DeleteAttachment (db : Tables) (id : Z)
       (attachment : FileContentType) : Tables :=
with_AttachedFiles
(SQLite.DELETE_WHERE
   (fun r => (a_id r =? SQLite.BindInt64 id)
             && (a_fileType r =? SQLite.BindInt attachment))
   (AttachedFiles db))
db.

Definition LookupAttachment (db : Tables) (id : Z)
       (contentType : FileContentType) : option FileInfo :=
match SQLite.Step
      (SQLite.SELECT_WHERE
         (fun r => (a_id r =? SQLite.BindInt64 id)
                   && (a_fileType r =? SQLite.BindInt contentType))
         (AttachedFiles db)) with
| None => None
| Some (row, _) =>
  Some (mkFileInfo
          (a_uuid row)
          contentType
          (CInt.to_uint64 (SQLite.ColumnInt64 (a_uncompressedSize row)))
          (SQLite.ColumnString (a_uncompressedMD5 row))
          (SQLite.ColumnInt (a_compressionType row))
          (CInt.to_uint64 (SQLite.ColumnInt64 (a_compressedSize row)))
          (SQLite.ColumnString (a_compressedMD5 row)))
end.

Section Tags.

(** [DicomTag::IsIdentifier], the static classification of a tag; the
class DicomTag is absent. *)
Variable IsIdentifier : DicomTag -> bool.

Definition SetMainDicomTagsInternal (table : list TagRow) (id : Z)
   (tag : DicomTag) (value : string) : result (list TagRow) :=
SQLite.INSERT Tags_conflicts
(mkTagRow (SQLite.BindInt64 id) (SQLite.BindInt (GetGroup tag))
      (SQLite.BindInt (GetElement tag)) value)
table.

Definition SetMainDicomTag (db : Tables) (id : Z) (tag : DicomTag)
   (value : string) : result Tables :=
if IsIdentifier tag
then rows <- SetMainDicomTagsInternal (DicomIdentifiers db) id tag value ;;
OK (with_DicomIdentifiers rows db)
else rows <- SetMainDicomTagsInternal (MainDicomTags db) id tag value ;;
OK (with_MainDicomTags rows db).

(** [LookupIdentifier(target, tag, value)]. *)
Definition LookupIdentifier (db : Tables) (tag : DicomTag) (value : string)
: result (list Z) :=
if negb (IsIdentifier tag) then Throw ErrorCode_ParameterOutOfRange
else OK (map (fun r => SQLite.ColumnInt64 (t_id r))
       (SQLite.SELECT_WHERE
          (fun r => (t_tagGroup r =? SQLite.BindInt (GetGroup tag))
                    && (t_tagElement r =? SQLite.BindInt (GetElement tag))
                    && String.eqb (t_value r) value)
          (DicomIdentifiers db))).

End Tags.

(** [LookupIdentifier(target, value)]. *)
Definition LookupIdentifier_any (db : Tables) (value : string) : list Z :=
map (fun r => SQLite.ColumnInt64 (t_id r))
  (SQLite.SELECT_WHERE (fun r => String.eqb (t_value r) value)
                       (DicomIdentifiers db)).

(** ** The two logs *)

Definition more_rows {Row : Type} (s : list Row) : bool :=
match SQLite.Step s with
| Some _ => true
| None => false
end.

(** The loop of [GetChangesInternal]: [target] so far, the statement
[s]; the result is the final [target] and the statement where the
loop left it.  The inner [match] is the call [s.Step()]. *)
Fixpoint GetChangesInternal_loop (db : Tables) (maxResults : Z)
     (target : list ServerIndexChange.t) (s : list ChangeRow)
: result (list ServerIndexChange.t * list ChangeRow) :=
if Z.of_nat (List.length target) <? maxResults
then
match s with
| [] => OK (target, [])
| row :: s' =>
    let seq := SQLite.ColumnInt64 (c_seq row) in
    let changeType := ChangeType_of_int (SQLite.ColumnInt (c_changeType row)) in
    let resourceType := SQLite.ColumnInt (c_resourceType row) in
    let date := c_date row in
    let internalId := SQLite.ColumnInt64 (c_internalId row) in
    publicId <- GetPublicId db internalId ;;
    GetChangesInternal_loop
      db maxResults
      (target ++ [ServerIndexChange.mk seq changeType resourceType
                                      publicId date])
      s'
end
else OK (target, s).

Definition GetChangesInternal (db : Tables) (s : list ChangeRow)
       (maxResults : Z) : result (list ServerIndexChange.t * bool) :=
r <- GetChangesInternal_loop db maxResults [] s ;;
let '(target, s') := r in
OK (target,
  negb ((Z.of_nat (List.length target) =? maxResults) && more_rows s')).

(** [maxResults] is a [uint32_t]; the sum [maxResults + 1] is computed
in that type and handed to [BindInt]. *)
Definition GetChanges (db : Tables) (since maxResults : Z)
: result (list ServerIndexChange.t * bool) :=
let s := SQLite.LIMIT
         (SQLite.BindInt (CInt.to_uint32 (maxResults + 1)))
         (SQLite.ORDER_BY c_seq
            (SQLite.SELECT_WHERE
               (fun r => c_seq r >? SQLite.BindInt64 since)
               (Changes db))) in
GetChangesInternal db s maxResults.

Definition GetLastChange (db : Tables) : result (list ServerIndexChange.t) :=
r <- GetChangesInternal
     db (SQLite.LIMIT 1 (SQLite.ORDER_BY_DESC c_seq (Changes db))) 1 ;;
OK (fst r).

Definition read_ExportedResource (row : ExportedRow) : ExportedResource.t :=
let seq := SQLite.ColumnInt64 (e_seq row) in
let resourceType := SQLite.ColumnInt (e_resourceType row) in
let publicId := e_publicId row in
ExportedResource.mk seq resourceType publicId
                 (e_remoteModality row)
                 (e_date row)
                 (e_patientId row)
                 (e_studyInstanceUid row)
                 (e_seriesInstanceUid row)
                 (e_sopInstanceUid row).

Fixpoint GetExportedResourcesInternal_loop (maxResults : Z)
     (target : list ExportedResource.t) (s : list ExportedRow)
: list ExportedResource.t * list ExportedRow :=
if Z.of_nat (List.length target) <? maxResults
then
match s with
| [] => (target, [])
| row :: s' =>
    GetExportedResourcesInternal_loop
      maxResults (target ++ [read_ExportedResource row]) s'
end
else (target, s).

Definition GetExportedResourcesInternal (s : list ExportedRow)
       (maxResults : Z) : list ExportedResource.t * bool :=
let '(target, s') := GetExportedResourcesInternal_loop maxResults [] s in
(target,
negb ((Z.of_nat (List.length target) =? maxResults) && more_rows s')).

Definition GetExportedResources (db : Tables) (since maxResults : Z)
: list ExportedResource.t * bool :=
let s := SQLite.LIMIT
         (SQLite.BindInt (CInt.to_uint32 (maxResults + 1)))
         (SQLite.ORDER_BY e_seq
            (SQLite.SELECT_WHERE
               (fun r => e_seq r >? SQLite.BindInt64 since)
               (ExportedResources db))) in
GetExportedResourcesInternal s maxResults.

Definition GetLastExportedResource (db : Tables) : list ExportedResource.t :=
fst (GetExportedResourcesInternal
     (SQLite.LIMIT 1 (SQLite.ORDER_BY_DESC e_seq (ExportedResources db)))
     1).

(** ** The recycling order *)

Definition SelectPatientToRecycle (db : Tables) : option Z :=
match SQLite.Step
      (SQLite.LIMIT 1 (SQLite.ORDER_BY r_seq (PatientRecyclingOrder db))) with
| None => None
| Some (row, _) => Some (SQLite.ColumnInt (r_patientId row))
end.

(** [SelectPatientToRecycle(internalId, patientIdToAvoid)]. *)
Definition SelectPatientToRecycle_avoid (db : Tables) (patientIdToAvoid : Z)
: option Z :=
match SQLite.Step
      (SQLite.LIMIT 1
         (SQLite.ORDER_BY r_seq
            (SQLite.SELECT_WHERE
               (fun r => negb (r_patientId r
                               =? SQLite.BindInt64 patientIdToAvoid))
               (PatientRecyclingOrder db)))) with
| None => None
| Some (row, _) => Some (SQLite.ColumnInt (r_patientId row))
end.

Definition IsProtectedPatient (db : Tables) (internalId : Z) : bool :=
negb (more_rows
      (SQLite.SELECT_WHERE
         (fun r => r_patientId r =? SQLite.BindInt64 internalId)
         (PatientRecyclingOrder db))).

Definition SetProtectedPatient (db : Tables) (internalId : Z)
       (isProtected : bool) : result Tables :=
if isProtected
then OK (with_PatientRecyclingOrder
         (SQLite.DELETE_WHERE
            (fun r => r_patientId r =? SQLite.BindInt64 internalId)
            (PatientRecyclingOrder db))
         (PatientRecyclingOrder_counter db) db)
else if IsProtectedPatient db internalId
then seq <- SQLite.next_rowid r_seq (PatientRecyclingOrder_counter db)
                            (PatientRecyclingOrder db) ;;
   OK (with_PatientRecyclingOrder
         (PatientRecyclingOrder db
          ++ [mkRecyclingRow seq (SQLite.BindInt64 internalId)])
         seq db)
else OK db.

(** ** Global properties *)

Definition GlobalProperties_conflicts (r r' : Z * string) : bool :=
fst r =? fst r'.

Definition SetGlobalProperty (db : Tables) (property : GlobalProperty)
       (value : string) : Tables :=
with_GlobalProperties
(SQLite.INSERT_OR_REPLACE GlobalProperties_conflicts
   (SQLite.BindInt property, value) (GlobalProperties db))
db.

Definition LookupGlobalProperty (db : Tables) (property : GlobalProperty)
: option string :=
match SQLite.Step
      (SQLite.SELECT_WHERE (fun r => fst r =? SQLite.BindInt property)
                           (GlobalProperties db)) with
| None => None
| Some (row, _) => Some (snd row)
end.

(** ** Opening the store *)

(** The scripts embedded in the executable. *)
Inductive FileResourceId : Type :=
| PREPARE_DATABASE
| UPGRADE_DATABASE_3_TO_4
| UPGRADE_DATABASE_4_TO_5.

(** Modelled from the spec: the macro is defined outside
DatabaseWrapper.cpp; the spec has the 4-to-5 migration arrive at the
single hard-coded current version. *)
Definition ORTHANC_DATABASE_VERSION : Z := 5.

(** A connection: whether table GlobalProperties exists, the content
of the tables, and the scripts executed on the connection so far,
oldest first. *)
Record Connection : Type := mkConnection {
DoesTableExist_GlobalProperties : bool;
tables : Tables;
executed : list FileResourceId
}.

Section Open.

(** The effect of a script on the tables; the text of the embedded
scripts is absent. *)
Variable Execute : FileResourceId -> Tables -> Tables.

Definition Execute_script (script : FileResourceId) (c : Connection)
: Connection :=
mkConnection true (Execute script (tables c)) (executed c ++ [script]).

(** [BeginTransaction], [Execute], [CommitTransaction]. *)
Definition UpgradeDatabase (c : Connection) (script : FileResourceId)
: Connection :=
Execute_script script c.

(** The connection as [Open] leaves it, and the wrapper when [Open]
returns normally.  The PRAGMA statements do not touch the
tables. *)
Definition Open (c : Connection) : Connection * result t :=
let c :=
if negb (DoesTableExist_GlobalProperties c)
then Execute_script PREPARE_DATABASE c
else c in
let version :=
match LookupGlobalProperty (tables c)
                       GlobalProperty_DatabaseSchemaVersion with
| Some version => version
| None => "Unknown"
end in
match boost.lexical_cast_unsigned_int version with
| None => (c, Throw ErrorCode_IncompatibleDatabaseVersion)
| Some v =>
let ok := (v =? 3) || (v =? 4) || (v =? 5) in
let '(c, v) :=
if v =? 3
then (UpgradeDatabase c UPGRADE_DATABASE_3_TO_4, 4)
else (c, v) in
let '(c, v) :=
if v =? 4
then (UpgradeDatabase c UPGRADE_DATABASE_4_TO_5, 5)
else (c, v) in
if negb (ORTHANC_DATABASE_VERSION =? v)
then (c, Throw ErrorCode_InternalError)
else if negb ok
then (c, Throw ErrorCode_IncompatibleDatabaseVersion)
else (c, OK (mk (tables c) false
              Internals.SignalRemainingAncestor_new))
end.

End Open.

(** ** Parents *)

(** [None] stands for a [false] return, the parent being NULL. *)
Definition LookupParent (db : Tables) (resourceId : Z) : result (option Z) :=
  match SQLite.Step (SQLite.SELECT_WHERE
                       (fun r => internalId r =? SQLite.BindInt64 resourceId)
                       (Resources db)) with
  | None => Throw ErrorCode_UnknownResource
  | Some (row, _) =>
      match parentId row with
      | None => OK None
      | Some parent => OK (Some (SQLite.ColumnInt parent))
      end
  end.

(** The join of [GetParentPublicId]: rows [a], [b] of Resources with
    [a.internalId = b.parentId AND b.internalId = ?], the rows of [b]
    in the outer loop as in [join_children]. *)
Definition join_parent (db : Tables) (id : Z) : list ResourceRow :=
  flat_map
    (fun b => SQLite.SELECT_WHERE
                (fun a => match parentId b with
                          | Some parent => internalId a =? parent
                          | None => false
                          end)
                (Resources db))
    (SQLite.SELECT_WHERE (fun b => internalId b =? SQLite.BindInt64 id)
                         (Resources db)).

Definition GetParentPublicId (db : Tables) (id : Z) : option string :=
  match SQLite.Step (join_parent db id) with
  | Some (a, _) => Some (publicId a)
  | None => None
  end.

(** ** Listings *)

Definition ListAvailableMetadata (db : Tables) (id : Z) : list MetadataType :=
  map (fun r => SQLite.ColumnInt (m_type r))
      (SQLite.SELECT_WHERE (fun r => m_id r =? SQLite.BindInt64 id)
                           (Metadata db)).

(** A [std::map<MetadataType, std::string>] as the list of its pairs in
    the order of the keys; [std_map_set] is the assignment
    [target[key] = value]. *)
Fixpoint std_map_set (key : Z) (value : string) (target : list (Z * string))
  : list (Z * string) :=
  match target with
  | [] => [(key, value)]
  | (key', value') :: target' =>
      if key <? key' then (key, value) :: target
      else if key =? key' then (key, value) :: target'
      else (key', value') :: std_map_set key value target'
  end.

Definition std_map_find (key : Z) (target : list (Z * string)) : option string :=
  match find (fun kv => fst kv =? key) target with
  | Some kv => Some (snd kv)
  | None => None
  end.

Definition GetAllMetadata (db : Tables) (id : Z) : list (Z * string) :=
  fold_left
    (fun target row =>
       let key := SQLite.ColumnInt (m_type row) in
       std_map_set key (m_value row) target)
    (SQLite.SELECT_WHERE (fun r => m_id r =? SQLite.BindInt64 id) (Metadata db))
    [].

Definition ListAvailableAttachments (db : Tables) (id : Z)
  : list FileContentType :=
  map (fun r => SQLite.ColumnInt (a_fileType r))
      (SQLite.SELECT_WHERE (fun r => a_id r =? SQLite.BindInt64 id)
                           (AttachedFiles db)).

(** The calls [map.SetValue(group, element, value)] that
    [GetMainDicomTags] makes on the cleared map, in order: the rows of
    MainDicomTags, then those of DicomIdentifiers. *)
Definition GetMainDicomTags (db : Tables) (id : Z) : list (Z * Z * string) :=
  map (fun s => (SQLite.ColumnInt (t_tagGroup s),
                 SQLite.ColumnInt (t_tagElement s),
                 t_value s))
      (SQLite.SELECT_WHERE (fun r => t_id r =? SQLite.BindInt64 id)
                           (MainDicomTags db))
  ++ map (fun s2 => (SQLite.ColumnInt (t_tagGroup s2),
                     SQLite.ColumnInt (t_tagElement s2),
                     t_value s2))
         (SQLite.SELECT_WHERE (fun r => t_id r =? SQLite.BindInt64 id)
                              (DicomIdentifiers db)).

Definition GetAllPublicIds (db : Tables) (resourceType' : ResourceType)
  : list string :=
  map publicId
      (SQLite.SELECT_WHERE
         (fun r => resourceType r =? SQLite.BindInt resourceType')
         (Resources db)).

(** [SELECT COUNT( * )] delivers one row; the count is read through
    [ColumnInt] into an [int64_t] and returned as a [uint64_t]. *)
Definition GetResourceCount (db : Tables) (resourceType' : ResourceType)
  : result Z :=
  let s := [Z.of_nat
              (List.length
                 (SQLite.SELECT_WHERE
                    (fun r => resourceType r =? SQLite.BindInt resourceType')
                    (Resources db)))] in
  match SQLite.Step s with
  | None => Throw ErrorCode_InternalError
  | Some (count, _) =>
      let c := CInt.to_int64 (SQLite.ColumnInt count) in
      OK (CInt.to_uint64 c)
  end.

(** ** Writing the two logs *)

Definition append_Change (row : ChangeRow) (db : Tables) : Tables :=
  mkTables (GlobalProperties db) (Resources db) (Resources_counter db)
           (Metadata db) (AttachedFiles db) (MainDicomTags db)
           (DicomIdentifiers db)
           (Changes db ++ [row]) (c_seq row) (ExportedResources db)
           (ExportedResources_counter db) (PatientRecyclingOrder db)
           (PatientRecyclingOrder_counter db).

Definition append_ExportedResource (row : ExportedRow) (db : Tables) : Tables :=
  mkTables (GlobalProperties db) (Resources db) (Resources_counter db)
           (Metadata db) (AttachedFiles db) (MainDicomTags db)
           (DicomIdentifiers db)
           (Changes db) (Changes_counter db)
           (ExportedResources db ++ [row]) (e_seq row)
           (PatientRecyclingOrder db) (PatientRecyclingOrder_counter db).

Section LogChange.

(** The integer of the enumerator [ChangeType_Deleted]; its declaration
    is absent. *)
Variable ChangeType_Deleted_value : Z.

Definition ChangeType_to_int (change : ChangeType) : Z :=
  match change with
  | ChangeType_Deleted => ChangeType_Deleted_value
  | ChangeType_of_int v => v
  end.

Definition LogChange (db : Tables) (internalId : Z)
           (change : ServerIndexChange.t) : result Tables :=
  seq <- SQLite.next_rowid c_seq (Changes_counter db) (Changes db) ;;
  OK (append_Change
        (mkChangeRow
           seq
           (SQLite.BindInt
              (ChangeType_to_int (ServerIndexChange.GetChangeType change)))
           (SQLite.BindInt64 internalId)
           (SQLite.BindInt (ServerIndexChange.GetResourceType change))
           (ServerIndexChange.GetDate change))
        db).

End LogChange.

Definition LogExportedResource (db : Tables) (resource : ExportedResource.t)
  : result Tables :=
  seq <- SQLite.next_rowid e_seq (ExportedResources_counter db)
                           (ExportedResources db) ;;
  OK (append_ExportedResource
        (mkExportedRow
           seq
           (SQLite.BindInt (ExportedResource.GetResourceType resource))
           (ExportedResource.GetPublicId resource)
           (ExportedResource.GetModality resource)
           (ExportedResource.GetPatientId resource)
           (ExportedResource.GetStudyInstanceUid resource)
           (ExportedResource.GetSeriesInstanceUid resource)
           (ExportedResource.GetSopInstanceUid resource)
           (ExportedResource.GetDate resource))
        db).

End DatabaseWrapper.

(* ================================================================== *)
(** * Facts about machine integers and [result] *)

Lemma to_int_fits (x : Z) : CInt.fits_int x -> CInt.to_int x = x.
Proof.
  unfold CInt.fits_int, CInt.INT_MIN, CInt.INT_MAX, CInt.to_int, CInt.wrap_signed.
  intros H. change (2 ^ (32 - 1)) with 2147483648 in *.
  change (2 ^ 31) with 2147483648 in *.
  change (2 ^ 32) with 4294967296.
  rewrite Z.mod_small; lia.
Qed.

Lemma to_int_range (x : Z) : CInt.fits_int (CInt.to_int x).
Proof.
  unfold CInt.fits_int, CInt.INT_MIN, CInt.INT_MAX, CInt.to_int, CInt.wrap_signed.
  change (2 ^ (32 - 1)) with 2147483648.
  change (2 ^ 31) with 2147483648.
  change (2 ^ 32) with 4294967296.
  pose proof (Z.mod_pos_bound (x + 2147483648) 4294967296 ltac:(lia)).
  lia.
Qed.

Lemma to_int_id_iff (x : Z) : CInt.to_int x = x <-> CInt.fits_int x.
Proof.
  split; [ intros <-; apply to_int_range | apply to_int_fits ].
Qed.

Lemma to_uint32_small (x : Z) :
  0 <= x <= CInt.UINT32_MAX -> CInt.to_uint32 x = x.
Proof.
  unfold CInt.UINT32_MAX, CInt.to_uint32, CInt.wrap_unsigned.
  change (2 ^ 32) with 4294967296. intros H.
  apply Z.mod_small; lia.
Qed.

Lemma bind_OK_inv {A B} (m : result A) (k : A -> result B) (b : B) :
  bind m k = OK b -> exists a, m = OK a /\ k a = OK b.
Proof.
  destruct m as [a | e]; simpl; intros H; [ eauto | discriminate ].
Qed.

Lemma bind_Throw_inv {A B} (m : result A) (k : A -> result B) (e : ErrorCode) :
  bind m k = Throw e ->
  m = Throw e \/ exists a, m = OK a /\ k a = Throw e.
Proof.
  destruct m as [a | e']; simpl; intros H; [ right; eauto | left; congruence ].
Qed.

(* ================================================================== *)
(** * Deletion and the remaining ancestor *)

Import DatabaseWrapper.

Definition kind_of (r : Internals.FunctionContext) : ResourceType :=
  Internals.GetIntValue1 r.

(** [r] is the report that the accumulator keeps out of [reports]: no
    report has a smaller kind, and no later report has the same kind. *)
Definition topmost_latest (reports : list Internals.FunctionContext)
           (r : Internals.FunctionContext) : Prop :=
  exists before after,
    reports = before ++ r :: after
    /\ (forall x, In x before -> kind_of r <= kind_of x)
    /\ (forall x, In x after -> kind_of r < kind_of x).

Lemma Compute_replaces (acc : Internals.SignalRemainingAncestor)
      (context : Internals.FunctionContext) :
  Internals.hasRemainingAncestor_ acc = false
  \/ kind_of context <= Internals.remainingType_ acc ->
  Internals.Compute acc context
  = Internals.mkSignalRemainingAncestor
      true (Internals.GetStringValue0 context) (kind_of context).
Proof.
  unfold Internals.Compute, kind_of. intros [H | H].
  - rewrite H. reflexivity.
  - replace (Internals.remainingType_ acc >=? Internals.GetIntValue1 context)
      with true by (symmetry; apply Z.geb_le; exact H).
    rewrite orb_true_r. reflexivity.
Qed.

Lemma Compute_keeps (acc : Internals.SignalRemainingAncestor)
      (context : Internals.FunctionContext) :
  Internals.hasRemainingAncestor_ acc = true ->
  Internals.remainingType_ acc < kind_of context ->
  Internals.Compute acc context = acc.
Proof.
  unfold Internals.Compute, kind_of. intros H Hlt. rewrite H. simpl.
  destruct (Internals.remainingType_ acc >=? Internals.GetIntValue1 context) eqn:E;
    [ apply Z.geb_le in E; lia | reflexivity ].
Qed.

(** The accumulator after a run of reports that starts from a reset
    accumulator. *)
Lemma fold_Compute_topmost (reports : list Internals.FunctionContext) :
  forall acc,
    Internals.hasRemainingAncestor_ acc = false ->
    reports <> [] ->
    exists r,
      topmost_latest reports r
      /\ fold_left Internals.Compute reports acc
         = Internals.mkSignalRemainingAncestor
             true (Internals.GetStringValue0 r) (kind_of r).
Proof.
  induction reports as [| x l IH] using rev_ind; intros acc Hacc Hne.
  - congruence.
  - rewrite fold_left_app. simpl. destruct l as [| y l'].
    + exists x. split.
      * exists [], []. repeat split; simpl; tauto.
      * simpl. apply Compute_replaces. left; exact Hacc.
    + destruct (IH acc Hacc ltac:(discriminate)) as (r & (before & after & Hsplit & Hb & Ha) & Hfold).
      rewrite Hfold. destruct (Z_lt_le_dec (kind_of r) (kind_of x)) as [Hlt | Hle].
      * exists r. split.
        -- exists before, (after ++ [x]). repeat split.
           ++ rewrite Hsplit, <- app_assoc. reflexivity.
           ++ exact Hb.
           ++ intros z Hz. apply in_app_or in Hz. destruct Hz as [Hz | [<- | []]];
                [ apply Ha; exact Hz | exact Hlt ].
        -- apply Compute_keeps; [ reflexivity | exact Hlt ].
      * exists x. split.
        -- exists (y :: l'), []. repeat split.
           ++ intros z Hz. rewrite Hsplit in Hz. apply in_app_or in Hz.
              destruct Hz as [Hz | [<- | Hz]].
              ** specialize (Hb z Hz). lia.
              ** exact Hle.
              ** specialize (Ha z Hz). lia.
           ++ intros z [].
        -- apply Compute_replaces. right. exact Hle.
Qed.

Section DeleteFacts.

Variable ON_DELETE : Tables -> ResourceRow -> Tables * list ScalarCall.

(** The scalar calls of a statement that runs leave the tables and the
listener of the wrapper alone, feed the ancestor reports to the
accumulator in order, and make no remaining-ancestor call to the
listener.  The statement fails only on a connection on which
[SetListener] has not registered the two functions of the
listener. *)
Lemma invoke_all_spec (calls : list ScalarCall) :
forall this,
match invoke_all this calls with
| OK (this', signals) =>
  this' = mk (db_ this) (listener_ this)
             (fold_left Internals.Compute (ancestor_reports calls)
                        (signalRemainingAncestor_ this))
  /\ filter is_remaining_ancestor signals = []
| Throw e => e = ErrorCode_Backend /\ listener_ this = false
end.
Proof.
induction calls as [| call calls IH]; intros this; simpl.
- destruct this; auto.
- destruct call as [context | context | context]; simpl.
+ destruct (listener_ this) eqn:E; simpl; [ | auto ].
  specialize (IH this). destruct (invoke_all this calls) as [[this2 signals2] | e];
    simpl; rewrite E in IH; exact IH.
+ destruct (listener_ this) eqn:E; simpl; [ | auto ].
  specialize (IH this). destruct (invoke_all this calls) as [[this2 signals2] | e];
    simpl; rewrite E in IH; exact IH.
+ match goal with
  | |- context [invoke_all ?x calls] =>
      specialize (IH x); destruct (invoke_all x calls) as [[this2 signals2] | e]
  end; simpl in *; exact IH.
Qed.

End DeleteFacts.

(** ** Examples of stores *)

(** A patient, one study of it, one series of that study. *)
Definition three_levels : Tables :=
  with_Resources
    [ mkResourceRow 1 ResourceType_Patient "patient" None;
      mkResourceRow 2 ResourceType_Study "study" (Some 1);
      mkResourceRow 3 ResourceType_Series "series" (Some 2) ]
    3 empty_Tables.

Definition wrapper_of (db : Tables) (listener : bool) : t :=
  mk db listener Internals.SignalRemainingAncestor_new.

Example cascade_three_levels :
  exists this',
    DeleteResource cascade (wrapper_of three_levels true) 3
    = OK (this',
          [ Listener_SignalChange ChangeType_Deleted ResourceType_Series "series";
            Listener_SignalRemainingAncestor ResourceType_Patient "patient" ]).
Proof. eexists. vm_compute. reflexivity. Qed.

(** Before [SetListener] the function that the deletion of a resource
    calls is not registered, and the statement fails. *)
Example DeleteResource_before_SetListener :
  DeleteResource cascade (wrapper_of three_levels false) 3
  = Throw ErrorCode_Backend.
Proof. vm_compute. reflexivity. Qed.

(** C1: [DeleteResource] resets the accumulator and feeds it the
    surviving-ancestor reports of the statement in order.  On a wrapper
    whose listener is registered the call returns; when at least one
    report was produced the listener receives exactly one
    SignalRemainingAncestor call, as the last call before
    [DeleteResource] returns; it names a report whose kind no report
    undercuts and which no later report equals in kind (the topmost
    ancestor, the most recent one on a tie).  When no report was produced
    no such call is made. *)
Theorem DeleteResource_signals_topmost_ancestor
        (ON_DELETE : Tables -> ResourceRow -> Tables * list ScalarCall)
        (this : t) (id : Z) :
  listener_ this = true ->
  let reports :=
    ancestor_reports (snd (DELETE_FROM_Resources ON_DELETE (db_ this) id)) in
  exists this' signals,
    DeleteResource ON_DELETE this id = OK (this', signals)
    /\ (reports = [] -> filter is_remaining_ancestor signals = [])
    /\ (reports <> [] ->
        exists r earlier,
          topmost_latest reports r
          /\ signals
             = earlier ++ [Listener_SignalRemainingAncestor
                             (kind_of r) (Internals.GetStringValue0 r)]
          /\ filter is_remaining_ancestor earlier = []).
Proof.
  intros Hl. unfold DeleteResource. simpl.
  destruct (DELETE_FROM_Resources ON_DELETE (db_ this) id) as [tables calls].
  simpl.
  pose proof (invoke_all_spec calls
                (mk (db_ this) (listener_ this)
                    (Internals.Reset (signalRemainingAncestor_ this)))) as H.
  destruct (invoke_all _ calls) as [[this1 signals] | e]; simpl in H;
    [ | destruct H as [_ H]; congruence ].
  destruct H as (-> & Hfilter). simpl.
  unfold Internals.HasRemainingAncestor, Internals.GetRemainingAncestorType,
    Internals.GetRemainingAncestorId.
  rewrite Hl, andb_true_r.
  destruct (ancestor_reports calls) as [| report reports] eqn:Er.
  - simpl. eexists. exists signals. split; [ reflexivity | ].
    split; [ intros _; exact Hfilter | intros Hne; elim Hne; reflexivity ].
  - assert (Hne : report :: reports <> []) by discriminate.
    destruct (@fold_Compute_topmost (report :: reports)
                (Internals.Reset (signalRemainingAncestor_ this))
                eq_refl Hne) as (r & Htop & Hfold).
    rewrite Hfold. simpl. eexists. eexists. split; [ reflexivity | ].
    split; [ discriminate | ].
    intros _. exists r, signals. auto.
Qed.

Lemma DeleteResource_signals_topmost_ancestor_witness :
  exists this' signals,
    DeleteResource cascade (wrapper_of three_levels true) 3 = OK (this', signals)
    /\ exists r earlier,
        topmost_latest
          (ancestor_reports
             (snd (DELETE_FROM_Resources cascade
                     (db_ (wrapper_of three_levels true)) 3))) r
        /\ signals
           = earlier ++ [Listener_SignalRemainingAncestor
                           (kind_of r) (Internals.GetStringValue0 r)]
        /\ filter is_remaining_ancestor earlier = [].
Proof.
  destruct (@DeleteResource_signals_topmost_ancestor
              cascade (wrapper_of three_levels true) 3 eq_refl)
    as (this' & signals & Hrun & _ & H).
  exists this', signals. split; [ exact Hrun | ].
  apply H. vm_compute. discriminate.
Defined.

(** C5: [DeleteResource] on an id that table Resources does not hold
    returns with the tables unchanged and without any call to the
    listener. *)
Theorem DeleteResource_unknown_id
        (ON_DELETE : Tables -> ResourceRow -> Tables * list ScalarCall)
        (this : t) (id : Z) :
  IsExistingResource (db_ this) id = false ->
  DeleteResource ON_DELETE this id
  = OK (mk (db_ this) (listener_ this)
           (Internals.Reset (signalRemainingAncestor_ this)),
        []).
Proof.
  unfold IsExistingResource, DeleteResource, DELETE_FROM_Resources. simpl.
  destruct (SQLite.Step _) as [[row rest] |]; [ discriminate | intros _ ].
  simpl. reflexivity.
Qed.

Lemma DeleteResource_unknown_id_witness :
  DeleteResource cascade (wrapper_of three_levels true) 7
  = OK (mk three_levels true
           (Internals.Reset Internals.SignalRemainingAncestor_new),
        []).
Proof.
  apply (DeleteResource_unknown_id cascade (wrapper_of three_levels true) 7).
  vm_compute. reflexivity.
Defined.

(* ================================================================== *)
(** * Statements on lists of rows *)

Section TableFacts.

Context {Row : Type}.

Lemma existsb_false_filter (p : Row -> bool) (t : list Row) :
existsb p t = false -> filter p t = [].
Proof.
induction t as [| x t IH]; simpl; [ reflexivity | ].
destruct (p x); simpl; [ discriminate | exact IH ].
Qed.

Lemma filter_nil_existsb (p : Row -> bool) (t : list Row) :
filter p t = [] -> existsb p t = false.
Proof.
induction t as [| x t IH]; simpl; [ reflexivity | ].
destruct (p x); simpl; [ discriminate | exact IH ].
Qed.

Lemma INSERT_OK_inv (conflicts : Row -> Row -> bool) (r : Row)
  (t t' : list Row) :
SQLite.INSERT conflicts r t = OK t' ->
existsb (conflicts r) t = false /\ t' = t ++ [r].
Proof.
unfold SQLite.INSERT. destruct (existsb (conflicts r) t);
[ discriminate | intros [= <-]; auto ].
Qed.

Lemma INSERT_conflict (conflicts : Row -> Row -> bool) (r r' : Row)
  (t : list Row) :
In r' t -> conflicts r r' = true ->
SQLite.INSERT conflicts r t = Throw ErrorCode_Backend.
Proof.
intros Hin Hc. unfold SQLite.INSERT.
replace (existsb (conflicts r) t) with true; [ reflexivity | ].
symmetry. apply existsb_exists. exists r'. auto.
Qed.

Lemma Step_SELECT_None (p : Row -> bool) (t : list Row) :
SQLite.Step (SQLite.SELECT_WHERE p t) = None <-> existsb p t = false.
Proof.
unfold SQLite.Step, SQLite.SELECT_WHERE. split.
- destruct (filter p t) eqn:E; [ intros _ | discriminate ].
apply filter_nil_existsb. exact E.
- intros H. rewrite (existsb_false_filter _ _ H). reflexivity.
Qed.

Lemma largest_rowid_bound (key : Row -> Z) (counter : Z) (t : list Row) :
counter <= SQLite.largest_rowid key counter t
/\ forall r, In r t -> key r <= SQLite.largest_rowid key counter t.
Proof.
induction t as [| x t [IHc IHr]]; simpl.
- split; [ lia | tauto ].
- split; [ lia | ].
intros r [<- | Hr]; [ lia | specialize (IHr r Hr); lia ].
Qed.

Lemma next_rowid_fresh (key : Row -> Z) (counter : Z) (t : list Row) (id : Z) :
SQLite.next_rowid key counter t = OK id ->
counter < id /\ forall r, In r t -> key r < id.
Proof.
unfold SQLite.next_rowid.
destruct (CInt.INT64_MAX <=? _); [ discriminate | intros [= <-] ].
destruct (largest_rowid_bound key counter t) as [Hc Hr].
split; [ lia | intros r Hin; specialize (Hr r Hin); lia ].
Qed.

End TableFacts.

(* ================================================================== *)
(** * Resources *)

(** The reference of the schema from a row to its parent. *)
Definition parents_exist (db : Tables) : Prop :=
  forall r p,
    In r (Resources db) -> parentId r = Some p ->
    IsExistingResource db p = true.

Lemma IsExistingResource_true (db : Tables) (id : Z) :
  IsExistingResource db id = true
  <-> exists r, In r (Resources db) /\ internalId r = id.
Proof.
  unfold IsExistingResource, SQLite.BindInt64.
  destruct (SQLite.Step _) as [[row rest] |] eqn:E.
  - split; [ intros _ | reflexivity ].
    unfold SQLite.Step, SQLite.SELECT_WHERE in E.
    destruct (filter _ _) as [| x l] eqn:F; [ discriminate | injection E as -> -> ].
    assert (Hin : In row (filter (fun r => internalId r =? id) (Resources db)))
      by (rewrite F; left; reflexivity).
    apply filter_In in Hin. destruct Hin as [Hin Heq].
    exists row. split; [ exact Hin | apply Z.eqb_eq; exact Heq ].
  - split; [ discriminate | ].
    intros (r & Hin & Heq). apply Step_SELECT_None in E.
    assert (existsb (fun r => internalId r =? id) (Resources db) = true)
      by (apply existsb_exists; exists r; split; [ exact Hin | apply Z.eqb_eq; exact Heq ]).
    congruence.
Qed.

Lemma CreateResource_inv (db db' : Tables) (pub : string) (type : ResourceType)
      (id : Z) :
  CreateResource db pub type = OK (db', id) ->
  let row := mkResourceRow id (SQLite.BindInt type) pub None in
  db' = with_Resources (Resources db ++ [row]) id db
  /\ (forall r, In r (Resources db) -> internalId r < id)
  /\ (forall r, In r (Resources db) -> publicId r <> pub).
Proof.
  unfold CreateResource. intros H.
  apply bind_OK_inv in H. destruct H as (id' & Hid & H).
  apply bind_OK_inv in H. destruct H as (rows & Hins & H).
  injection H as <- <-.
  apply INSERT_OK_inv in Hins. destruct Hins as [Hno ->].
  apply next_rowid_fresh in Hid. destruct Hid as [_ Hfresh].
  simpl. repeat split; [ exact Hfresh | ].
  intros r Hin Heq.
  assert (existsb (Resources_conflicts (mkResourceRow id' (SQLite.BindInt type) pub None))
                  (Resources db) = true).
  { apply existsb_exists. exists r. split; [ exact Hin | ].
    unfold Resources_conflicts. simpl. rewrite <- Heq, String.eqb_refl.
    apply orb_true_r. }
  congruence.
Qed.

(** What [LookupResource] answers after a successful [CreateResource]:
    the new row, its id and its kind read back through a C [int]. *)
Lemma LookupResource_after_CreateResource (db db' : Tables) (pub : string)
      (type : ResourceType) (id : Z) :
  CreateResource db pub type = OK (db', id) ->
  LookupResource db' pub = Some (CInt.to_int id, CInt.to_int (CInt.to_int type))
  /\ In (mkResourceRow id (CInt.to_int type) pub None) (Resources db').
Proof.
  intros H. apply CreateResource_inv in H. simpl in H.
  destruct H as (-> & _ & Hpub). split.
  - unfold LookupResource, SQLite.SELECT_WHERE. simpl.
    rewrite filter_app. simpl. rewrite String.eqb_refl.
    rewrite existsb_false_filter.
    + reflexivity.
    + destruct (existsb _ (Resources db)) eqn:E; [ | reflexivity ].
      apply existsb_exists in E. destruct E as (r & Hin & Heq).
      apply String.eqb_eq in Heq. elim (Hpub r Hin Heq).
  - simpl. apply in_or_app. right. left. reflexivity.
Qed.

(** The round trip of the spec, for ids and kinds that fit a C [int]. *)
Lemma LookupResource_after_CreateResource_int (db db' : Tables) (pub : string)
      (type : ResourceType) (id : Z) :
  CreateResource db pub type = OK (db', id) ->
  CInt.fits_int id -> CInt.fits_int type ->
  LookupResource db' pub = Some (id, type).
Proof.
  intros H Hid Htype.
  destruct (LookupResource_after_CreateResource _ _ _ H) as [-> _].
  rewrite (to_int_fits Htype), (to_int_fits Htype), (to_int_fits Hid).
  reflexivity.
Qed.

(** A store in which the largest internal id handed out so far is the
    largest C [int]. *)
Definition store_at_INT_MAX : Tables :=
  with_Resources
    [mkResourceRow CInt.INT_MAX ResourceType_Patient "old" None]
    CInt.INT_MAX empty_Tables.

(** C9 (the code at the failing input): in a store that has handed out
    2147483647 as an internal id, [CreateResource] succeeds and returns
    2147483648, and [LookupResource] of the same public id returns
    -2147483648: the id column is read with [ColumnInt]. *)
Theorem LookupResource_truncates_internal_id :
  exists db',
    CreateResource store_at_INT_MAX "a" ResourceType_Patient
    = OK (db', 2147483648)
    /\ LookupResource db' "a" = Some (-2147483648, ResourceType_Patient).
Proof.
  exists (with_Resources
            [mkResourceRow CInt.INT_MAX ResourceType_Patient "old" None;
             mkResourceRow 2147483648 ResourceType_Patient "a" None]
            2147483648 store_at_INT_MAX).
  split; vm_compute; reflexivity.
Qed.

Lemma unknown_id_selects_nothing (db : Tables) (id : Z) :
  IsExistingResource db id = false ->
  SQLite.SELECT_WHERE (fun r => internalId r =? SQLite.BindInt64 id)
                      (Resources db) = [].
Proof.
  unfold IsExistingResource. intros H.
  destruct (SQLite.Step _) as [[row rest] |] eqn:E; [ discriminate | ].
  apply Step_SELECT_None in E. apply existsb_false_filter. exact E.
Qed.

Lemma no_child_selects_nothing (db : Tables) (id : Z) :
  (forall r, In r (Resources db) -> parentId r <> Some id) ->
  SQLite.SELECT_WHERE (has_parent id) (Resources db) = [].
Proof.
  intros H. apply existsb_false_filter.
  destruct (existsb _ _) eqn:E; [ | reflexivity ].
  apply existsb_exists in E. destruct E as (r & Hin & Hp).
  unfold has_parent in Hp. destruct (parentId r) as [p |] eqn:Ep; [ | discriminate ].
  apply Z.eqb_eq in Hp. subst p. elim (H r Hin Ep).
Qed.

Lemma flat_map_nil {A B : Type} (f : A -> list B) (l : list A) :
  (forall x, In x l -> f x = []) -> flat_map f l = [].
Proof.
  induction l as [| x l IH]; simpl; intros H; [ reflexivity | ].
  rewrite (H x (or_introl eq_refl)), IH; [ reflexivity | ].
  intros y Hy. apply H. right. exact Hy.
Qed.

Lemma join_children_childless (db : Tables) (id : Z) :
  (forall r, In r (Resources db) -> parentId r <> Some id) ->
  join_children db id = [].
Proof.
  intros H. unfold join_children, SQLite.BindInt64.
  apply flat_map_nil. intros b Hb.
  apply filter_In in Hb. destruct Hb as [_ Hb]. apply Z.eqb_eq in Hb.
  rewrite Hb. apply no_child_selects_nothing. exact H.
Qed.

(** C10: for an id without row in Resources the three child listings
    return the empty list, where [GetResourceType] and [GetPublicId]
    throw UnknownResource; a resource without children gets the same
    empty answer from the three listings.  For [GetChildren], which does
    not join with the row of the parent, the store satisfies the
    reference of the schema from [parentId] to [internalId]. *)
Theorem children_of_unknown_id (db : Tables) (id : Z) :
  IsExistingResource db id = false ->
  ((parents_exist db -> GetChildren db id = [])
   /\ GetChildrenPublicId db id = []
   /\ GetChildrenInternalId db id = [])
  /\ (GetResourceType db id = Throw ErrorCode_UnknownResource
      /\ DatabaseWrapper.GetPublicId db id = Throw ErrorCode_UnknownResource)
  /\ (forall id',
         (forall r, In r (Resources db) -> parentId r <> Some id') ->
         GetChildren db id' = []
         /\ GetChildrenPublicId db id' = []
         /\ GetChildrenInternalId db id' = []).
Proof.
  intros Hid.
  assert (Hselect := unknown_id_selects_nothing db id Hid).
  assert (Hchildless :
            forall id',
              (forall r, In r (Resources db) -> parentId r <> Some id') ->
              GetChildren db id' = []
              /\ GetChildrenPublicId db id' = []
              /\ GetChildrenInternalId db id' = []).
  { intros id' H'. unfold GetChildren, GetChildrenPublicId, GetChildrenInternalId.
    unfold SQLite.BindInt64.
    rewrite (no_child_selects_nothing db H'), (join_children_childless db H').
    auto. }
  split; [ split; [ | split ] | split; [ | exact Hchildless ] ].
  - intros Hfk. apply Hchildless.
    intros r Hin Hp. specialize (Hfk r id Hin Hp). congruence.
  - unfold GetChildrenPublicId, join_children. rewrite Hselect. reflexivity.
  - unfold GetChildrenInternalId, join_children. rewrite Hselect. reflexivity.
  - unfold GetResourceType, DatabaseWrapper.GetPublicId.
    rewrite Hselect. simpl. auto.
Qed.

Lemma parents_exist_three_levels : parents_exist three_levels.
Proof.
  intros r p Hin Hp. simpl in Hin.
  destruct Hin as [<- | [<- | [<- | []]]]; simpl in Hp;
    try discriminate; injection Hp as <-; reflexivity.
Qed.

Lemma children_of_unknown_id_witness :
  (GetChildren three_levels 7 = []
   /\ GetChildrenPublicId three_levels 7 = []
   /\ GetChildrenInternalId three_levels 7 = [])
  /\ (GetResourceType three_levels 7 = Throw ErrorCode_UnknownResource
      /\ DatabaseWrapper.GetPublicId three_levels 7
         = Throw ErrorCode_UnknownResource).
Proof.
  destruct (@children_of_unknown_id three_levels 7 eq_refl)
    as ((H1 & H2 & H3) & H4 & _).
  split; [ | exact H4 ].
  split; [ apply H1; exact parents_exist_three_levels | split; assumption ].
Defined.

(** Without the reference a row may name a parent that has no row, and
    [GetChildren] lists it while the two joins do not. *)
Example GetChildren_without_reference :
  let db := with_Resources
              [mkResourceRow 2 ResourceType_Study "study" (Some 1)] 2
              empty_Tables in
  IsExistingResource db 1 = false
  /\ GetChildren db 1 = ["study"]
  /\ GetChildrenPublicId db 1 = [].
Proof. repeat split; vm_compute; reflexivity. Qed.

(** The operations of the index that write table Resources keep the
    reference to the parent. *)
Lemma CreateResource_parents_exist (db db' : Tables) (pub : string)
      (type : ResourceType) (id : Z) :
  parents_exist db ->
  CreateResource db pub type = OK (db', id) ->
  parents_exist db'.
Proof.
  intros Hfk H. apply CreateResource_inv in H. simpl in H.
  destruct H as (-> & _ & _). intros r p Hin Hp. simpl in Hin.
  apply in_app_or in Hin. destruct Hin as [Hin | [<- | []]]; [ | discriminate ].
  specialize (Hfk r p Hin Hp). apply IsExistingResource_true in Hfk.
  destruct Hfk as (r' & Hin' & Heq). apply IsExistingResource_true.
  exists r'. simpl. split; [ apply in_or_app; left; exact Hin' | exact Heq ].
Qed.

Lemma AttachChild_parents_exist (db db' : Tables) (parent child : Z) :
  parents_exist db ->
  AttachChild db parent child = OK db' ->
  parents_exist db'.
Proof.
  intros Hfk. unfold AttachChild.
  destruct (IsExistingResource db parent) eqn:Ep.
  - intros [= <-]. intros r p Hin Hp. simpl in Hin.
    apply in_map_iff in Hin. destruct Hin as (r0 & Hr & Hin0).
    assert (Hkeep : forall q, IsExistingResource db q = true ->
                              IsExistingResource
                                (with_Resources
                                   (map (fun r1 =>
                                           if internalId r1 =? SQLite.BindInt64 child
                                           then mkResourceRow
                                                  (internalId r1) (resourceType r1)
                                                  (publicId r1)
                                                  (Some (SQLite.BindInt64 parent))
                                           else r1) (Resources db))
                                   (Resources_counter db) db) q = true).
    { intros q Hq. apply IsExistingResource_true in Hq.
      destruct Hq as (r' & Hin' & Heq). apply IsExistingResource_true. simpl.
      exists (if internalId r' =? SQLite.BindInt64 child
              then mkResourceRow (internalId r') (resourceType r') (publicId r')
                                 (Some (SQLite.BindInt64 parent))
              else r').
      split.
      - apply in_map_iff. exists r'. auto.
      - destruct (internalId r' =? SQLite.BindInt64 child); exact Heq. }
    apply Hkeep.
    destruct (internalId r0 =? SQLite.BindInt64 child); subst r.
    + simpl in Hp. injection Hp as <-. exact Ep.
    + exact (Hfk r0 p Hin0 Hp).
  - destruct (IsExistingResource db child); [ discriminate | intros [= <-]; exact Hfk ].
Qed.

(** ** The cascade keeps the reference to the parent *)

Definition closed_under_children (rows : list ResourceRow) (ids : list Z) : Prop :=
  forall r,
    In r rows ->
    existsb (fun p => has_parent p r) ids = true ->
    mem (internalId r) ids = true.

Lemma filter_length_lt {A : Type} (p q : A -> bool) (l : list A) :
  (forall x, q x = true -> p x = true) ->
  (exists x, In x l /\ p x = true /\ q x = false) ->
  (List.length (filter q l) < List.length (filter p l))%nat.
Proof.
  intros Himp. induction l as [| y l IH]; intros (x & Hin & Hp & Hq).
  - destruct Hin.
  - assert (Hle : (List.length (filter q l) <= List.length (filter p l))%nat).
    { clear - Himp. induction l as [| z l IHl]; simpl; [ lia | ].
      destruct (q z) eqn:Eq; [ rewrite (Himp z Eq); simpl; lia | ].
      destruct (p z); simpl; lia. }
    simpl. destruct Hin as [<- | Hin].
    + rewrite Hp, Hq. simpl. lia.
    + assert (Hlt := IH (ex_intro _ x (conj Hin (conj Hp Hq)))).
      destruct (q y) eqn:Eq; [ rewrite (Himp y Eq); simpl; lia | ].
      destruct (p y); simpl; lia.
Qed.

Lemma filter_length_bound {A : Type} (p : A -> bool) (l : list A) :
  (List.length (filter p l) <= List.length l)%nat.
Proof.
  induction l as [| x l IH]; simpl; [ lia | ].
  destruct (p x); simpl; lia.
Qed.

Lemma mem_app (x : Z) (l l' : list Z) : mem x (l ++ l') = mem x l || mem x l'.
Proof. unfold mem. apply existsb_app. Qed.

Lemma mem_In (x : Z) (l : list Z) : mem x l = true <-> In x l.
Proof.
  unfold mem. rewrite existsb_exists. split.
  - intros (y & Hy & Heq). apply Z.eqb_eq in Heq. subst y. exact Hy.
  - intros H. exists x. split; [ exact H | apply Z.eqb_refl ].
Qed.

(** With as much fuel as there are rows outside [ids], [descendants]
    stops on a set that holds the children of its members. *)
Lemma descendants_closed (rows : list ResourceRow) (fuel : nat) :
  forall ids,
    (List.length (filter (fun r => negb (mem (internalId r) ids)) rows)
     <= fuel)%nat ->
    closed_under_children rows (descendants fuel rows ids).
Proof.
  induction fuel as [| fuel IH]; intros ids Hfuel; simpl.
  - intros r Hin _.
    destruct (mem (internalId r) ids) eqn:E; [ reflexivity | ].
    assert (Hr : In r (filter (fun r => negb (mem (internalId r) ids)) rows))
      by (apply filter_In; rewrite E; auto).
    destruct (filter _ rows); [ destruct Hr | simpl in Hfuel; lia ].
  - destruct (filter (fun r => negb (mem (internalId r) ids)
                               && existsb (fun p => has_parent p r) ids) rows)
      as [| c children] eqn:E.
    + intros r Hin Hp.
      destruct (mem (internalId r) ids) eqn:Em; [ reflexivity | ].
      assert (Hr : In r (filter (fun r => negb (mem (internalId r) ids)
                                          && existsb (fun p => has_parent p r) ids)
                                rows))
        by (apply filter_In; rewrite Em, Hp; auto).
      rewrite E in Hr. destruct Hr.
    + apply IH.
      assert (Hc : In c (filter (fun r => negb (mem (internalId r) ids)
                                          && existsb (fun p => has_parent p r) ids)
                                rows))
        by (rewrite E; left; reflexivity).
      apply filter_In in Hc. destruct Hc as [Hcin Hc]. apply andb_prop in Hc. destruct Hc as [Hc _].
      assert (Hlt : (List.length
                       (filter (fun r => negb (mem (internalId r)
                                                   (ids ++ map internalId (c :: children))))
                               rows)
                     < List.length
                         (filter (fun r => negb (mem (internalId r) ids)) rows))%nat).
      { apply filter_length_lt.
        - intros x Hx. rewrite mem_app in Hx. apply negb_true_iff in Hx.
          apply orb_false_elim in Hx. destruct Hx as [Hx _]. rewrite Hx. reflexivity.
        - exists c. split; [ exact Hcin | split; [ exact Hc | ] ].
          apply negb_false_iff. rewrite mem_app. apply orb_true_iff. right.
          apply mem_In. left. reflexivity. }
      simpl in Hlt. lia.
Qed.

Lemma cascade_parents_exist (db : Tables) (row : ResourceRow) :
  parents_exist db -> parents_exist (fst (cascade db row)).
Proof.
  intros Hfk r p Hin Hp. unfold cascade in *. simpl in *.
  set (doomed := descendants (List.length (Resources db)) (Resources db)
                             [internalId row]) in *.
  assert (Hclosed : closed_under_children (Resources db) doomed).
  { apply descendants_closed. apply filter_length_bound. }
  unfold SQLite.DELETE_WHERE in Hin. apply filter_In in Hin.
  destruct Hin as [Hin Hkeep]. apply negb_true_iff in Hkeep.
  specialize (Hfk r p Hin Hp). apply IsExistingResource_true in Hfk.
  destruct Hfk as (a & Ha & Heq). apply IsExistingResource_true. simpl.
  exists a. split; [ | exact Heq ].
  unfold SQLite.DELETE_WHERE. apply filter_In. split; [ exact Ha | ].
  apply negb_true_iff. destruct (mem (internalId a) doomed) eqn:Em; [ | reflexivity ].
  assert (mem (internalId r) doomed = true).
  { apply Hclosed; [ exact Hin | ].
    apply existsb_exists. exists p. split.
    - apply mem_In. rewrite <- Heq. exact Em.
    - unfold has_parent. rewrite Hp. apply Z.eqb_refl. }
  congruence.
Qed.

Lemma DeleteResource_db (ON_DELETE : Tables -> ResourceRow -> Tables * list ScalarCall)
      (this this' : t) (id : Z) (signals : list ListenerCall) :
  DeleteResource ON_DELETE this id = OK (this', signals) ->
  db_ this' = fst (DELETE_FROM_Resources ON_DELETE (db_ this) id).
Proof.
  unfold DeleteResource. simpl.
  destruct (DELETE_FROM_Resources ON_DELETE (db_ this) id) as [tables calls].
  destruct (invoke_all _ calls) as [[this1 signals1] | e]; simpl;
    [ | discriminate ].
  destruct (_ && _); intros [= <- _]; reflexivity.
Qed.

(** With the cascade of the spec, a deletion leaves no row whose parent
    is gone. *)
Lemma DeleteResource_parents_exist (this this' : t) (id : Z)
      (signals : list ListenerCall) :
  parents_exist (db_ this) ->
  DeleteResource cascade this id = OK (this', signals) ->
  parents_exist (db_ this').
Proof.
  intros Hfk H. rewrite (DeleteResource_db _ _ _ H). unfold DELETE_FROM_Resources.
  destruct (SQLite.Step _) as [[row rest] |]; [ | exact Hfk ].
  apply cascade_parents_exist. exact Hfk.
Qed.

(* ================================================================== *)
(** * Setting metadata, attachments and tags *)

Lemma filter_after_DELETE_WHERE {Row : Type} (p q : Row -> bool) (t : list Row) :
  (forall x, p x = true -> q x = true) ->
  filter p (SQLite.DELETE_WHERE q t) = [].
Proof.
  intros H. unfold SQLite.DELETE_WHERE.
  induction t as [| x t IH]; simpl; [ reflexivity | ].
  destruct (q x) eqn:Eq; simpl; [ exact IH | ].
  destruct (p x) eqn:Ep; [ | exact IH ].
  rewrite (H x Ep) in Eq. discriminate.
Qed.

Lemma existsb_ext {Row : Type} (p q : Row -> bool) :
  (forall x, p x = q x) -> forall t, existsb p t = existsb q t.
Proof.
  intros H t. induction t as [| x t IH]; simpl; [ reflexivity | ].
  rewrite H, IH. reflexivity.
Qed.

Definition Metadata_key (id : Z) (type : MetadataType) (r : MetadataRow) : bool :=
  (m_id r =? SQLite.BindInt64 id) && (m_type r =? SQLite.BindInt type).

Definition AttachedFiles_key (id : Z) (contentType : FileContentType)
           (r : AttachedFileRow) : bool :=
  (a_id r =? SQLite.BindInt64 id) && (a_fileType r =? SQLite.BindInt contentType).

Definition Tags_key (id : Z) (tag : DicomTag) (r : TagRow) : bool :=
  (t_id r =? SQLite.BindInt64 id)
  && (t_tagGroup r =? SQLite.BindInt (GetGroup tag))
  && (t_tagElement r =? SQLite.BindInt (GetElement tag)).

(** [SetMetadata] is an upsert: afterwards the key has one row, which
    holds the new value. *)
Lemma SetMetadata_upsert (db : Tables) (id : Z) (type : MetadataType)
      (value : string) :
  filter (Metadata_key id type) (Metadata (SetMetadata db id type value))
  = [mkMetadataRow (SQLite.BindInt64 id) (SQLite.BindInt type) value]
  /\ LookupMetadata (SetMetadata db id type value) id type = Some value.
Proof.
  assert (H : filter (Metadata_key id type)
                     (Metadata (SetMetadata db id type value))
              = [mkMetadataRow (SQLite.BindInt64 id) (SQLite.BindInt type) value]).
  { unfold SetMetadata, SQLite.INSERT_OR_REPLACE. simpl.
    rewrite filter_app, filter_after_DELETE_WHERE.
    - simpl. unfold Metadata_key. simpl. rewrite !Z.eqb_refl. reflexivity.
    - intros x. unfold Metadata_key, Metadata_conflicts. simpl.
      rewrite (Z.eqb_sym (SQLite.BindInt64 id)), (Z.eqb_sym (SQLite.BindInt type)).
      tauto. }
  split; [ exact H | ].
  unfold LookupMetadata, SQLite.SELECT_WHERE.
  change (fun r => (m_id r =? SQLite.BindInt64 id)
                   && (m_type r =? SQLite.BindInt type))
    with (Metadata_key id type).
  rewrite H. reflexivity.
Qed.

Lemma LookupAttachment_None (db : Tables) (id : Z) (contentType : FileContentType) :
  LookupAttachment db id contentType = None
  <-> existsb (AttachedFiles_key id contentType) (AttachedFiles db) = false.
Proof.
  unfold LookupAttachment.
  change (fun r => (a_id r =? SQLite.BindInt64 id)
                   && (a_fileType r =? SQLite.BindInt contentType))
    with (AttachedFiles_key id contentType).
  rewrite <- Step_SELECT_None.
  destruct (SQLite.Step _) as [[row rest] |]; split; congruence.
Qed.

Definition AddAttachment_row (id : Z) (attachment : FileInfo) : AttachedFileRow :=
  mkAttachedFileRow
    (SQLite.BindInt64 id)
    (SQLite.BindInt (GetContentType attachment))
    (GetUuid attachment)
    (SQLite.BindInt64 (CInt.to_int64 (GetCompressedSize attachment)))
    (SQLite.BindInt64 (CInt.to_int64 (GetUncompressedSize attachment)))
    (SQLite.BindInt (GetCompressionType attachment))
    (Some (GetUncompressedMD5 attachment))
    (Some (GetCompressedMD5 attachment)).

Lemma AttachedFiles_conflicts_key (id : Z) (attachment : FileInfo)
      (r : AttachedFileRow) :
  AttachedFiles_conflicts (AddAttachment_row id attachment) r
  = AttachedFiles_key id (GetContentType attachment) r.
Proof.
  unfold AttachedFiles_conflicts, AttachedFiles_key. simpl.
  rewrite (Z.eqb_sym (SQLite.BindInt64 id)),
    (Z.eqb_sym (SQLite.BindInt (GetContentType attachment))).
  reflexivity.
Qed.

(** [AddAttachment] is a plain insertion: it is refused when the pair
    already has an attachment. *)
Lemma AddAttachment_existing (db : Tables) (id : Z) (attachment : FileInfo) :
  LookupAttachment db id (GetContentType attachment) <> None ->
  AddAttachment db id attachment = Throw ErrorCode_Backend.
Proof.
  intros H. unfold AddAttachment.
  fold (AddAttachment_row id attachment). unfold SQLite.INSERT.
  rewrite (existsb_ext _ _ (AttachedFiles_conflicts_key id attachment) _).
  destruct (existsb _ _) eqn:E; [ reflexivity | ].
  apply LookupAttachment_None in E. contradiction.
Qed.

Lemma AddAttachment_fresh (db : Tables) (id : Z) (attachment : FileInfo) :
  LookupAttachment db id (GetContentType attachment) = None ->
  exists db' stored,
    AddAttachment db id attachment = OK db'
    /\ LookupAttachment db' id (GetContentType attachment) = Some stored
    /\ GetUuid stored = GetUuid attachment
    /\ GetContentType stored = GetContentType attachment
    /\ GetUncompressedMD5 stored = GetUncompressedMD5 attachment
    /\ GetCompressedMD5 stored = GetCompressedMD5 attachment.
Proof.
  intros H. apply LookupAttachment_None in H.
  unfold AddAttachment. fold (AddAttachment_row id attachment).
  unfold SQLite.INSERT.
  rewrite (existsb_ext _ _ (AttachedFiles_conflicts_key id attachment) _), H.
  simpl. eexists. eexists. split; [ reflexivity | ].
  unfold LookupAttachment, SQLite.SELECT_WHERE. simpl.
  change (fun r => (a_id r =? SQLite.BindInt64 id)
                   && (a_fileType r =? SQLite.BindInt (GetContentType attachment)))
    with (AttachedFiles_key id (GetContentType attachment)).
  rewrite filter_app, (existsb_false_filter _ _ H). simpl.
  unfold AttachedFiles_key at 1. simpl. rewrite !Z.eqb_refl. simpl.
  repeat split; reflexivity.
Qed.

Lemma to_int64_to_uint64 (x : Z) :
  0 <= x < 2 ^ 64 -> CInt.to_uint64 (CInt.to_int64 x) = x.
Proof.
  unfold CInt.to_uint64, CInt.to_int64, CInt.wrap_unsigned, CInt.wrap_signed.
  change (2 ^ (64 - 1)) with 9223372036854775808.
  change (2 ^ 64) with 18446744073709551616. intros H.
  destruct (Z_lt_ge_dec x 9223372036854775808) as [Hlt | Hge].
  - rewrite (Z.mod_small (x + _)) by lia.
    replace (x + 9223372036854775808 - 9223372036854775808) with x by lia.
    apply Z.mod_small. lia.
  - replace (x + 9223372036854775808)
      with ((x - 9223372036854775808) + 1 * 18446744073709551616) by lia.
    rewrite Z.mod_add by lia. rewrite (Z.mod_small (x - _)) by lia.
    replace (x - 9223372036854775808 - 9223372036854775808)
      with (x + (-1) * 18446744073709551616) by lia.
    rewrite Z.mod_add by lia. apply Z.mod_small. lia.
Qed.

(** The attachment that [LookupAttachment] builds from the row of
    [attachment]: the sizes go through [int64_t] into the table and
    through [uint64_t] out of it, the compression kind through a C
    [int] both ways. *)
Definition read_back (attachment : FileInfo) : FileInfo :=
  mkFileInfo
    (GetUuid attachment)
    (GetContentType attachment)
    (CInt.to_uint64 (CInt.to_int64 (GetUncompressedSize attachment)))
    (GetUncompressedMD5 attachment)
    (CInt.to_int (CInt.to_int (GetCompressionType attachment)))
    (CInt.to_uint64 (CInt.to_int64 (GetCompressedSize attachment)))
    (GetCompressedMD5 attachment).

Lemma read_back_id (attachment : FileInfo) :
  CInt.fits_int (GetCompressionType attachment) ->
  0 <= GetCompressedSize attachment < 2 ^ 64 ->
  0 <= GetUncompressedSize attachment < 2 ^ 64 ->
  read_back attachment = attachment.
Proof.
  intros Hcp Hcs Hus. unfold read_back.
  rewrite !to_int64_to_uint64 by assumption. rewrite !(to_int_fits Hcp).
  destruct attachment; reflexivity.
Qed.

(** For a pair without attachment [AddAttachment] appends the row of
    the record, all its columns, and [LookupAttachment] reads the
    record back from it. *)
Lemma AddAttachment_stores (db : Tables) (id : Z) (attachment : FileInfo) :
  LookupAttachment db id (GetContentType attachment) = None ->
  exists db',
    AddAttachment db id attachment = OK db'
    /\ AttachedFiles db' = AttachedFiles db ++ [AddAttachment_row id attachment]
    /\ LookupAttachment db' id (GetContentType attachment)
       = Some (read_back attachment)
    /\ (CInt.fits_int (GetCompressionType attachment) ->
        0 <= GetCompressedSize attachment < 2 ^ 64 ->
        0 <= GetUncompressedSize attachment < 2 ^ 64 ->
        LookupAttachment db' id (GetContentType attachment) = Some attachment).
Proof.
  intros H. apply LookupAttachment_None in H.
  unfold AddAttachment. fold (AddAttachment_row id attachment).
  unfold SQLite.INSERT.
  rewrite (existsb_ext _ _ (AttachedFiles_conflicts_key id attachment) _), H.
  simpl. eexists. split; [ reflexivity | ]. split; [ reflexivity | ].
  assert (Hread : LookupAttachment
                    (with_AttachedFiles
                       (AttachedFiles db ++ [AddAttachment_row id attachment]) db)
                    id (GetContentType attachment)
                  = Some (read_back attachment)).
  { unfold LookupAttachment, SQLite.SELECT_WHERE. simpl.
    change (fun r => (a_id r =? SQLite.BindInt64 id)
                     && (a_fileType r
                         =? SQLite.BindInt (GetContentType attachment)))
      with (AttachedFiles_key id (GetContentType attachment)).
    rewrite filter_app, (existsb_false_filter _ _ H). simpl.
    unfold AttachedFiles_key at 1. simpl. rewrite !Z.eqb_refl. simpl.
    reflexivity. }
  split; [ exact Hread | ].
  intros Hcp Hcs Hus. rewrite Hread, (@read_back_id attachment Hcp Hcs Hus). reflexivity.
Qed.

(** Were table AttachedFiles without key, a second row for the pair
    would not replace the first one either: the lookup reads the first
    row of the pair. *)
Lemma LookupAttachment_first_row (db : Tables) (id : Z)
      (contentType : FileContentType) (row : AttachedFileRow) :
  LookupAttachment db id contentType <> None ->
  LookupAttachment (with_AttachedFiles (AttachedFiles db ++ [row]) db)
                   id contentType
  = LookupAttachment db id contentType.
Proof.
  unfold LookupAttachment, SQLite.SELECT_WHERE. simpl. rewrite filter_app.
  destruct (filter _ (AttachedFiles db)) as [| x l]; simpl;
    [ intros H; elim H; reflexivity | reflexivity ].
Qed.

Section TagFacts.

Variable IsIdentifier : DicomTag -> bool.

(** The table a tag is routed to. *)
Definition tag_table (db : Tables) (tag : DicomTag) : list TagRow :=
if IsIdentifier tag then DicomIdentifiers db else MainDicomTags db.

Definition SetMainDicomTag_row (id : Z) (tag : DicomTag) (value : string)
: TagRow :=
mkTagRow (SQLite.BindInt64 id) (SQLite.BindInt (GetGroup tag))
       (SQLite.BindInt (GetElement tag)) value.

Lemma Tags_conflicts_key (id : Z) (tag : DicomTag) (value : string) (r : TagRow) :
Tags_conflicts (SetMainDicomTag_row id tag value) r = Tags_key id tag r.
Proof.
unfold Tags_conflicts, Tags_key. simpl.
rewrite (Z.eqb_sym (SQLite.BindInt64 id)),
(Z.eqb_sym (SQLite.BindInt (GetGroup tag))),
(Z.eqb_sym (SQLite.BindInt (GetElement tag))).
reflexivity.
Qed.

(** [SetMainDicomTag] is a plain insertion into the table of the tag. *)
Lemma SetMainDicomTag_existing (db : Tables) (id : Z) (tag : DicomTag)
  (value : string) :
existsb (Tags_key id tag) (tag_table db tag) = true ->
SetMainDicomTag IsIdentifier db id tag value = Throw ErrorCode_Backend.
Proof.
unfold tag_table, SetMainDicomTag, SetMainDicomTagsInternal, SQLite.INSERT.
fold (SetMainDicomTag_row id tag value).
intros H. destruct (IsIdentifier tag);
rewrite (existsb_ext _ _ (Tags_conflicts_key id tag value) _), H;
reflexivity.
Qed.

Lemma SetMainDicomTag_fresh (db : Tables) (id : Z) (tag : DicomTag)
  (value : string) :
existsb (Tags_key id tag) (tag_table db tag) = false ->
exists db',
SetMainDicomTag IsIdentifier db id tag value = OK db'
/\ tag_table db' tag
   = tag_table db tag ++ [SetMainDicomTag_row id tag value].
Proof.
unfold tag_table, SetMainDicomTag, SetMainDicomTagsInternal, SQLite.INSERT.
fold (SetMainDicomTag_row id tag value).
intros H. destruct (IsIdentifier tag) eqn:E;
rewrite (existsb_ext _ _ (Tags_conflicts_key id tag value) _), H;
simpl; eexists; (split; [ reflexivity | ]); reflexivity.
Qed.

End TagFacts.

(** The identifier tags named by the spec: PatientID, StudyInstanceUID,
    SeriesInstanceUID and SOPInstanceUID. *)
Definition identifier_tags (tag : DicomTag) : bool :=
  match GetGroup tag, GetElement tag with
  | 16, 32 => true
  | 32, 13 => true
  | 32, 14 => true
  | 8, 24 => true
  | _, _ => false
  end.

Definition PatientID : DicomTag := mkDicomTag 16 32.
Definition PatientName : DicomTag := mkDicomTag 16 16.

Definition file_a : FileInfo := mkFileInfo "uuid-a" 1 100 "md5-a" 1 100 "md5-a".
Definition file_b : FileInfo := mkFileInfo "uuid-b" 1 200 "md5-b" 1 200 "md5-b".

Definition one_attachment : Tables :=
  with_AttachedFiles [AddAttachment_row 1 file_a] empty_Tables.

Definition one_tag : Tables :=
  with_DicomIdentifiers [SetMainDicomTag_row 1 PatientID "P1"] empty_Tables.

(** C2, as the claim states it, fails: a second [AddAttachment] for the
    same resource and content kind is refused and leaves the first
    attachment in place, and so is a second [SetMainDicomTag] for the
    same resource and tag. *)
Lemma AddAttachment_SetMainDicomTag_do_not_replace :
  (AddAttachment empty_Tables 1 file_a = OK one_attachment
   /\ LookupAttachment one_attachment 1 1 = Some file_a
   /\ AddAttachment one_attachment 1 file_b = Throw ErrorCode_Backend)
  /\ (SetMainDicomTag identifier_tags empty_Tables 1 PatientID "P1" = OK one_tag
      /\ SetMainDicomTag identifier_tags one_tag 1 PatientID "P2"
         = Throw ErrorCode_Backend).
Proof.
  repeat split; vm_compute; reflexivity.
Qed.

(** C2 (amended): [SetMetadata] is an upsert, after it the key has one
    row and [LookupMetadata] returns the new value.  [AddAttachment] and
    [SetMainDicomTag] insert: for a key that has a row the call fails and
    the store keeps the row it had; for a key without row they store the
    record: [AddAttachment] appends the row that holds every field of
    the attachment, from which [LookupAttachment] reads the attachment
    back, unchanged when its compression kind fits a C [int] and its two
    sizes are [uint64_t] values, and [SetMainDicomTag] appends the row
    of the tag to the table of its class. *)
Theorem set_operations (IsIdentifier : DicomTag -> bool) (db : Tables) (id : Z) :
  (forall type value,
      filter (Metadata_key id type) (Metadata (SetMetadata db id type value))
      = [mkMetadataRow (SQLite.BindInt64 id) (SQLite.BindInt type) value]
      /\ LookupMetadata (SetMetadata db id type value) id type = Some value)
  /\ (forall attachment,
         LookupAttachment db id (GetContentType attachment) <> None ->
         AddAttachment db id attachment = Throw ErrorCode_Backend)
  /\ (forall attachment,
         LookupAttachment db id (GetContentType attachment) = None ->
         exists db',
           AddAttachment db id attachment = OK db'
           /\ AttachedFiles db'
              = AttachedFiles db ++ [AddAttachment_row id attachment]
           /\ LookupAttachment db' id (GetContentType attachment)
              = Some (read_back attachment)
           /\ (CInt.fits_int (GetCompressionType attachment) ->
               0 <= GetCompressedSize attachment < 2 ^ 64 ->
               0 <= GetUncompressedSize attachment < 2 ^ 64 ->
               LookupAttachment db' id (GetContentType attachment)
               = Some attachment))
  /\ (forall tag value,
         existsb (Tags_key id tag) (tag_table IsIdentifier db tag) = true ->
         SetMainDicomTag IsIdentifier db id tag value = Throw ErrorCode_Backend)
  /\ (forall tag value,
         existsb (Tags_key id tag) (tag_table IsIdentifier db tag) = false ->
         exists db',
           SetMainDicomTag IsIdentifier db id tag value = OK db'
           /\ tag_table IsIdentifier db' tag
              = tag_table IsIdentifier db tag
                ++ [SetMainDicomTag_row id tag value]).
Proof.
  split; [ intros type value; apply SetMetadata_upsert | ].
  split; [ intros attachment; apply AddAttachment_existing | ].
  split; [ intros attachment; apply AddAttachment_stores | ].
  split; [ intros tag value; apply SetMainDicomTag_existing
         | intros tag value; apply SetMainDicomTag_fresh ].
Qed.

Lemma set_operations_witness :
  AddAttachment one_attachment 1 file_b = Throw ErrorCode_Backend
  /\ (exists db',
         AddAttachment empty_Tables 1 file_a = OK db'
         /\ AttachedFiles db'
            = AttachedFiles empty_Tables ++ [AddAttachment_row 1 file_a]
         /\ LookupAttachment db' 1 (GetContentType file_a) = Some file_a)
  /\ SetMainDicomTag identifier_tags one_tag 1 PatientID "P2"
     = Throw ErrorCode_Backend
  /\ (exists db',
         SetMainDicomTag identifier_tags one_tag 1 PatientName "DOE" = OK db'
         /\ tag_table identifier_tags db' PatientName
            = tag_table identifier_tags one_tag PatientName
              ++ [SetMainDicomTag_row 1 PatientName "DOE"]).
Proof.
  split; [ | split; [ | split ] ].
  - destruct (set_operations identifier_tags one_attachment 1) as (_ & H & _).
    apply (H file_b). vm_compute. discriminate.
  - destruct (set_operations identifier_tags empty_Tables 1) as (_ & _ & H & _).
    destruct (H file_a) as (db' & Hadd & Hrows & _ & Hsame);
      [ vm_compute; reflexivity | ].
    exists db'. split; [ exact Hadd | split; [ exact Hrows | ] ].
    apply Hsame; vm_compute; split; congruence.
  - destruct (set_operations identifier_tags one_tag 1) as (_ & _ & _ & H & _).
    apply (H PatientID "P2"). vm_compute. reflexivity.
  - destruct (set_operations identifier_tags one_tag 1) as (_ & _ & _ & _ & H).
    apply (H PatientName "DOE"). vm_compute. reflexivity.
Defined.

(* ================================================================== *)
(** * Looking identifiers up *)

Definition holds_identifier (db : Tables) (id : Z) (tag : DicomTag)
           (value : string) : Prop :=
  exists r,
    In r (DicomIdentifiers db)
    /\ t_id r = id
    /\ t_tagGroup r = SQLite.BindInt (GetGroup tag)
    /\ t_tagElement r = SQLite.BindInt (GetElement tag)
    /\ t_value r = value.

Definition holds_value (db : Tables) (id : Z) (value : string) : Prop :=
  exists r, In r (DicomIdentifiers db) /\ t_id r = id /\ t_value r = value.

(** The group and the element of a tag are 16-bit numbers, which
    [BindInt] stores as they are. *)
Lemma BindInt_uint16 (v : Z) : 0 <= v < 65536 -> SQLite.BindInt v = v.
Proof.
  intros H. apply to_int_fits. unfold CInt.fits_int, CInt.INT_MIN, CInt.INT_MAX.
  change (2 ^ 31) with 2147483648. lia.
Qed.

Lemma LookupIdentifier_any_In (db : Tables) (value : string) (id : Z) :
  In id (LookupIdentifier_any db value) <-> holds_value db id value.
Proof.
  unfold LookupIdentifier_any, SQLite.SELECT_WHERE, SQLite.ColumnInt64.
  rewrite in_map_iff. unfold holds_value. split.
  - intros (r & Hid & Hin). apply filter_In in Hin. destruct Hin as [Hin Hv].
    exists r. repeat split; auto. apply String.eqb_eq. exact Hv.
  - intros (r & Hin & Hid & Hv). exists r. split; [ exact Hid | ].
    apply filter_In. split; [ exact Hin | ].
    rewrite Hv. apply String.eqb_refl.
Qed.

Lemma LookupIdentifier_In (IsIdentifier : DicomTag -> bool) (db : Tables)
      (tag : DicomTag) (value : string) :
  IsIdentifier tag = true ->
  exists target,
    LookupIdentifier IsIdentifier db tag value = OK target
    /\ forall id, In id target <-> holds_identifier db id tag value.
Proof.
  unfold LookupIdentifier, SQLite.SELECT_WHERE, SQLite.ColumnInt64.
  intros ->. simpl. eexists. split; [ reflexivity | ].
  intros id. rewrite in_map_iff. unfold holds_identifier.
  split.
  - intros (r & Hid & Hin). apply filter_In in Hin.
    destruct Hin as [Hin Hp].
    apply andb_prop in Hp. destruct Hp as [Hp Hv].
    apply andb_prop in Hp. destruct Hp as [Hg He].
    exists r. repeat split; auto;
      [ apply Z.eqb_eq; exact Hg | apply Z.eqb_eq; exact He
      | apply String.eqb_eq; exact Hv ].
  - intros (r & Hin & Hid & Hg & He & Hv). exists r. split; [ exact Hid | ].
    apply filter_In. split; [ exact Hin | ].
    rewrite Hg, He, Hv, !Z.eqb_refl, String.eqb_refl. reflexivity.
Qed.

(** C8: with a tag that is not an identifier the two-argument
    [LookupIdentifier] throws ParameterOutOfRange; with an identifier it
    returns one id per row of DicomIdentifiers that holds the group, the
    element and the value, and nothing else.  The one-argument form
    returns one id per row that holds the value, whatever the tag, and
    has no exceptional outcome. *)
Theorem LookupIdentifier_spec (IsIdentifier : DicomTag -> bool) (db : Tables)
        (tag : DicomTag) (value : string) :
  (IsIdentifier tag = false ->
   LookupIdentifier IsIdentifier db tag value
   = Throw ErrorCode_ParameterOutOfRange)
  /\ (IsIdentifier tag = true ->
      exists target,
        LookupIdentifier IsIdentifier db tag value = OK target
        /\ forall id, In id target <-> holds_identifier db id tag value)
  /\ (forall id,
         In id (LookupIdentifier_any db value) <-> holds_value db id value).
Proof.
  split; [ | split ].
  - unfold LookupIdentifier. intros ->. reflexivity.
  - apply LookupIdentifier_In.
  - apply LookupIdentifier_any_In.
Qed.

Lemma LookupIdentifier_spec_witness :
  LookupIdentifier identifier_tags one_tag PatientName "P1"
  = Throw ErrorCode_ParameterOutOfRange
  /\ exists target,
      LookupIdentifier identifier_tags one_tag PatientID "P1" = OK target
      /\ forall id, In id target <-> holds_identifier one_tag id PatientID "P1".
Proof.
  destruct (LookupIdentifier_spec identifier_tags one_tag PatientName "P1")
    as (H & _ & _).
  destruct (LookupIdentifier_spec identifier_tags one_tag PatientID "P1")
    as (_ & H' & _).
  split; [ apply H; reflexivity | apply H'; reflexivity ].
Defined.

Example LookupIdentifier_one_tag :
  LookupIdentifier identifier_tags one_tag PatientID "P1" = OK [1]
  /\ LookupIdentifier_any one_tag "P1" = [1]
  /\ LookupIdentifier_any one_tag "P2" = [].
Proof. repeat split; vm_compute; reflexivity. Qed.

(** The round trip of the spec: an identifier set on a resource is found
    by both lookups. *)
Lemma LookupIdentifier_after_SetMainDicomTag (IsIdentifier : DicomTag -> bool)
      (db db' : Tables) (id : Z) (tag : DicomTag) (value : string) :
  IsIdentifier tag = true ->
  SetMainDicomTag IsIdentifier db id tag value = OK db' ->
  holds_identifier db' id tag value /\ In id (LookupIdentifier_any db' value).
Proof.
  intros Hid Hset.
  assert (Hrow : In (SetMainDicomTag_row id tag value) (DicomIdentifiers db')).
  { unfold SetMainDicomTag, SetMainDicomTagsInternal in Hset. rewrite Hid in Hset.
    apply bind_OK_inv in Hset. destruct Hset as (rows & Hins & [= <-]).
    apply INSERT_OK_inv in Hins. destruct Hins as [_ ->]. simpl.
    apply in_or_app. right. left. reflexivity. }
  split.
  - exists (SetMainDicomTag_row id tag value). repeat split; auto.
  - apply LookupIdentifier_any_In.
    exists (SetMainDicomTag_row id tag value). repeat split; auto.
Qed.

(* ================================================================== *)
(** * Opening a store *)

Definition stored_version (db : Tables) : string :=
  match LookupGlobalProperty db GlobalProperty_DatabaseSchemaVersion with
  | Some version => version
  | None => "Unknown"
  end.

(** A store that has its schema and holds [version] as its schema
    version; no script has run on the connection. *)
Definition store_with_version (version : string) : Connection :=
  mkConnection
    true
    (SetGlobalProperty empty_Tables GlobalProperty_DatabaseSchemaVersion version)
    [].

Example lexical_cast_examples :
  boost.lexical_cast_unsigned_int "3" = Some 3
  /\ boost.lexical_cast_unsigned_int "99" = Some 99
  /\ boost.lexical_cast_unsigned_int "abc" = None
  /\ boost.lexical_cast_unsigned_int "Unknown" = None
  /\ boost.lexical_cast_unsigned_int "" = None
  /\ boost.lexical_cast_unsigned_int "4294967296" = None.
Proof. repeat split; vm_compute; reflexivity. Qed.

Section OpenFacts.

Variable Execute : FileResourceId -> Tables -> Tables.

Definition opened (c : Connection) : result t :=
OK (mk (tables c) false Internals.SignalRemainingAncestor_new).

(** The outcome of [Open] on a store that has its schema, by the parse
of the stored version. *)
Lemma Open_by_version (c : Connection) :
DoesTableExist_GlobalProperties c = true ->
let parsed := boost.lexical_cast_unsigned_int (stored_version (tables c)) in
(parsed = None ->
Open Execute c = (c, Throw ErrorCode_IncompatibleDatabaseVersion))
/\ (parsed = Some 3 ->
  let c' := UpgradeDatabase
              Execute
              (UpgradeDatabase Execute c UPGRADE_DATABASE_3_TO_4)
              UPGRADE_DATABASE_4_TO_5 in
  Open Execute c = (c', opened c'))
/\ (parsed = Some 4 ->
  let c' := UpgradeDatabase Execute c UPGRADE_DATABASE_4_TO_5 in
  Open Execute c = (c', opened c'))
/\ (parsed = Some 5 -> Open Execute c = (c, opened c))
/\ (forall v,
     parsed = Some v -> v <> 3 -> v <> 4 -> v <> 5 ->
     Open Execute c = (c, Throw ErrorCode_InternalError)).
Proof.
intros Hschema parsed. unfold Open. rewrite Hschema.
cbn -[Z.eqb boost.lexical_cast_unsigned_int LookupGlobalProperty].
fold (stored_version (tables c)). fold parsed.
repeat split.
- intros ->. reflexivity.
- intros ->. reflexivity.
- intros ->. reflexivity.
- intros ->. reflexivity.
- intros v -> H3 H4 H5.
assert (E3 : (v =? 3) = false) by (apply Z.eqb_neq; exact H3).
assert (E4 : (v =? 4) = false) by (apply Z.eqb_neq; exact H4).
assert (E5 : (ORTHANC_DATABASE_VERSION =? v) = false)
  by (apply Z.eqb_neq; unfold ORTHANC_DATABASE_VERSION; congruence).
rewrite E3. cbn -[Z.eqb]. rewrite E4. cbn -[Z.eqb]. rewrite E5.
reflexivity.
Qed.

(** [Open] returns normally exactly for the versions 3, 4 and 5, and
then the scripts it has run are the migrations from the stored
version on, each once and in order. *)
Lemma Open_succeeds_iff (c : Connection) :
DoesTableExist_GlobalProperties c = true ->
let parsed := boost.lexical_cast_unsigned_int (stored_version (tables c)) in
((exists this, snd (Open Execute c) = OK this)
<-> (parsed = Some 3 \/ parsed = Some 4 \/ parsed = Some 5))
/\ (parsed = Some 3 ->
  executed (fst (Open Execute c))
  = executed c ++ [UPGRADE_DATABASE_3_TO_4; UPGRADE_DATABASE_4_TO_5])
/\ (parsed = Some 4 ->
  executed (fst (Open Execute c))
  = executed c ++ [UPGRADE_DATABASE_4_TO_5])
/\ (parsed = Some 5 -> fst (Open Execute c) = c).
Proof.
intros Hschema parsed.
destruct (Open_by_version c Hschema) as (HN & H3 & H4 & H5 & Hother).
fold parsed in HN, H3, H4, H5, Hother.
split; [ split | repeat split ].
- intros [this Hok]. destruct parsed as [v |] eqn:E.
+ destruct (Z.eq_dec v 3) as [-> | N3]; [ auto | ].
  destruct (Z.eq_dec v 4) as [-> | N4]; [ auto | ].
  destruct (Z.eq_dec v 5) as [-> | N5]; [ auto | ].
  rewrite (Hother v eq_refl N3 N4 N5) in Hok. discriminate.
+ rewrite (HN eq_refl) in Hok. discriminate.
- intros [E | [E | E]];
  [ rewrite (H3 E) | rewrite (H4 E) | rewrite (H5 E) ];
  simpl; eexists; reflexivity.
- intros E. rewrite (H3 E). simpl. rewrite <- app_assoc. reflexivity.
- intros E. rewrite (H4 E). reflexivity.
- intros E. rewrite (H5 E). reflexivity.
Qed.

(** An unparseable version is refused with IncompatibleDatabaseVersion,
and nothing is executed. *)
Lemma Open_unparseable (c : Connection) :
DoesTableExist_GlobalProperties c = true ->
boost.lexical_cast_unsigned_int (stored_version (tables c)) = None ->
Open Execute c = (c, Throw ErrorCode_IncompatibleDatabaseVersion).
Proof.
intros Hschema. apply (Open_by_version c Hschema).
Qed.

(** C3 (the code at the failing input): opening a store whose schema
version is the string 99 leaves the store as it was and throws
InternalError: the comparison with the current version comes before
the test of the flag that tells an incompatible version. *)
Theorem Open_version_99 :
Open Execute (store_with_version "99")
= (store_with_version "99", Throw ErrorCode_InternalError).
Proof.
vm_compute. reflexivity.
Qed.

End OpenFacts.

Example Open_version_3 (Execute : FileResourceId -> Tables -> Tables) :
  executed (fst (Open Execute (store_with_version "3")))
  = [UPGRADE_DATABASE_3_TO_4; UPGRADE_DATABASE_4_TO_5]
  /\ exists this, snd (Open Execute (store_with_version "3")) = OK this.
Proof.
  destruct (Open_succeeds_iff Execute (store_with_version "3") eq_refl)
    as (Hiff & H3 & _).
  split; [ apply H3; vm_compute; reflexivity | ].
  apply Hiff. left. vm_compute. reflexivity.
Qed.

Example Open_version_abc (Execute : FileResourceId -> Tables -> Tables) :
  Open Execute (store_with_version "abc")
  = (store_with_version "abc", Throw ErrorCode_IncompatibleDatabaseVersion).
Proof.
  apply Open_unparseable; vm_compute; reflexivity.
Qed.

(* ================================================================== *)
(** * ORDER BY and LIMIT *)

Section OrderFacts.

Context {Row : Type}.
Variable key : Row -> Z.

Definition ascending : list Row -> Prop :=
StronglySorted (fun a b => key a <= key b).

Lemma insert_by_In (r x : Row) (l : list Row) :
In x (SQLite.insert_by key r l) <-> x = r \/ In x l.
Proof.
induction l as [| y l IH]; simpl.
- intuition congruence.
- destruct (key r <=? key y); simpl; rewrite ?IH; intuition congruence.
Qed.

Lemma ORDER_BY_In (x : Row) (t : list Row) :
In x (SQLite.ORDER_BY key t) <-> In x t.
Proof.
unfold SQLite.ORDER_BY. induction t as [| y t IH]; simpl; [ tauto | ].
rewrite insert_by_In, IH. intuition congruence.
Qed.

Lemma insert_by_ascending (r : Row) (l : list Row) :
ascending l -> ascending (SQLite.insert_by key r l).
Proof.
unfold ascending. induction l as [| y l IH]; simpl; intros Hs.
- constructor; constructor.
- inversion Hs as [| ? ? Hl Hall]; subst.
destruct (key r <=? key y) eqn:E.
+ apply Z.leb_le in E. constructor; [ exact Hs | ].
  constructor; [ exact E | ].
  rewrite Forall_forall in *. intros z Hz. specialize (Hall z Hz). lia.
+ apply Z.leb_gt in E. constructor; [ apply IH; exact Hl | ].
  rewrite Forall_forall in *. intros z Hz.
  apply insert_by_In in Hz. destruct Hz as [-> | Hz]; [ lia | auto ].
Qed.

Lemma ORDER_BY_ascending (t : list Row) : ascending (SQLite.ORDER_BY key t).
Proof.
unfold SQLite.ORDER_BY. induction t as [| y t IH]; simpl.
- constructor.
- apply insert_by_ascending. exact IH.
Qed.

Lemma insert_by_Permutation (r : Row) (l : list Row) :
Permutation (SQLite.insert_by key r l) (r :: l).
Proof.
induction l as [| y l IH]; simpl; [ reflexivity | ].
destruct (key r <=? key y); [ reflexivity | ].
rewrite IH. apply perm_swap.
Qed.

Lemma ORDER_BY_Permutation (t : list Row) :
Permutation (SQLite.ORDER_BY key t) t.
Proof.
unfold SQLite.ORDER_BY. induction t as [| y t IH]; simpl; [ reflexivity | ].
rewrite insert_by_Permutation. constructor. exact IH.
Qed.

(** A table whose rows are already in ascending order comes out of
[ORDER BY] as it is. *)
Lemma ORDER_BY_ascending_id (t : list Row) :
ascending t -> SQLite.ORDER_BY key t = t.
Proof.
unfold ascending, SQLite.ORDER_BY.
induction t as [| y t IH]; simpl; intros Hs; [ reflexivity | ].
inversion Hs as [| ? ? Hl Hall]; subst. rewrite (IH Hl).
destruct t as [| z t]; simpl; [ reflexivity | ].
inversion Hall as [| ? ? Hyz _]; subst.
replace (key y <=? key z) with true by (symmetry; apply Z.leb_le; exact Hyz).
reflexivity.
Qed.

Lemma ascending_app_inv (l1 l2 : list Row) :
ascending (l1 ++ l2) ->
forall a b, In a l1 -> In b l2 -> key a <= key b.
Proof.
unfold ascending. induction l1 as [| x l1 IH]; simpl; intros Hs a b Ha Hb.
- contradiction.
- inversion Hs as [| ? ? Hl Hall]; subst. destruct Ha as [<- | Ha].
+ rewrite Forall_forall in Hall. apply Hall. apply in_or_app. right. exact Hb.
+ exact (IH Hl a b Ha Hb).
Qed.

(** With distinct keys the order is strict. *)
Lemma ascending_NoDup_strict (l1 l2 : list Row) :
ascending (l1 ++ l2) -> NoDup (map key (l1 ++ l2)) ->
forall a b, In a l1 -> In b l2 -> key a < key b.
Proof.
intros Hs Hnd a b Ha Hb.
pose proof (ascending_app_inv l1 l2 Hs a b Ha Hb) as Hle.
destruct (Z.eq_dec (key a) (key b)) as [Heq | Hne]; [ | lia ].
exfalso. rewrite map_app in Hnd. revert Hnd.
apply in_split in Ha. destruct Ha as (u & v & ->).
apply in_split in Hb. destruct Hb as (u' & v' & ->).
rewrite !map_app. simpl. rewrite <- app_assoc. simpl. intros Hnd.
apply NoDup_remove_2 in Hnd. apply Hnd.
apply in_or_app. right. apply in_or_app. right. apply in_or_app. right.
left. symmetry. exact Heq.
Qed.

End OrderFacts.

Section LimitFacts.

Context {Row : Type}.

Lemma to_int_high (x : Z) :
CInt.INT_MAX < x <= CInt.UINT32_MAX -> CInt.to_int x < 0.
Proof.
unfold CInt.INT_MAX, CInt.UINT32_MAX, CInt.to_int, CInt.wrap_signed.
change (2 ^ (32 - 1)) with 2147483648. change (2 ^ 31) with 2147483648.
change (2 ^ 32) with 4294967296. intros H.
replace (x + 2147483648) with ((x - 2147483648) + 1 * 4294967296) by lia.
rewrite Z.mod_add by lia. rewrite Z.mod_small by lia. lia.
Qed.

(** The bound [maxResults + 1] of the two paged queries, for a
[maxResults] below the largest [uint32_t]: the statement delivers
the same first [maxResults] rows as the unbounded query, and has a
row beyond them exactly when the unbounded query has one. *)
Lemma LIMIT_plus_one (maxResults : Z) (rows : list Row) :
0 <= maxResults < CInt.UINT32_MAX ->
let s := SQLite.LIMIT (SQLite.BindInt (CInt.to_uint32 (maxResults + 1))) rows in
firstn (Z.to_nat maxResults) s = firstn (Z.to_nat maxResults) rows
/\ (Z.of_nat (List.length s) <=? maxResults)
 = (Z.of_nat (List.length rows) <=? maxResults).
Proof.
intros Hm. simpl. unfold SQLite.LIMIT, SQLite.BindInt.
rewrite to_uint32_small by lia.
destruct (Z_le_gt_dec (maxResults + 1) CInt.INT_MAX) as [Hle | Hgt].
- rewrite to_int_fits
  by (unfold CInt.fits_int, CInt.INT_MIN; change (- 2 ^ 31) with (-2147483648); lia).
replace (maxResults + 1 <? 0) with false by (symmetry; apply Z.ltb_ge; lia).
replace (Z.to_nat (maxResults + 1)) with (S (Z.to_nat maxResults)) by lia.
split.
+ rewrite firstn_firstn.
  rewrite Nat.min_l by lia. reflexivity.
+ rewrite length_firstn.
  destruct (Z.of_nat (List.length rows) <=? maxResults) eqn:E.
  * apply Z.leb_le in E. apply Z.leb_le. lia.
  * apply Z.leb_gt in E. apply Z.leb_gt. lia.
- replace (CInt.to_int (maxResults + 1) <? 0) with true
  by (symmetry; apply Z.ltb_lt; apply to_int_high; lia).
auto.
Qed.

(** At the largest [uint32_t] the bound wraps to zero and the statement
delivers nothing. *)
Lemma LIMIT_wraps (rows : list Row) :
SQLite.LIMIT (SQLite.BindInt (CInt.to_uint32 (CInt.UINT32_MAX + 1))) rows = [].
Proof. reflexivity. Qed.

Lemma more_rows_skipn (maxResults : Z) (s : list Row) :
0 <= maxResults ->
negb ((Z.of_nat (List.length (firstn (Z.to_nat maxResults) s)) =? maxResults)
    && more_rows (skipn (Z.to_nat maxResults) s))
= (Z.of_nat (List.length s) <=? maxResults).
Proof.
intros Hm. rewrite length_firstn.
destruct (Z.of_nat (List.length s) <=? maxResults) eqn:E.
- apply Z.leb_le in E. rewrite skipn_all2 by lia.
simpl. rewrite andb_false_r. reflexivity.
- apply Z.leb_gt in E.
replace (Z.of_nat (Nat.min (Z.to_nat maxResults) (List.length s)) =? maxResults)
  with true by (symmetry; apply Z.eqb_eq; lia).
destruct (skipn (Z.to_nat maxResults) s) as [| x l] eqn:F; [ | reflexivity ].
apply (f_equal (@List.length Row)) in F. rewrite length_skipn in F.
simpl in F. lia.
Qed.

End LimitFacts.

(* ================================================================== *)
(** * The recycling order *)

Lemma first_of_ORDER_BY {Row : Type} (key : Row -> Z) (t : list Row) :
  match SQLite.Step (SQLite.LIMIT 1 (SQLite.ORDER_BY key t)) with
  | None => t = []
  | Some (r, _) => In r t /\ forall r', In r' t -> key r <= key r'
  end.
Proof.
  pose proof (ORDER_BY_ascending key t) as Hs.
  pose proof (fun x => ORDER_BY_In key x t) as Hin.
  unfold SQLite.LIMIT. simpl.
  destruct (SQLite.ORDER_BY key t) as [| r l]; simpl.
  - destruct t as [| x t]; [ reflexivity | ].
    destruct (proj2 (Hin x) (or_introl eq_refl)).
  - split; [ apply Hin; left; reflexivity | ].
    intros r' Hr'. apply Hin in Hr'. destruct Hr' as [<- | Hr']; [ lia | ].
    inversion Hs as [| ? ? _ Hall]; subst.
    rewrite Forall_forall in Hall. exact (Hall r' Hr').
Qed.

Definition in_recycling_order (db : Tables) (id : Z) : Prop :=
  exists r, In r (PatientRecyclingOrder db) /\ r_patientId r = id.

Lemma IsProtectedPatient_spec (db : Tables) (id : Z) :
  IsProtectedPatient db id = true <-> ~ in_recycling_order db id.
Proof.
  unfold IsProtectedPatient, more_rows, in_recycling_order, SQLite.BindInt64.
  destruct (SQLite.Step _) as [[row rest] |] eqn:E; simpl.
  - split; [ discriminate | intros H; exfalso; apply H ].
    unfold SQLite.Step, SQLite.SELECT_WHERE in E.
    destruct (filter _ _) as [| x l] eqn:F; [ discriminate | injection E as -> -> ].
    assert (Hin : In row (filter (fun r => r_patientId r =? id)
                                 (PatientRecyclingOrder db)))
      by (rewrite F; left; reflexivity).
    apply filter_In in Hin. destruct Hin as [Hin Heq].
    exists row. split; [ exact Hin | apply Z.eqb_eq; exact Heq ].
  - split; [ intros _ | reflexivity ].
    intros (r & Hin & Heq). apply Step_SELECT_None in E.
    assert (existsb (fun r => r_patientId r =? id) (PatientRecyclingOrder db) = true)
      by (apply existsb_exists; exists r; split; [ exact Hin | apply Z.eqb_eq; exact Heq ]).
    congruence.
Qed.

(** Protecting removes every entry of the patient and nothing else, and
    protecting again changes nothing. *)
Lemma SetProtectedPatient_protect (db : Tables) (id : Z) :
  exists db',
    SetProtectedPatient db id true = OK db'
    /\ IsProtectedPatient db' id = true
    /\ PatientRecyclingOrder db'
       = filter (fun r => negb (r_patientId r =? id)) (PatientRecyclingOrder db)
    /\ SetProtectedPatient db' id true = OK db'.
Proof.
  unfold SetProtectedPatient, SQLite.DELETE_WHERE, SQLite.BindInt64.
  eexists. split; [ reflexivity | ]. simpl. split; [ | split ].
  - apply IsProtectedPatient_spec. intros (r & Hin & Heq). simpl in Hin.
    apply filter_In in Hin. destruct Hin as [_ Hne].
    rewrite Heq, Z.eqb_refl in Hne. discriminate.
  - reflexivity.
  - f_equal. unfold with_PatientRecyclingOrder. simpl. f_equal.
    induction (PatientRecyclingOrder db) as [| x l IH]; simpl; [ reflexivity | ].
    destruct (r_patientId x =? id) eqn:E; simpl; [ exact IH | ].
    rewrite E. simpl. f_equal. exact IH.
Qed.



(** The patient to recycle is the entry with the smallest sequence
    number; its id is read through a C [int]. *)
Lemma SelectPatientToRecycle_oldest (db : Tables) :
  match SelectPatientToRecycle db with
  | None => PatientRecyclingOrder db = []
  | Some internalId =>
      exists r,
        In r (PatientRecyclingOrder db)
        /\ (forall r', In r' (PatientRecyclingOrder db) -> r_seq r <= r_seq r')
        /\ internalId = CInt.to_int (r_patientId r)
  end.
Proof.
  unfold SelectPatientToRecycle.
  pose proof (first_of_ORDER_BY r_seq (PatientRecyclingOrder db)) as H.
  destruct (SQLite.Step _) as [[row rest] |]; [ | exact H ].
  exists row. destruct H as [Hin Hmin]. auto.
Qed.

Lemma SelectPatientToRecycle_avoid_oldest (db : Tables) (avoid : Z) :
  match SelectPatientToRecycle_avoid db avoid with
  | None => forall r, In r (PatientRecyclingOrder db) -> r_patientId r = avoid
  | Some internalId =>
      exists r,
        In r (PatientRecyclingOrder db)
        /\ r_patientId r <> avoid
        /\ (forall r', In r' (PatientRecyclingOrder db) ->
                       r_patientId r' <> avoid -> r_seq r <= r_seq r')
        /\ internalId = CInt.to_int (r_patientId r)
  end.
Proof.
  unfold SelectPatientToRecycle_avoid, SQLite.SELECT_WHERE, SQLite.BindInt64.
  pose proof (first_of_ORDER_BY
                r_seq
                (filter (fun r => negb (r_patientId r =? avoid))
                        (PatientRecyclingOrder db))) as H.
  destruct (SQLite.Step _) as [[row rest] |].
  - destruct H as [Hin Hmin]. apply filter_In in Hin. destruct Hin as [Hin Hne].
    exists row. repeat split; auto.
    + intros Heq. rewrite Heq, Z.eqb_refl in Hne. discriminate.
    + intros r' Hr' Hne'. apply Hmin. apply filter_In. split; [ exact Hr' | ].
      apply negb_true_iff. apply Z.eqb_neq. exact Hne'.
  - intros r Hr. destruct (Z.eq_dec (r_patientId r) avoid) as [Heq | Hne]; [ exact Heq | ].
    assert (Hin : In r (filter (fun r => negb (r_patientId r =? avoid))
                               (PatientRecyclingOrder db))).
    { apply filter_In. split; [ exact Hr | ].
      apply negb_true_iff. apply Z.eqb_neq. exact Hne. }
    rewrite H in Hin. destruct Hin.
Qed.

(** The recycling order with the one entry of patient 2^31. *)
Definition one_large_patient : Tables :=
  with_PatientRecyclingOrder [mkRecyclingRow 1 2147483648] 1 empty_Tables.

(** C7 (the code at the failing input): once the patient 2147483648 is
    unprotected in an empty recycling order, it is the one entry, and
    both forms of [SelectPatientToRecycle] answer -2147483648, the id of
    no entry.  The id column is read with [ColumnInt]. *)
Theorem SelectPatientToRecycle_truncates_id :
  SetProtectedPatient empty_Tables 2147483648 false = OK one_large_patient
  /\ IsProtectedPatient one_large_patient 2147483648 = false
  /\ SelectPatientToRecycle one_large_patient = Some (-2147483648)
  /\ SelectPatientToRecycle_avoid one_large_patient 1 = Some (-2147483648).
Proof.
  repeat split; vm_compute; reflexivity.
Qed.

(** With the one entry of patient 2^32 + 1, the form with an id to avoid
    answers 1 when 1 is the id to avoid. *)
Example SelectPatientToRecycle_avoid_returns_avoided :
  SelectPatientToRecycle_avoid
    (with_PatientRecyclingOrder [mkRecyclingRow 1 4294967297] 1 empty_Tables)
    1
  = Some 1.
Proof. vm_compute. reflexivity. Qed.

(* ================================================================== *)
(** * Reading the change log *)

(** One iteration of the loop of [GetChangesInternal] on [row]. *)
Definition read_Change (db : Tables) (row : ChangeRow) : result ServerIndexChange.t :=
  publicId <- DatabaseWrapper.GetPublicId db (SQLite.ColumnInt64 (c_internalId row)) ;;
  OK (ServerIndexChange.mk
        (SQLite.ColumnInt64 (c_seq row))
        (ChangeType_of_int (SQLite.ColumnInt (c_changeType row)))
        (SQLite.ColumnInt (c_resourceType row))
        publicId
        (c_date row)).

Fixpoint read_Changes (db : Tables) (rows : list ChangeRow)
  : result (list ServerIndexChange.t) :=
  match rows with
  | [] => OK []
  | row :: rows' =>
      change <- read_Change db row ;;
      changes <- read_Changes db rows' ;;
      OK (change :: changes)
  end.

(** The resource of a change record is gone. *)
Definition dangling (db : Tables) (row : ChangeRow) : Prop :=
  IsExistingResource db (c_internalId row) = false.

Lemma GetPublicId_OK_iff (db : Tables) (id : Z) :
  (exists publicId, DatabaseWrapper.GetPublicId db id = OK publicId)
  <-> IsExistingResource db id = true.
Proof.
  unfold DatabaseWrapper.GetPublicId, IsExistingResource.
  destruct (SQLite.Step _) as [[row rest] |]; split; intros H;
    try reflexivity; try discriminate; eauto.
  destruct H as [p H]. discriminate.
Qed.

Lemma GetPublicId_Throw (db : Tables) (id : Z) (e : ErrorCode) :
  DatabaseWrapper.GetPublicId db id = Throw e ->
  e = ErrorCode_UnknownResource /\ IsExistingResource db id = false.
Proof.
  unfold DatabaseWrapper.GetPublicId, IsExistingResource.
  destruct (SQLite.Step _) as [[row rest] |]; [ discriminate | ].
  intros [= <-]. auto.
Qed.

Lemma read_Change_Throw (db : Tables) (row : ChangeRow) (e : ErrorCode) :
  read_Change db row = Throw e <-> e = ErrorCode_UnknownResource /\ dangling db row.
Proof.
  unfold read_Change, dangling, SQLite.ColumnInt64. split.
  - intros H. apply bind_Throw_inv in H.
    destruct H as [H | (p & _ & H)]; [ | discriminate ].
    apply GetPublicId_Throw in H. exact H.
  - intros [-> H].
    destruct (DatabaseWrapper.GetPublicId db (c_internalId row)) as [p | e] eqn:E.
    + assert (IsExistingResource db (c_internalId row) = true)
        by (apply GetPublicId_OK_iff; eauto).
      congruence.
    + apply GetPublicId_Throw in E. destruct E as [-> _]. reflexivity.
Qed.

Lemma read_Change_OK (db : Tables) (row : ChangeRow) (change : ServerIndexChange.t) :
  read_Change db row = OK change ->
  ServerIndexChange.GetSeq change = c_seq row
  /\ ServerIndexChange.GetDate change = c_date row
  /\ DatabaseWrapper.GetPublicId db (c_internalId row) = OK (ServerIndexChange.GetPublicId change)
  /\ ~ dangling db row.
Proof.
  unfold read_Change, dangling, SQLite.ColumnInt64. intros H.
  apply bind_OK_inv in H. destruct H as (p & Hp & [= <-]). simpl.
  repeat split; [ exact Hp | ].
  assert (IsExistingResource db (c_internalId row) = true)
    by (apply GetPublicId_OK_iff; eauto).
  congruence.
Qed.

Lemma read_Changes_Throw (db : Tables) (rows : list ChangeRow) (e : ErrorCode) :
  read_Changes db rows = Throw e
  <-> e = ErrorCode_UnknownResource /\ exists row, In row rows /\ dangling db row.
Proof.
  induction rows as [| row rows IH]; simpl.
  - split; [ discriminate | intros (_ & r & [] & _) ].
  - destruct (read_Change db row) as [change | e'] eqn:E; simpl.
    + apply read_Change_OK in E. destruct E as (_ & _ & _ & Hnd).
      destruct (read_Changes db rows) as [changes | e''] eqn:E'; simpl.
      * split; [ discriminate | ].
        intros (He & r & [<- | Hr] & Hd); [ contradiction | ].
        assert (H : @OK (list ServerIndexChange.t) changes = Throw e)
          by (apply IH; eauto).
        discriminate.
      * split.
        -- intros [= <-]. destruct (proj1 IH eq_refl) as (He & r & Hr & Hd). eauto.
        -- intros (He & r & [<- | Hr] & Hd); [ contradiction | ].
           f_equal. assert (H : @Throw (list ServerIndexChange.t) e'' = Throw e)
             by (apply IH; eauto).
           congruence.
    + apply read_Change_Throw in E. destruct E as [-> Hd]. split.
      * intros [= <-]. eauto.
      * intros [-> _]. reflexivity.
Qed.

Lemma read_Changes_OK (db : Tables) (rows : list ChangeRow)
      (changes : list ServerIndexChange.t) :
  read_Changes db rows = OK changes ->
  Forall2 (fun row change => read_Change db row = OK change) rows changes.
Proof.
  revert changes. induction rows as [| row rows IH]; simpl; intros changes H.
  - injection H as <-. constructor.
  - apply bind_OK_inv in H. destruct H as (change & Hc & H).
    apply bind_OK_inv in H. destruct H as (changes' & Hcs & [= <-]).
    constructor; [ exact Hc | apply IH; exact Hcs ].
Qed.

(** The loop reads the rows of the statement one after the other until
    [target] has [maxResults] elements. *)
Lemma GetChangesInternal_loop_spec (db : Tables) (maxResults : Z)
      (s : list ChangeRow) :
  forall target,
    let n := Z.to_nat (maxResults - Z.of_nat (List.length target)) in
    GetChangesInternal_loop db maxResults target s
    = (changes <- read_Changes db (firstn n s) ;;
       OK (target ++ changes, skipn n s)).
Proof.
  induction s as [| row s IH]; intros target; simpl.
  - rewrite firstn_nil, skipn_nil. simpl. rewrite app_nil_r.
    destruct (_ <? _); reflexivity.
  - destruct (Z.of_nat (List.length target) <? maxResults) eqn:E.
    + apply Z.ltb_lt in E.
      replace (Z.to_nat (maxResults - Z.of_nat (List.length target)))
        with (S (Z.to_nat (maxResults - Z.of_nat (List.length target) - 1)))
        by lia.
      simpl. fold (read_Change db row).
      unfold read_Change at 1.
      destruct (DatabaseWrapper.GetPublicId db (SQLite.ColumnInt64 (c_internalId row)))
        as [p | e]; simpl; [ | reflexivity ].
      rewrite IH. rewrite length_app. simpl.
      replace (Z.to_nat (maxResults - Z.of_nat (List.length target + 1)))
        with (Z.to_nat (maxResults - Z.of_nat (List.length target) - 1)) by lia.
      destruct (read_Changes db _) as [changes | e]; simpl; [ | reflexivity ].
      rewrite <- app_assoc. reflexivity.
    + apply Z.ltb_ge in E.
      replace (Z.to_nat (maxResults - Z.of_nat (List.length target))) with O by lia.
      simpl. rewrite app_nil_r. reflexivity.
Qed.

Lemma read_Changes_length (db : Tables) (rows : list ChangeRow)
      (changes : list ServerIndexChange.t) :
  read_Changes db rows = OK changes -> List.length changes = List.length rows.
Proof.
  intros H. apply read_Changes_OK in H.
  induction H; simpl; congruence.
Qed.

Lemma GetChangesInternal_spec (db : Tables) (s : list ChangeRow) (maxResults : Z) :
  0 <= maxResults ->
  GetChangesInternal db s maxResults
  = (changes <- read_Changes db (firstn (Z.to_nat maxResults) s) ;;
     OK (changes, Z.of_nat (List.length s) <=? maxResults)).
Proof.
  intros Hm. unfold GetChangesInternal. rewrite GetChangesInternal_loop_spec.
  simpl. rewrite Z.sub_0_r.
  destruct (read_Changes db _) as [changes | e] eqn:E; simpl; [ | reflexivity ].
  rewrite (read_Changes_length _ _ E), more_rows_skipn by exact Hm.
  reflexivity.
Qed.

(** ** Pages of a log *)

(** The spec's page of a log: the records with a sequence number above
    [since], in ascending order, the first [maxResults] of them. *)
Definition page {Row : Type} (key : Row -> Z) (table : list Row)
           (since maxResults : Z) : list Row :=
  firstn (Z.to_nat maxResults)
         (SQLite.ORDER_BY key (filter (fun r => key r >? since) table)).

Lemma In_firstn {A : Type} (n : nat) (l : list A) (x : A) :
  In x (firstn n l) -> In x l.
Proof.
  revert l. induction n as [| n IH]; intros [| y l]; simpl; try tauto.
  intros [<- | H]; [ left; reflexivity | right; apply IH; exact H ].
Qed.

Lemma In_LIMIT {Row : Type} (n : Z) (t : list Row) (x : Row) :
  In x (SQLite.LIMIT n t) -> In x t.
Proof.
  unfold SQLite.LIMIT. destruct (n <? 0); [ tauto | apply In_firstn ].
Qed.

Lemma Forall2_In_r {A B : Type} (R : A -> B -> Prop) (l : list A) (l' : list B) :
  Forall2 R l l' -> forall y, In y l' -> exists x, In x l /\ R x y.
Proof.
  induction 1 as [| x y l l' Hxy _ IH]; simpl; intros z Hz; [ contradiction | ].
  destruct Hz as [<- | Hz]; [ exists x; auto | ].
  destruct (IH z Hz) as (x' & Hin & HR). exists x'. auto.
Qed.

(** [pg] is the window that a caller asks for: records of the log above
    [since] in ascending order, not more than [maxResults], and every
    record above [since] that the window leaves out comes after all
    those it holds. *)
Definition is_window {Row : Type} (key : Row -> Z) (table : list Row)
           (since maxResults : Z) (pg : list Row) : Prop :=
  ascending key pg
  /\ (forall r, In r pg -> In r table /\ since < key r)
  /\ (0 <= maxResults -> Z.of_nat (List.length pg) <= maxResults)
  /\ (exists rest,
         Permutation (pg ++ rest) (filter (fun r => key r >? since) table)
         /\ forall a b, In a pg -> In b rest -> key a <= key b).

Lemma ascending_firstn {Row : Type} (key : Row -> Z) (n : nat) (l : list Row) :
  ascending key l -> ascending key (firstn n l).
Proof.
  unfold ascending. revert l.
  induction n as [| n IH]; intros [| x l] H; simpl; try constructor.
  - apply IH. inversion H; assumption.
  - inversion H as [| ? ? _ Hall]; subst. rewrite Forall_forall in *.
    intros z Hz. apply Hall. apply In_firstn in Hz. exact Hz.
Qed.

Lemma page_spec {Row : Type} (key : Row -> Z) (table : list Row)
      (since maxResults : Z) :
  is_window key table since maxResults (page key table since maxResults).
Proof.
  unfold is_window, page.
  set (rows := SQLite.ORDER_BY key (filter (fun r => key r >? since) table)).
  assert (Hs : ascending key rows) by apply ORDER_BY_ascending.
  split; [ | split; [ | split ] ].
  - apply ascending_firstn. exact Hs.
  - intros r Hr. apply In_firstn in Hr. apply ORDER_BY_In in Hr.
    apply filter_In in Hr. destruct Hr as [Hin Hgt].
    split; [ exact Hin | apply Z.gtb_lt in Hgt; lia ].
  - intros Hm. rewrite length_firstn. lia.
  - exists (skipn (Z.to_nat maxResults) rows). split.
    + rewrite firstn_skipn. apply ORDER_BY_Permutation.
    + apply ascending_app_inv.
      rewrite firstn_skipn. exact Hs.
Qed.

Definition Changes_statement (db : Tables) (since maxResults : Z) : list ChangeRow :=
  SQLite.LIMIT
    (SQLite.BindInt (CInt.to_uint32 (maxResults + 1)))
    (SQLite.ORDER_BY c_seq
       (SQLite.SELECT_WHERE (fun r => c_seq r >? SQLite.BindInt64 since)
                            (Changes db))).

Lemma GetChanges_unfold (db : Tables) (since maxResults : Z) :
  GetChanges db since maxResults
  = (changes <- read_Changes db (firstn (Z.to_nat maxResults)
                                        (Changes_statement db since maxResults)) ;;
     OK (changes,
         negb ((Z.of_nat (List.length changes) =? maxResults)
               && more_rows (skipn (Z.to_nat maxResults)
                                   (Changes_statement db since maxResults))))).
Proof.
  unfold GetChanges, GetChangesInternal. fold (Changes_statement db since maxResults).
  rewrite GetChangesInternal_loop_spec. simpl. rewrite Z.sub_0_r.
  destruct (read_Changes db _); reflexivity.
Qed.

Lemma GetChanges_page (db : Tables) (since maxResults : Z) :
  0 <= maxResults < CInt.UINT32_MAX ->
  GetChanges db since maxResults
  = (changes <- read_Changes db (page c_seq (Changes db) since maxResults) ;;
     OK (changes,
         Z.of_nat (List.length (filter (fun r => c_seq r >? since) (Changes db)))
         <=? maxResults)).
Proof.
  intros Hm. rewrite GetChanges_unfold. unfold Changes_statement, page.
  unfold SQLite.SELECT_WHERE, SQLite.BindInt64.
  set (rows := SQLite.ORDER_BY c_seq (filter (fun r => c_seq r >? since) (Changes db))).
  destruct (LIMIT_plus_one rows Hm) as [Hfirst Hlen].
  rewrite Hfirst.
  destruct (read_Changes db (firstn (Z.to_nat maxResults) rows)) as [changes | e] eqn:E;
    simpl; [ | reflexivity ].
  rewrite (read_Changes_length _ _ E), <- Hfirst.
  rewrite more_rows_skipn by lia. rewrite Hlen.
  unfold rows. rewrite (Permutation_length (ORDER_BY_Permutation c_seq _)).
  reflexivity.
Qed.

Lemma GetChanges_raises (db : Tables) (since maxResults : Z) (row : ChangeRow) :
  0 <= maxResults < CInt.UINT32_MAX ->
  In row (page c_seq (Changes db) since maxResults) ->
  dangling db row ->
  GetChanges db since maxResults = Throw ErrorCode_UnknownResource.
Proof.
  intros Hm Hin Hd. rewrite GetChanges_page by exact Hm.
  assert (H : read_Changes db (page c_seq (Changes db) since maxResults)
              = Throw ErrorCode_UnknownResource)
    by (apply read_Changes_Throw; eauto).
  rewrite H. reflexivity.
Qed.

Lemma GetChanges_returns_resolved (db : Tables) (since maxResults : Z)
      (target : list ServerIndexChange.t) (done : bool)
      (change : ServerIndexChange.t) :
  GetChanges db since maxResults = OK (target, done) ->
  In change target ->
  exists row, In row (Changes db) /\ read_Change db row = OK change.
Proof.
  rewrite GetChanges_unfold. intros H Hin.
  apply bind_OK_inv in H. destruct H as (changes & Hread & [= <- _]).
  apply read_Changes_OK in Hread.
  destruct (Forall2_In_r Hread change Hin) as (row & Hrow & Hc).
  exists row. split; [ | exact Hc ].
  apply In_firstn in Hrow. apply In_LIMIT in Hrow. apply ORDER_BY_In in Hrow.
  apply filter_In in Hrow. tauto.
Qed.

Lemma GetLastChange_raises (db : Tables) (row : ChangeRow) :
  In row (Changes db) ->
  (forall r, In r (Changes db) -> c_seq r <= c_seq row) ->
  (forall r, In r (Changes db) -> c_seq r = c_seq row -> r = row) ->
  dangling db row ->
  GetLastChange db = Throw ErrorCode_UnknownResource.
Proof.
  intros Hin Hmax Hkey Hd. unfold GetLastChange, GetChangesInternal.
  rewrite GetChangesInternal_loop_spec. simpl.
  pose proof (first_of_ORDER_BY (fun r => - c_seq r) (Changes db)) as H.
  unfold SQLite.ORDER_BY_DESC.
  destruct (SQLite.LIMIT 1 (SQLite.ORDER_BY (fun r => - c_seq r) (Changes db)))
    as [| r0 l]; simpl in H.
  - rewrite H in Hin. destruct Hin.
  - destruct H as [Hin0 Hmin].
    assert (r0 = row).
    { apply Hkey; [ exact Hin0 | ].
      specialize (Hmin row Hin). specialize (Hmax r0 Hin0). lia. }
    subst r0. simpl.
    assert (E : read_Change db row = Throw ErrorCode_UnknownResource)
      by (apply read_Change_Throw; auto).
    rewrite E. reflexivity.
Qed.

(** ** The export log *)

Lemma GetExportedResourcesInternal_loop_spec (maxResults : Z)
      (s : list ExportedRow) :
  forall target,
    let n := Z.to_nat (maxResults - Z.of_nat (List.length target)) in
    GetExportedResourcesInternal_loop maxResults target s
    = (target ++ map read_ExportedResource (firstn n s), skipn n s).
Proof.
  induction s as [| row s IH]; intros target; simpl.
  - rewrite firstn_nil, skipn_nil. simpl. rewrite app_nil_r.
    destruct (_ <? _); reflexivity.
  - destruct (Z.of_nat (List.length target) <? maxResults) eqn:E.
    + apply Z.ltb_lt in E. rewrite IH. rewrite length_app. simpl.
      replace (Z.to_nat (maxResults - Z.of_nat (List.length target)))
        with (S (Z.to_nat (maxResults - Z.of_nat (List.length target + 1))))
        by lia.
      simpl. rewrite <- app_assoc. reflexivity.
    + apply Z.ltb_ge in E.
      replace (Z.to_nat (maxResults - Z.of_nat (List.length target))) with O by lia.
      simpl. rewrite app_nil_r. reflexivity.
Qed.

Lemma GetExportedResources_page (db : Tables) (since maxResults : Z) :
  0 <= maxResults < CInt.UINT32_MAX ->
  GetExportedResources db since maxResults
  = (map read_ExportedResource
         (page e_seq (ExportedResources db) since maxResults),
     Z.of_nat (List.length (filter (fun r => e_seq r >? since)
                                   (ExportedResources db)))
     <=? maxResults).
Proof.
  intros Hm. unfold GetExportedResources, GetExportedResourcesInternal, page.
  unfold SQLite.SELECT_WHERE, SQLite.BindInt64.
  set (rows := SQLite.ORDER_BY e_seq
                 (filter (fun r => e_seq r >? since) (ExportedResources db))).
  destruct (LIMIT_plus_one rows Hm) as [Hfirst Hlen].
  rewrite GetExportedResourcesInternal_loop_spec. simpl. rewrite Z.sub_0_r.
  rewrite Hfirst. f_equal.
  rewrite length_map, <- Hfirst.
  rewrite more_rows_skipn by lia. rewrite Hlen.
  unfold rows. rewrite (Permutation_length (ORDER_BY_Permutation e_seq _)).
  reflexivity.
Qed.

(** ** From one page to the next *)

Section NextPage.

Context {Row : Type}.
Variable key : Row -> Z.

Lemma Permutation_filter (f : Row -> bool) (l l' : list Row) :
Permutation l l' -> Permutation (filter f l) (filter f l').
Proof.
induction 1 as [| x l l' _ IH | x y l | l l' l'' _ IH1 _ IH2]; simpl.
- constructor.
- destruct (f x); [ constructor | ]; exact IH.
- destruct (f x), (f y); try reflexivity. apply perm_swap.
- transitivity (filter f l'); assumption.
Qed.

Lemma filter_filter_implied (p q : Row -> bool) (l : list Row) :
(forall x, q x = true -> p x = true) ->
filter q (filter p l) = filter q l.
Proof.
intros H. induction l as [| x l IH]; simpl; [ reflexivity | ].
destruct (p x) eqn:Ep; simpl.
- rewrite IH. reflexivity.
- destruct (q x) eqn:Eq; [ | exact IH ].
rewrite (H x Eq) in Ep. discriminate.
Qed.

Lemma NoDup_map_filter (f : Row -> bool) (l : list Row) :
NoDup (map key l) -> NoDup (map key (filter f l)).
Proof.
induction l as [| x l IH]; simpl; intros H; [ constructor | ].
inversion H as [| ? ? Hnin Hnd]; subst.
destruct (f x); simpl; [ | apply IH; exact Hnd ].
constructor; [ | apply IH; exact Hnd ].
intros Hin. apply Hnin. apply in_map_iff in Hin.
destruct Hin as (y & Hy & Hin). apply filter_In in Hin.
apply in_map_iff. exists y. tauto.
Qed.

(** The cursor a caller continues with: the sequence number of the last
record it was given, its previous cursor when it was given none. *)
Definition next_since (since : Z) (returned : list Row) : Z :=
last (map key returned) since.

(** A log with distinct sequence numbers that holds [maxResults + 1]
records above [since]: the page leaves one record out, and the page
after the cursor of the first page is that record alone. *)
Lemma page_then_final (table : list Row) (since maxResults : Z) :
0 < maxResults ->
NoDup (map key table) ->
Z.of_nat (List.length (filter (fun r => key r >? since) table))
= maxResults + 1 ->
exists final,
SQLite.ORDER_BY key (filter (fun r => key r >? since) table)
= page key table since maxResults ++ [final]
/\ filter (fun r => key r >? next_since since (page key table since maxResults))
          table
   = [final]
/\ page key table (next_since since (page key table since maxResults))
        maxResults
   = [final].
Proof.
intros Hm Hnd Hlen.
set (matching := filter (fun r => key r >? since) table) in *.
set (rows := SQLite.ORDER_BY key matching).
assert (Hperm : Permutation rows matching) by apply ORDER_BY_Permutation.
assert (Hrows : Z.of_nat (List.length rows) = maxResults + 1)
by (rewrite (Permutation_length Hperm); exact Hlen).
assert (Hsplit : rows = firstn (Z.to_nat maxResults) rows
                      ++ skipn (Z.to_nat maxResults) rows)
by (symmetry; apply firstn_skipn).
destruct (skipn (Z.to_nat maxResults) rows) as [| final [| x l]] eqn:Eskip;
try (apply (f_equal (@List.length Row)) in Eskip;
     rewrite length_skipn in Eskip; simpl in Eskip; lia).
assert (Epg : page key table since maxResults
            = firstn (Z.to_nat maxResults) rows) by reflexivity.
rewrite <- Epg in Hsplit.
set (pg := page key table since maxResults) in *.
assert (Hpg : Z.of_nat (List.length pg) = maxResults).
{ apply (f_equal (@List.length Row)) in Hsplit. rewrite length_app in Hsplit.
simpl in Hsplit. lia. }
destruct (exists_last (l := pg)) as (pg' & lastp & Hlast).
{ intros E. rewrite E in Hpg. simpl in Hpg. lia. }
assert (Hnext : next_since since pg = key lastp).
{ unfold next_since. rewrite Hlast, map_app. simpl. apply last_last. }
assert (Hasc : ascending key (pg ++ [final])).
{ rewrite <- Hsplit. apply ORDER_BY_ascending. }
assert (Hnd' : NoDup (map key (pg ++ [final]))).
{ rewrite <- Hsplit.
apply (Permutation_NoDup (l := map key matching)).
- apply Permutation_map. symmetry. exact Hperm.
- apply NoDup_map_filter. exact Hnd. }
assert (Hbelow : forall a, In a pg -> key a <= key lastp).
{ intros a Ha. rewrite Hlast in Ha. apply in_app_or in Ha.
destruct Ha as [Ha | [<- | []]]; [ | lia ].
assert (Hasc' : ascending key (pg' ++ [lastp])).
{ rewrite <- Hlast. apply (page_spec key table since maxResults). }
apply (@ascending_app_inv _ key pg' [lastp] Hasc'); [ exact Ha | left; reflexivity ]. }
assert (Hfinal : key lastp < key final).
{ apply (@ascending_NoDup_strict _ key pg [final] Hasc Hnd');
  [ rewrite Hlast; apply in_or_app; right; left; reflexivity
  | left; reflexivity ]. }
assert (Hsince : since < key lastp).
{ assert (Hin : In lastp rows).
{ rewrite Hsplit, Hlast. apply in_or_app. left. apply in_or_app. right.
  left. reflexivity. }
apply ORDER_BY_In in Hin. apply filter_In in Hin.
destruct Hin as [_ Hgt]. apply Z.gtb_lt in Hgt. lia. }
assert (Hfilter : filter (fun r => key r >? next_since since pg) table = [final]).
{ rewrite Hnext.
rewrite <- (filter_filter_implied (fun r => key r >? since)
                                  (fun r => key r >? key lastp)).
- fold matching.
  assert (Hp : Permutation (filter (fun r => key r >? key lastp) matching)
                           (filter (fun r => key r >? key lastp) rows))
    by (apply Permutation_filter; symmetry; exact Hperm).
  rewrite Hsplit, filter_app in Hp. simpl in Hp.
  replace (key final >? key lastp) with true in Hp
    by (symmetry; apply Z.gtb_lt; lia).
  rewrite (existsb_false_filter (fun r => key r >? key lastp) pg) in Hp.
  + simpl in Hp. symmetry in Hp. apply Permutation_length_1_inv in Hp. exact Hp.
  + destruct (existsb _ pg) eqn:E; [ | reflexivity ].
    apply existsb_exists in E. destruct E as (a & Ha & Hgt).
    apply Z.gtb_lt in Hgt. specialize (Hbelow a Ha). lia.
- intros x Hx. apply Z.gtb_lt in Hx. apply Z.gtb_lt. lia. }
exists final. split; [ exact Hsplit | split; [ exact Hfilter | ] ].
unfold page at 1. rewrite Hfilter. simpl.
replace (Z.to_nat maxResults) with (S (Z.to_nat (maxResults - 1))) by lia.
simpl. rewrite firstn_nil. reflexivity.
Qed.

End NextPage.

(** ** The paging protocol *)

Definition exported_above (db : Tables) (since : Z) : list ExportedRow :=
  filter (fun r => e_seq r >? since) (ExportedResources db).

Definition changes_above (db : Tables) (since : Z) : list ChangeRow :=
  filter (fun r => c_seq r >? since) (Changes db).

Lemma read_Changes_total (db : Tables) (rows : list ChangeRow) :
  (forall row, In row rows -> ~ dangling db row) ->
  exists changes,
    read_Changes db rows = OK changes
    /\ Forall2 (fun row change => read_Change db row = OK change) rows changes
    /\ map ServerIndexChange.GetSeq changes = map c_seq rows.
Proof.
  intros H. destruct (read_Changes db rows) as [changes | e] eqn:E.
  - exists changes. split; [ reflexivity | ].
    apply read_Changes_OK in E. split; [ exact E | ].
    clear H. induction E as [| row change rows changes Hc _ IH]; simpl;
      [ reflexivity | ].
    apply read_Change_OK in Hc. destruct Hc as (-> & _). rewrite IH. reflexivity.
  - apply read_Changes_Throw in E. destruct E as (_ & row & Hin & Hd).
    elim (H row Hin Hd).
Qed.

Lemma page_all {Row : Type} (key : Row -> Z) (table : list Row)
      (since maxResults : Z) :
  Z.of_nat (List.length (filter (fun r => key r >? since) table)) <= maxResults ->
  page key table since maxResults
  = SQLite.ORDER_BY key (filter (fun r => key r >? since) table).
Proof.
  intros H. unfold page. apply firstn_all2.
  rewrite (Permutation_length (ORDER_BY_Permutation key _)). lia.
Qed.

(** The export log, for a bound below the largest [uint32_t]. *)
Lemma GetExportedResources_paging (db : Tables) (since maxResults : Z) :
  0 <= maxResults < CInt.UINT32_MAX ->
  let pg := page e_seq (ExportedResources db) since maxResults in
  let count := Z.of_nat (List.length (exported_above db since)) in
  GetExportedResources db since maxResults
  = (map read_ExportedResource pg, count <=? maxResults)
  /\ (count = maxResults ->
      GetExportedResources db since maxResults
      = (map read_ExportedResource
             (SQLite.ORDER_BY e_seq (exported_above db since)),
         true))
  /\ (0 < maxResults ->
      NoDup (map e_seq (ExportedResources db)) ->
      count = maxResults + 1 ->
      exists final,
        SQLite.ORDER_BY e_seq (exported_above db since) = pg ++ [final]
        /\ GetExportedResources db since maxResults
           = (map read_ExportedResource pg, false)
        /\ GetExportedResources
             db
             (last (map ExportedResource.GetSeq (map read_ExportedResource pg))
                   since)
             maxResults
           = ([read_ExportedResource final], true)).
Proof.
  intros Hm pg count.
  pose proof (GetExportedResources_page db since Hm) as Hpage.
  fold (exported_above db since) in Hpage. fold pg count in Hpage.
  split; [ exact Hpage | split ].
  - intros Hc. rewrite Hpage. unfold pg.
    rewrite page_all by (fold (exported_above db since); fold count; lia).
    replace (count <=? maxResults) with true by (symmetry; apply Z.leb_le; lia).
    reflexivity.
  - intros Hpos Hnd Hc.
    destruct (page_then_final e_seq (ExportedResources db) since Hpos Hnd Hc)
      as (final & Hsplit & Hfilter & Hnext).
    exists final. split; [ exact Hsplit | split ].
    + rewrite Hpage.
      replace (count <=? maxResults) with false by (symmetry; apply Z.leb_gt; lia).
      reflexivity.
    + rewrite map_map. simpl.
      replace (last (map (fun x => SQLite.ColumnInt64 (e_seq x)) pg) since)
        with (next_since e_seq since pg) by reflexivity.
      rewrite (GetExportedResources_page db (next_since e_seq since pg) Hm).
      unfold pg. rewrite Hnext, Hfilter. simpl.
      replace (1 <=? maxResults) with true by (symmetry; apply Z.leb_le; lia).
      reflexivity.
Qed.

(** The change log, for a bound below the largest [uint32_t] and pages
    whose records resolve. *)
Lemma GetChanges_paging (db : Tables) (since maxResults : Z) :
  0 <= maxResults < CInt.UINT32_MAX ->
  let pg := page c_seq (Changes db) since maxResults in
  let count := Z.of_nat (List.length (changes_above db since)) in
  ((forall row, In row pg -> ~ dangling db row) ->
   exists target,
     GetChanges db since maxResults = OK (target, count <=? maxResults)
     /\ Forall2 (fun row change => read_Change db row = OK change) pg target)
  /\ (count = maxResults ->
      (forall row, In row (changes_above db since) -> ~ dangling db row) ->
      exists target,
        GetChanges db since maxResults = OK (target, true)
        /\ Forall2 (fun row change => read_Change db row = OK change)
                   (SQLite.ORDER_BY c_seq (changes_above db since)) target)
  /\ (0 < maxResults ->
      NoDup (map c_seq (Changes db)) ->
      count = maxResults + 1 ->
      (forall row, In row (changes_above db since) -> ~ dangling db row) ->
      exists final target last_change,
        SQLite.ORDER_BY c_seq (changes_above db since) = pg ++ [final]
        /\ GetChanges db since maxResults = OK (target, false)
        /\ Forall2 (fun row change => read_Change db row = OK change) pg target
        /\ read_Change db final = OK last_change
        /\ GetChanges db (last (map ServerIndexChange.GetSeq target) since)
                      maxResults
           = OK ([last_change], true)).
Proof.
  intros Hm pg count.
  pose proof (GetChanges_page db since Hm) as Hpage.
  fold (changes_above db since) in Hpage. fold pg count in Hpage.
  assert (Hfirst : (forall row, In row pg -> ~ dangling db row) ->
                   exists target,
                     GetChanges db since maxResults
                     = OK (target, count <=? maxResults)
                     /\ Forall2 (fun row change => read_Change db row = OK change)
                                pg target
                     /\ map ServerIndexChange.GetSeq target = map c_seq pg).
  { intros Hres. destruct (@read_Changes_total db pg Hres) as (target & Hread & HF & Hseq).
    exists target. rewrite Hpage, Hread. auto. }
  split; [ | split ].
  - intros Hres. destruct (Hfirst Hres) as (target & H1 & H2 & _). eauto.
  - intros Hc Hres.
    assert (Hall : pg = SQLite.ORDER_BY c_seq (changes_above db since)).
    { unfold pg. apply page_all. fold (changes_above db since). fold count. lia. }
    rewrite <- Hall.
    destruct Hfirst as (target & H1 & H2 & _).
    { intros row Hrow. apply Hres. rewrite Hall in Hrow.
      apply ORDER_BY_In in Hrow. exact Hrow. }
    exists target. split; [ | exact H2 ].
    rewrite H1. replace (count <=? maxResults) with true
      by (symmetry; apply Z.leb_le; lia).
    reflexivity.
  - intros Hpos Hnd Hc Hres.
    destruct (page_then_final c_seq (Changes db) since Hpos Hnd Hc)
      as (final & Hsplit & Hfilter & Hnext).
    fold (changes_above db since) in Hsplit. fold pg in Hsplit, Hfilter, Hnext.
    assert (Hrows : forall row, In row (pg ++ [final]) -> ~ dangling db row).
    { intros row Hrow. apply Hres. rewrite <- Hsplit in Hrow.
      apply ORDER_BY_In in Hrow. exact Hrow. }
    destruct Hfirst as (target & H1 & H2 & Hseq).
    { intros row Hrow. apply Hrows. apply in_or_app. left. exact Hrow. }
    destruct (@read_Changes_total db [final]) as (changes & Hread & HF & _).
    { intros row [<- | []]. apply Hrows. apply in_or_app. right. left. reflexivity. }
    inversion HF as [| ? last_change ? ? Hlast HF']; subst. inversion HF'; subst.
    exists final, target, last_change.
    split; [ exact Hsplit | split; [ | split; [ exact H2 | split; [ exact Hlast | ] ] ] ].
    + rewrite H1. replace (count <=? maxResults) with false
        by (symmetry; apply Z.leb_gt; lia).
      reflexivity.
    + rewrite Hseq. change (last (map c_seq pg) since) with (next_since c_seq since pg).
      rewrite (GetChanges_page db (next_since c_seq since pg) Hm).
      rewrite Hnext, Hfilter, Hread. simpl.
      replace (1 <=? maxResults) with true by (symmetry; apply Z.leb_le; lia).
      reflexivity.
Qed.

(** ** Example logs *)

Definition with_Changes (v : list ChangeRow) (c : Z) (t : Tables) : Tables :=
  mkTables (GlobalProperties t) (Resources t) (Resources_counter t) (Metadata t)
           (AttachedFiles t) (MainDicomTags t) (DicomIdentifiers t)
           v c (ExportedResources t)
           (ExportedResources_counter t) (PatientRecyclingOrder t)
           (PatientRecyclingOrder_counter t).

Definition with_ExportedResources (v : list ExportedRow) (c : Z) (t : Tables)
  : Tables :=
  mkTables (GlobalProperties t) (Resources t) (Resources_counter t) (Metadata t)
           (AttachedFiles t) (MainDicomTags t) (DicomIdentifiers t)
           (Changes t) (Changes_counter t) v c (PatientRecyclingOrder t)
           (PatientRecyclingOrder_counter t).

Definition export_row (seq : Z) : ExportedRow :=
  mkExportedRow seq ResourceType_Patient "patient" "PACS" "ID" "" "" ""
                "20150101T000000".

Definition three_exports : Tables :=
  with_ExportedResources [export_row 1; export_row 2; export_row 3] 3
                         empty_Tables.

(** Three changes of the resources of [three_levels]. *)
Definition three_changes : Tables :=
  with_Changes [ mkChangeRow 1 2 1 ResourceType_Patient "20150101T000000";
                 mkChangeRow 2 2 2 ResourceType_Study "20150101T000001";
                 mkChangeRow 3 2 3 ResourceType_Series "20150101T000002" ]
               3 three_levels.

(** A change of resource 7 in a store that has no resource 7. *)
Definition orphan_change : ChangeRow :=
  mkChangeRow 1 2 7 ResourceType_Patient "20150101T000000".

Definition orphan_log : Tables :=
  with_Changes [orphan_change] 1 empty_Tables.

(** C4, as the claim states it, fails on a log state: the one record of
    the change log lies above the cursor 0, and [GetChanges] with a
    bound of 10 throws UnknownResource where the claim has it return that
    record. *)
Lemma GetChanges_does_not_return_orphan :
  changes_above orphan_log 0 = [orphan_change]
  /\ GetChanges orphan_log 0 10 = Throw ErrorCode_UnknownResource.
Proof.
  split; vm_compute; reflexivity.
Qed.

(** The two other inputs on which the pages differ from the claim: a
    bound of zero makes no progress, and at the largest [uint32_t] the
    bound handed to the query wraps to zero. *)
Example GetExportedResources_bound_zero :
  GetExportedResources three_exports 2 0 = ([], false).
Proof. vm_compute. reflexivity. Qed.

Example GetExportedResources_bound_wraps :
  GetExportedResources three_exports 0 CInt.UINT32_MAX = ([], true).
Proof. vm_compute. reflexivity. Qed.

Example GetExportedResources_three_exports :
  GetExportedResources three_exports 0 2
  = ([read_ExportedResource (export_row 1); read_ExportedResource (export_row 2)],
     false)
  /\ GetExportedResources three_exports 2 2
     = ([read_ExportedResource (export_row 3)], true)
  /\ GetExportedResources three_exports 0 3
     = (map read_ExportedResource [export_row 1; export_row 2; export_row 3],
        true).
Proof. repeat split; vm_compute; reflexivity. Qed.

(** C4 (amended): for a bound [maxResults] below the largest
    [uint32_t], [GetExportedResources] returns the page of the export
    log, that is the records above [since] in ascending order, the first
    [maxResults] of them, and [done] tells that no record above [since]
    is left out.  [GetChanges] does the same on the change log when the
    records of the page resolve.  A log with exactly [maxResults] records
    above [since] gives them all and [done = true]; a log with distinct
    sequence numbers and [maxResults + 1] such records, for a positive
    [maxResults], gives [done = false], and the call with the last
    returned sequence number as the cursor gives the one record left and
    [done = true]. *)
Theorem log_paging (db : Tables) (since maxResults : Z) :
  0 <= maxResults < CInt.UINT32_MAX ->
  (let pg := page e_seq (ExportedResources db) since maxResults in
   let count := Z.of_nat (List.length (exported_above db since)) in
   is_window e_seq (ExportedResources db) since maxResults pg
   /\ GetExportedResources db since maxResults
      = (map read_ExportedResource pg, count <=? maxResults)
   /\ (count = maxResults ->
       GetExportedResources db since maxResults
       = (map read_ExportedResource
              (SQLite.ORDER_BY e_seq (exported_above db since)),
          true))
   /\ (0 < maxResults ->
       NoDup (map e_seq (ExportedResources db)) ->
       count = maxResults + 1 ->
       exists final,
         SQLite.ORDER_BY e_seq (exported_above db since) = pg ++ [final]
         /\ GetExportedResources db since maxResults
            = (map read_ExportedResource pg, false)
         /\ GetExportedResources
              db
              (last (map ExportedResource.GetSeq (map read_ExportedResource pg))
                    since)
              maxResults
            = ([read_ExportedResource final], true)))
  /\ (let pg := page c_seq (Changes db) since maxResults in
      let count := Z.of_nat (List.length (changes_above db since)) in
      is_window c_seq (Changes db) since maxResults pg
      /\ ((forall row, In row pg -> ~ dangling db row) ->
          exists target,
            GetChanges db since maxResults = OK (target, count <=? maxResults)
            /\ Forall2 (fun row change => read_Change db row = OK change)
                       pg target)
      /\ (count = maxResults ->
          (forall row, In row (changes_above db since) -> ~ dangling db row) ->
          exists target,
            GetChanges db since maxResults = OK (target, true)
            /\ Forall2 (fun row change => read_Change db row = OK change)
                       (SQLite.ORDER_BY c_seq (changes_above db since)) target)
      /\ (0 < maxResults ->
          NoDup (map c_seq (Changes db)) ->
          count = maxResults + 1 ->
          (forall row, In row (changes_above db since) -> ~ dangling db row) ->
          exists final target last_change,
            SQLite.ORDER_BY c_seq (changes_above db since) = pg ++ [final]
            /\ GetChanges db since maxResults = OK (target, false)
            /\ Forall2 (fun row change => read_Change db row = OK change) pg target
            /\ read_Change db final = OK last_change
            /\ GetChanges db (last (map ServerIndexChange.GetSeq target) since)
                          maxResults
               = OK ([last_change], true))).
Proof.
  intros Hm. split.
  - split; [ apply page_spec | ].
    apply GetExportedResources_paging. exact Hm.
  - split; [ apply page_spec | ].
    apply GetChanges_paging. exact Hm.
Qed.

Lemma log_paging_witness :
  (exists final,
      SQLite.ORDER_BY e_seq (exported_above three_exports 0)
      = page e_seq (ExportedResources three_exports) 0 2 ++ [final]
      /\ GetExportedResources three_exports 0 2
         = (map read_ExportedResource
                (page e_seq (ExportedResources three_exports) 0 2),
            false)
      /\ GetExportedResources
           three_exports
           (last (map ExportedResource.GetSeq
                      (map read_ExportedResource
                           (page e_seq (ExportedResources three_exports) 0 2)))
                 0)
           2
         = ([read_ExportedResource final], true))
  /\ (exists target,
         GetChanges three_changes 0 3 = OK (target, true)
         /\ Forall2 (fun row change => read_Change three_changes row = OK change)
                    (SQLite.ORDER_BY c_seq (changes_above three_changes 0))
                    target).
Proof.
  split.
  - destruct (@log_paging three_exports 0 2) as [(_ & _ & _ & H) _].
    + vm_compute. split; [ discriminate | reflexivity ].
    + apply H; [ lia | | reflexivity ].
      simpl. repeat (constructor; [ simpl; intuition discriminate | ]).
      constructor.
  - destruct (@log_paging three_changes 0 3) as [_ (_ & _ & H & _)].
    + vm_compute. split; [ discriminate | reflexivity ].
    + apply H; [ reflexivity | ].
      intros row Hrow. simpl in Hrow.
      destruct Hrow as [<- | [<- | [<- | []]]]; vm_compute; discriminate.
Defined.

(** The rows that a call of [GetChanges] reads out of its statement. *)
Definition rows_read (db : Tables) (since maxResults : Z) : list ChangeRow :=
  firstn (Z.to_nat maxResults) (Changes_statement db since maxResults).

Lemma GetChanges_Throw_iff (db : Tables) (since maxResults : Z) (e : ErrorCode) :
  GetChanges db since maxResults = Throw e
  <-> e = ErrorCode_UnknownResource
      /\ exists row, In row (rows_read db since maxResults) /\ dangling db row.
Proof.
  rewrite GetChanges_unfold, <- read_Changes_Throw. unfold rows_read.
  destruct (read_Changes db _) as [changes | e']; simpl; split;
    congruence.
Qed.

Lemma rows_read_page (db : Tables) (since maxResults : Z) :
  0 <= maxResults < CInt.UINT32_MAX ->
  rows_read db since maxResults = page c_seq (Changes db) since maxResults.
Proof.
  intros Hm. unfold rows_read, Changes_statement, page, SQLite.SELECT_WHERE,
               SQLite.BindInt64.
  apply (LIMIT_plus_one _ Hm).
Qed.

(** C6: the public id of a change record is resolved when the record is
    read.  [GetChanges] throws exactly when one of the records it reads
    has lost its resource, and then it throws UnknownResource; for a
    bound below the largest [uint32_t] the records it reads are those of
    the requested page.  [GetLastChange] throws UnknownResource when the
    most recent record has lost its resource.  A change that
    [GetChanges] returns is read from a record whose resource exists and
    carries the public id that the resource has at the time of the
    call. *)
Theorem change_records_resolve_on_read (db : Tables) :
  (forall since maxResults e,
      GetChanges db since maxResults = Throw e
      <-> e = ErrorCode_UnknownResource
          /\ exists row, In row (rows_read db since maxResults) /\ dangling db row)
  /\ (forall since maxResults row,
         0 <= maxResults < CInt.UINT32_MAX ->
         In row (page c_seq (Changes db) since maxResults) ->
         dangling db row ->
         GetChanges db since maxResults = Throw ErrorCode_UnknownResource)
  /\ (forall since maxResults target done change,
         GetChanges db since maxResults = OK (target, done) ->
         In change target ->
         exists row,
           In row (Changes db)
           /\ ~ dangling db row
           /\ ServerIndexChange.GetSeq change = c_seq row
           /\ DatabaseWrapper.GetPublicId db (c_internalId row)
              = OK (ServerIndexChange.GetPublicId change))
  /\ (forall row,
         In row (Changes db) ->
         (forall r, In r (Changes db) -> c_seq r <= c_seq row) ->
         (forall r, In r (Changes db) -> c_seq r = c_seq row -> r = row) ->
         dangling db row ->
         GetLastChange db = Throw ErrorCode_UnknownResource).
Proof.
  split; [ | split; [ | split ] ].
  - intros since maxResults e. apply GetChanges_Throw_iff.
  - intros since maxResults row. apply GetChanges_raises.
  - intros since maxResults target done change Hget Hin.
    destruct (@GetChanges_returns_resolved _ _ _ _ _ _ Hget Hin) as (row & Hrow & Hread).
    apply read_Change_OK in Hread. destruct Hread as (Hseq & _ & Hpub & Hnd).
    exists row. auto.
  - intros row. apply GetLastChange_raises.
Qed.

Lemma change_records_resolve_on_read_witness :
  GetChanges orphan_log 0 10 = Throw ErrorCode_UnknownResource
  /\ GetLastChange orphan_log = Throw ErrorCode_UnknownResource.
Proof.
  destruct (change_records_resolve_on_read orphan_log) as (_ & H1 & _ & H3).
  split.
  - apply (H1 0 10 orphan_change).
    + vm_compute. split; [ discriminate | reflexivity ].
    + vm_compute. left. reflexivity.
    + reflexivity.
  - apply (H3 orphan_change).
    + left. reflexivity.
    + intros r [<- | []]. lia.
    + intros r [<- | []] _. reflexivity.
    + reflexivity.
Defined.

Example GetChanges_three_changes :
  GetChanges three_changes 1 10
  = OK ([ ServerIndexChange.mk 2 (ChangeType_of_int 2) ResourceType_Study
                               "study" "20150101T000001";
          ServerIndexChange.mk 3 (ChangeType_of_int 2) ResourceType_Series
                               "series" "20150101T000002" ],
        true)
  /\ GetLastChange three_changes
     = OK [ ServerIndexChange.mk 3 (ChangeType_of_int 2) ResourceType_Series
                                 "series" "20150101T000002" ].
Proof. split; vm_compute; reflexivity. Qed.

(* ================================================================== *)
(** * Keyed tables: global properties, metadata, attachments *)

Section KeyedFacts.

Context {Row : Type}.

Lemma filter_DELETE_WHERE_other (p q : Row -> bool) (t : list Row) :
  (forall x, p x = true -> q x = false) ->
  filter p (SQLite.DELETE_WHERE q t) = filter p t.
Proof.
  intros H. unfold SQLite.DELETE_WHERE.
  induction t as [| x t IH]; simpl; [ reflexivity | ].
  destruct (p x) eqn:Ep.
  - rewrite (H x Ep). simpl. rewrite Ep, IH. reflexivity.
  - destruct (q x); simpl; [ | rewrite Ep ]; exact IH.
Qed.

Lemma DELETE_WHERE_absent (p : Row -> bool) (t : list Row) :
  existsb p t = false -> SQLite.DELETE_WHERE p t = t.
Proof.
  unfold SQLite.DELETE_WHERE. induction t as [| x t IH]; simpl; [ reflexivity | ].
  destruct (p x); simpl; [ discriminate | ].
  intros H. rewrite (IH H). reflexivity.
Qed.

Lemma In_DELETE_WHERE (p : Row -> bool) (t : list Row) (x : Row) :
  In x (SQLite.DELETE_WHERE p t) <-> In x t /\ p x = false.
Proof.
  unfold SQLite.DELETE_WHERE. rewrite filter_In.
  destruct (p x); simpl; intuition congruence.
Qed.

(** The row a lookup reads: the first one that the WHERE clause keeps. *)
Lemma Step_SELECT_find (p : Row -> bool) (t : list Row) :
  option_map fst (SQLite.Step (SQLite.SELECT_WHERE p t)) = find p t.
Proof.
  unfold SQLite.Step, SQLite.SELECT_WHERE.
  induction t as [| x t IH]; simpl; [ reflexivity | ].
  destruct (p x); [ reflexivity | exact IH ].
Qed.

Lemma NoDup_map_filter_key {K : Type} (key : Row -> K) (p : Row -> bool)
      (t : list Row) :
  NoDup (map key t) -> NoDup (map key (filter p t)).
Proof.
  induction t as [| x t IH]; simpl; intros H; [ constructor | ].
  inversion H as [| ? ? Hx Ht]; subst.
  destruct (p x); simpl; [ constructor | ]; auto.
  intros Hin. apply Hx. apply in_map_iff in Hin.
  destruct Hin as (y & Hy & Hin). apply filter_In in Hin.
  apply in_map_iff. exists y. tauto.
Qed.

(** In a table keyed by two columns, the rows that share the first
    column have distinct second columns. *)
Lemma NoDup_rows_of (k1 k2 : Row -> Z) (g : Z -> Z) (id : Z) (t : list Row) :
  NoDup (map (fun r => (k1 r, k2 r)) t) ->
  (forall r, In r t -> g (k2 r) = k2 r) ->
  NoDup (map (fun r => g (k2 r)) (filter (fun r => k1 r =? id) t)).
Proof.
  intros Hnd Hg.
  induction t as [| x t IH]; simpl; [ constructor | ].
  inversion Hnd as [| ? ? Hx Ht]; subst.
  assert (IH' := IH Ht (fun r Hr => Hg r (or_intror Hr))).
  destruct (k1 x =? id) eqn:E; simpl; [ | exact IH' ].
  constructor; [ | exact IH' ].
  intros Hin. apply Hx. apply in_map_iff in Hin.
  destruct Hin as (y & Hy & Hin). apply filter_In in Hin.
  destruct Hin as [Hin Hid]. apply in_map_iff. exists y.
  split; [ | exact Hin ].
  apply Z.eqb_eq in E. apply Z.eqb_eq in Hid.
  rewrite (Hg y (or_intror Hin)), (Hg x (or_introl eq_refl)) in Hy.
  congruence.
Qed.

End KeyedFacts.

(** ** Global properties *)

(** X1: [SetGlobalProperty] followed by [LookupGlobalProperty]: the property
    reads back the value just set, it has one row, and every other
    property reads as before. *)
Theorem SetGlobalProperty_LookupGlobalProperty (db : Tables)
        (property other : GlobalProperty) (value : string) :
  let db' := SetGlobalProperty db property value in
  LookupGlobalProperty db' property = Some value
  /\ filter (fun r => fst r =? SQLite.BindInt property) (GlobalProperties db')
     = [(SQLite.BindInt property, value)]
  /\ (SQLite.BindInt other <> SQLite.BindInt property ->
      LookupGlobalProperty db' other = LookupGlobalProperty db other).
Proof.
  simpl.
  assert (H : filter (fun r => fst r =? SQLite.BindInt property)
                     (GlobalProperties (SetGlobalProperty db property value))
              = [(SQLite.BindInt property, value)]).
  { unfold SetGlobalProperty, SQLite.INSERT_OR_REPLACE. simpl.
    rewrite filter_app, filter_after_DELETE_WHERE.
    - simpl. rewrite Z.eqb_refl. reflexivity.
    - intros x Hx. unfold GlobalProperties_conflicts. simpl.
      rewrite Z.eqb_sym. exact Hx. }
  split; [ | split; [ exact H | ] ].
  - unfold LookupGlobalProperty, SQLite.SELECT_WHERE. rewrite H. reflexivity.
  - intros Hne. unfold LookupGlobalProperty, SetGlobalProperty,
      SQLite.INSERT_OR_REPLACE, SQLite.SELECT_WHERE. simpl.
    rewrite filter_app, filter_DELETE_WHERE_other.
    + simpl. replace (SQLite.BindInt property =? SQLite.BindInt other) with false
        by (symmetry; apply Z.eqb_neq; congruence).
      rewrite app_nil_r. reflexivity.
    + intros x Hx. unfold GlobalProperties_conflicts. simpl.
      apply Z.eqb_eq in Hx. apply Z.eqb_neq. congruence.
Qed.

(** ** Metadata *)

(** The key discipline of table Metadata: one row at most per (resource
    id, metadata kind), and a kind that a C [int] holds. *)
Definition Metadata_wf (db : Tables) : Prop :=
  NoDup (map (fun r => (m_id r, m_type r)) (Metadata db))
  /\ Forall (fun r => CInt.fits_int (m_type r)) (Metadata db).

(** The key discipline of table AttachedFiles. *)
Definition AttachedFiles_wf (db : Tables) : Prop :=
  NoDup (map (fun r => (a_id r, a_fileType r)) (AttachedFiles db))
  /\ Forall (fun r => CInt.fits_int (a_fileType r)) (AttachedFiles db).

Lemma Forall_filter {A : Type} (P : A -> Prop) (p : A -> bool) (l : list A) :
  Forall P l -> Forall P (filter p l).
Proof.
  rewrite !Forall_forall. intros H x Hx. apply filter_In in Hx. apply H, Hx.
Qed.

Lemma NoDup_map_snoc {A K : Type} (key : A -> K) (l : list A) (x : A) :
  NoDup (map key l) -> (forall y, In y l -> key y <> key x) ->
  NoDup (map key (l ++ [x])).
Proof.
  intros Hnd Hx. rewrite map_app. simpl.
  apply NoDup_app; [ exact Hnd | repeat constructor; intros [] | ].
  intros k Hk [<- | []]. apply in_map_iff in Hk.
  destruct Hk as (y & Hy & Hin). exact (Hx y Hin Hy).
Qed.

Lemma SetMetadata_wf (db : Tables) (id : Z) (type : MetadataType)
      (value : string) :
  Metadata_wf db -> Metadata_wf (SetMetadata db id type value).
Proof.
  intros [Hnd Hint]. unfold Metadata_wf, SetMetadata, SQLite.INSERT_OR_REPLACE.
  simpl. split.
  - apply NoDup_map_snoc.
    + apply NoDup_map_filter_key. exact Hnd.
    + intros y Hy. apply In_DELETE_WHERE in Hy. destruct Hy as [_ Hy].
      unfold Metadata_conflicts in Hy. simpl in Hy. intros Heq.
      injection Heq as H1 H2. rewrite H1, H2, !Z.eqb_refl in Hy. discriminate.
  - apply Forall_app. split.
    + apply Forall_filter. exact Hint.
    + constructor; [ simpl; apply to_int_range | constructor ].
Qed.

Lemma DeleteMetadata_wf (db : Tables) (id : Z) (type : MetadataType) :
  Metadata_wf db -> Metadata_wf (DeleteMetadata db id type).
Proof.
  intros [Hnd Hint]. unfold Metadata_wf, DeleteMetadata. simpl. split.
  - apply NoDup_map_filter_key. exact Hnd.
  - apply Forall_filter. exact Hint.
Qed.

Lemma AddAttachment_wf (db db' : Tables) (id : Z) (attachment : FileInfo) :
  AttachedFiles_wf db -> AddAttachment db id attachment = OK db' ->
  AttachedFiles_wf db'.
Proof.
  intros [Hnd Hint] H. unfold AddAttachment in H.
  apply bind_OK_inv in H. destruct H as (rows & Hins & [= <-]).
  apply INSERT_OK_inv in Hins. destruct Hins as [Hno ->].
  unfold AttachedFiles_wf. simpl. split.
  - apply NoDup_map_snoc; [ exact Hnd | ].
    intros y Hy Heq. simpl in Heq. injection Heq as H1 H2.
    assert (existsb (AttachedFiles_conflicts (AddAttachment_row id attachment))
                    (AttachedFiles db) = true).
    { apply existsb_exists. exists y. split; [ exact Hy | ].
      unfold AttachedFiles_conflicts. simpl. rewrite H1, H2, !Z.eqb_refl.
      reflexivity. }
    unfold AddAttachment_row in H. congruence.
  - apply Forall_app. split; [ exact Hint | ].
    constructor; [ simpl; apply to_int_range | constructor ].
Qed.

Lemma DeleteAttachment_wf (db : Tables) (id : Z) (attachment : FileContentType) :
  AttachedFiles_wf db -> AttachedFiles_wf (DeleteAttachment db id attachment).
Proof.
  intros [Hnd Hint]. unfold AttachedFiles_wf, DeleteAttachment. simpl. split.
  - apply NoDup_map_filter_key. exact Hnd.
  - apply Forall_filter. exact Hint.
Qed.

(** X2: The operations that write metadata and attachments keep the key
    discipline of their table, which an empty store has: one row per
    key, and a kind column that a C [int] holds. *)
Theorem metadata_and_attachments_keep_their_keys :
  Metadata_wf empty_Tables /\ AttachedFiles_wf empty_Tables
  /\ (forall db id type value,
         Metadata_wf db -> Metadata_wf (SetMetadata db id type value))
  /\ (forall db id type,
         Metadata_wf db -> Metadata_wf (DeleteMetadata db id type))
  /\ (forall db db' id attachment,
         AttachedFiles_wf db -> AddAttachment db id attachment = OK db' ->
         AttachedFiles_wf db')
  /\ (forall db id attachment,
         AttachedFiles_wf db ->
         AttachedFiles_wf (DeleteAttachment db id attachment)).
Proof.
  split; [ split; constructor | ].
  split; [ split; constructor | ].
  split; [ exact SetMetadata_wf | ].
  split; [ exact DeleteMetadata_wf | ].
  split; [ exact AddAttachment_wf | exact DeleteAttachment_wf ].
Qed.

Lemma with_Metadata_same (db : Tables) : with_Metadata (Metadata db) db = db.
Proof. destruct db; reflexivity. Qed.

Lemma LookupMetadata_None (db : Tables) (id : Z) (type : MetadataType) :
  LookupMetadata db id type = None
  <-> existsb (Metadata_key id type) (Metadata db) = false.
Proof.
  unfold LookupMetadata.
  change (fun r => (m_id r =? SQLite.BindInt64 id)
                   && (m_type r =? SQLite.BindInt type))
    with (Metadata_key id type).
  rewrite <- Step_SELECT_None.
  destruct (SQLite.Step _) as [[row rest] |]; split; congruence.
Qed.

(** Two keys of table Metadata that differ select disjoint rows. *)
Lemma Metadata_key_other (id id' : Z) (type type' : MetadataType)
      (r : MetadataRow) :
  id' <> id \/ SQLite.BindInt type' <> SQLite.BindInt type ->
  Metadata_key id' type' r = true -> Metadata_key id type r = false.
Proof.
  unfold Metadata_key, SQLite.BindInt64. intros Hne H.
  apply andb_true_iff in H. destruct H as [H1 H2].
  apply Z.eqb_eq in H1. apply Z.eqb_eq in H2.
  apply andb_false_iff. destruct Hne as [Hne | Hne];
    [ left | right ]; apply Z.eqb_neq; congruence.
Qed.

(** X3: [DeleteMetadata]: the key has no value afterwards, every other key
    reads as before, and when the key had no value the store is left as
    it was. *)
Theorem DeleteMetadata_removes_one_key (db : Tables) (id id' : Z)
        (type type' : MetadataType) :
  let db' := DeleteMetadata db id type in
  LookupMetadata db' id type = None
  /\ (id' <> id \/ SQLite.BindInt type' <> SQLite.BindInt type ->
      LookupMetadata db' id' type' = LookupMetadata db id' type')
  /\ (LookupMetadata db id type = None -> db' = db).
Proof.
  simpl. split; [ | split ].
  - apply LookupMetadata_None. unfold DeleteMetadata. simpl.
    apply filter_nil_existsb. apply filter_after_DELETE_WHERE. auto.
  - intros Hne. unfold LookupMetadata, DeleteMetadata, SQLite.SELECT_WHERE.
    simpl.
    change (fun r => (m_id r =? SQLite.BindInt64 id')
                     && (m_type r =? SQLite.BindInt type'))
      with (Metadata_key id' type').
    change (fun r => (m_id r =? SQLite.BindInt64 id)
                     && (m_type r =? SQLite.BindInt type))
      with (Metadata_key id type).
    rewrite filter_DELETE_WHERE_other; [ reflexivity | ].
    intros x. apply Metadata_key_other. exact Hne.
  - intros H. apply LookupMetadata_None in H. unfold DeleteMetadata.
    change (fun r => (m_id r =? SQLite.BindInt64 id)
                     && (m_type r =? SQLite.BindInt type))
      with (Metadata_key id type).
    rewrite (DELETE_WHERE_absent _ _ H). apply with_Metadata_same.
Qed.

(** X4: [SetMetadata] leaves the value of every other key as it was. *)
Theorem SetMetadata_other_keys (db : Tables) (id id' : Z)
        (type type' : MetadataType) (value : string) :
  id' <> id \/ SQLite.BindInt type' <> SQLite.BindInt type ->
  LookupMetadata (SetMetadata db id type value) id' type'
  = LookupMetadata db id' type'.
Proof.
  intros Hne. unfold LookupMetadata, SetMetadata, SQLite.INSERT_OR_REPLACE,
    SQLite.SELECT_WHERE. simpl.
  change (fun r => (m_id r =? SQLite.BindInt64 id')
                   && (m_type r =? SQLite.BindInt type'))
    with (Metadata_key id' type').
  rewrite filter_app, filter_DELETE_WHERE_other.
  - simpl.
    replace (Metadata_key id' type'
               (mkMetadataRow (SQLite.BindInt64 id) (SQLite.BindInt type) value))
      with false; [ rewrite app_nil_r; reflexivity | ].
    symmetry. unfold Metadata_key, SQLite.BindInt64. simpl.
    apply andb_false_iff. destruct Hne as [Hne | Hne];
      [ left | right ]; apply Z.eqb_neq; congruence.
  - intros x Hx. pose proof (@Metadata_key_other id id' type type' x Hne Hx) as Hk.
    unfold Metadata_conflicts, Metadata_key in *. simpl.
    rewrite (Z.eqb_sym (SQLite.BindInt64 id)), (Z.eqb_sym (SQLite.BindInt type)).
    exact Hk.
Qed.

Lemma SetMetadata_other_keys_witness :
  LookupMetadata (SetMetadata (SetMetadata empty_Tables 1 7 "a") 1 8 "b") 1 7
  = Some "a".
Proof.
  rewrite (@SetMetadata_other_keys (SetMetadata empty_Tables 1 7 "a") 1 1 8 7 "b").
  - reflexivity.
  - right. vm_compute. discriminate.
Defined.

(** ** The map of [GetAllMetadata] *)

Lemma std_map_find_set_same (key : Z) (value : string)
      (target : list (Z * string)) :
  std_map_find key (std_map_set key value target) = Some value.
Proof.
  unfold std_map_find. induction target as [| [k v] target IH]; simpl.
  - rewrite Z.eqb_refl. reflexivity.
  - destruct (key <? k) eqn:E1; simpl.
    + rewrite Z.eqb_refl. reflexivity.
    + destruct (key =? k) eqn:E2; simpl.
      * rewrite Z.eqb_refl. reflexivity.
      * rewrite Z.eqb_sym, E2. exact IH.
Qed.

Lemma std_map_find_set_other (key key' : Z) (value : string)
      (target : list (Z * string)) :
  key' <> key ->
  std_map_find key' (std_map_set key value target) = std_map_find key' target.
Proof.
  intros Hne. unfold std_map_find.
  assert (Hf : (key =? key') = false) by (apply Z.eqb_neq; congruence).
  induction target as [| [k v] target IH]; simpl.
  - rewrite Hf. reflexivity.
  - destruct (key <? k) eqn:E1; simpl.
    + rewrite Hf. reflexivity.
    + destruct (key =? k) eqn:E2; simpl.
      * rewrite Hf. apply Z.eqb_eq in E2. subst k. rewrite Hf. reflexivity.
      * destruct (k =? key'); [ reflexivity | exact IH ].
Qed.

Lemma std_map_set_keys (key : Z) (value : string) (target : list (Z * string))
      (z : Z) :
  In z (map fst (std_map_set key value target)) ->
  z = key \/ In z (map fst target).
Proof.
  induction target as [| [k v] target IH]; simpl.
  - intros [<- | []]. left. reflexivity.
  - destruct (key <? k); simpl; [ intros [<- | H]; auto | ].
    destruct (key =? k); simpl.
    + intros [<- | H]; auto.
    + intros [<- | H]; auto. destruct (IH H); auto.
Qed.

(** The keys of the map stay in strictly ascending order, as those of a
    [std::map] are. *)
Lemma std_map_set_sorted (key : Z) (value : string)
      (target : list (Z * string)) :
  StronglySorted Z.lt (map fst target) ->
  StronglySorted Z.lt (map fst (std_map_set key value target)).
Proof.
  induction target as [| [k v] target IH]; simpl; intros Hs.
  - repeat constructor.
  - inversion Hs as [| ? ? Hl Hall]; subst.
    destruct (key <? k) eqn:E1; simpl.
    + apply Z.ltb_lt in E1. constructor; [ exact Hs | ].
      constructor; [ exact E1 | ].
      rewrite Forall_forall in *. intros z Hz. specialize (Hall z Hz). lia.
    + apply Z.ltb_ge in E1. destruct (key =? k) eqn:E2; simpl.
      * apply Z.eqb_eq in E2. subst k. constructor; assumption.
      * apply Z.eqb_neq in E2. constructor; [ apply IH; exact Hl | ].
        rewrite Forall_forall in *. intros z Hz.
        apply std_map_set_keys in Hz.
        destruct Hz as [-> | Hz]; [ lia | exact (Hall z Hz) ].
Qed.

Definition GetAllMetadata_step (target : list (Z * string)) (row : MetadataRow)
  : list (Z * string) :=
  std_map_set (SQLite.ColumnInt (m_type row)) (m_value row) target.

Lemma GetAllMetadata_fold_other (rows : list MetadataRow) (key : Z) :
  (forall r, In r rows -> SQLite.ColumnInt (m_type r) <> key) ->
  forall target,
    std_map_find key (fold_left GetAllMetadata_step rows target)
    = std_map_find key target.
Proof.
  induction rows as [| x rows IH]; simpl; intros H target; [ reflexivity | ].
  rewrite IH by auto. unfold GetAllMetadata_step.
  apply std_map_find_set_other. intros Heq. apply (H x); auto.
Qed.

Lemma GetAllMetadata_fold_In (rows : list MetadataRow) (r : MetadataRow) :
  NoDup (map (fun r => SQLite.ColumnInt (m_type r)) rows) -> In r rows ->
  forall target,
    std_map_find (SQLite.ColumnInt (m_type r))
                 (fold_left GetAllMetadata_step rows target)
    = Some (m_value r).
Proof.
  induction rows as [| x rows IH]; simpl; intros Hnd Hin target; [ contradiction | ].
  inversion Hnd as [| ? ? Hx Hrows]; subst. destruct Hin as [-> | Hin].
  - rewrite GetAllMetadata_fold_other.
    + apply std_map_find_set_same.
    + intros y Hy Heq. apply Hx. apply in_map_iff. exists y. auto.
  - apply IH; assumption.
Qed.

Lemma GetAllMetadata_fold_sorted (rows : list MetadataRow) :
  forall target,
    StronglySorted Z.lt (map fst target) ->
    StronglySorted Z.lt (map fst (fold_left GetAllMetadata_step rows target)).
Proof.
  induction rows as [| x rows IH]; simpl; intros target Hs; [ exact Hs | ].
  apply IH. apply std_map_set_sorted. exact Hs.
Qed.

(** The rows of one resource in a table that keeps the key discipline
    have distinct kinds, each read back unchanged through a C [int]. *)
Lemma Metadata_wf_rows (db : Tables) (id : Z) :
  Metadata_wf db ->
  let rows := SQLite.SELECT_WHERE (fun r => m_id r =? SQLite.BindInt64 id)
                                  (Metadata db) in
  NoDup (map (fun r => SQLite.ColumnInt (m_type r)) rows)
  /\ forall r, In r rows ->
               In r (Metadata db) /\ m_id r = id
               /\ SQLite.ColumnInt (m_type r) = m_type r.
Proof.
  intros [Hnd Hint]. simpl. unfold SQLite.SELECT_WHERE, SQLite.BindInt64.
  assert (Hrows : forall r, In r (filter (fun r => m_id r =? id) (Metadata db)) ->
                            In r (Metadata db) /\ m_id r = id
                            /\ SQLite.ColumnInt (m_type r) = m_type r).
  { intros r Hr. apply filter_In in Hr. destruct Hr as [Hin Hid].
    apply Z.eqb_eq in Hid. repeat split; auto.
    apply to_int_fits. rewrite Forall_forall in Hint. auto. }
  split; [ | exact Hrows ].
  apply (@NoDup_rows_of _ m_id m_type SQLite.ColumnInt id _ Hnd).
  intros r Hr. apply to_int_fits. rewrite Forall_forall in Hint. auto.
Qed.

(** [LookupMetadata] reads the first row of the kind among the rows of
    the resource. *)
Lemma LookupMetadata_among_rows (db : Tables) (id : Z) (type : MetadataType) :
  LookupMetadata db id type
  = option_map m_value
      (find (fun r => m_type r =? SQLite.BindInt type)
            (SQLite.SELECT_WHERE (fun r => m_id r =? SQLite.BindInt64 id)
                                 (Metadata db))).
Proof.
  unfold LookupMetadata, SQLite.SELECT_WHERE, SQLite.Step.
  induction (Metadata db) as [| x l IH]; simpl; [ reflexivity | ].
  destruct (m_id x =? SQLite.BindInt64 id); simpl; [ | exact IH ].
  destruct (m_type x =? SQLite.BindInt type); simpl; [ reflexivity | exact IH ].
Qed.

(** X5: [GetAllMetadata] and [ListAvailableMetadata] agree with
    [LookupMetadata] on a table that keeps the key discipline: the map
    holds under each kind the value that the lookup of the kind reads,
    its keys are in strictly ascending order, and the list holds the
    kinds that have a value, each once. *)
Theorem GetAllMetadata_agrees_with_LookupMetadata (db : Tables) (id : Z) :
  Metadata_wf db ->
  (forall type,
      std_map_find (SQLite.BindInt type) (GetAllMetadata db id)
      = LookupMetadata db id type)
  /\ StronglySorted Z.lt (map fst (GetAllMetadata db id))
  /\ (forall type,
         In (SQLite.BindInt type) (ListAvailableMetadata db id)
         <-> LookupMetadata db id type <> None)
  /\ NoDup (ListAvailableMetadata db id).
Proof.
  intros Hwf. destruct (@Metadata_wf_rows db id Hwf) as [Hnd Hrows].
  unfold GetAllMetadata, ListAvailableMetadata.
  change (fun target row =>
            let key := SQLite.ColumnInt (m_type row) in
            std_map_set key (m_value row) target)
    with GetAllMetadata_step.
  set (rows := SQLite.SELECT_WHERE (fun r => m_id r =? SQLite.BindInt64 id)
                                   (Metadata db)) in *.
  pose proof (LookupMetadata_among_rows db id) as Hlookup. fold rows in Hlookup.
  split; [ | split; [ | split ] ].
  - intros type. rewrite Hlookup.
    destruct (find _ rows) as [r |] eqn:E; simpl.
    + apply find_some in E. destruct E as [Hin Ht]. apply Z.eqb_eq in Ht.
      destruct (Hrows r Hin) as (_ & _ & Hfit).
      rewrite <- Ht, <- Hfit. apply GetAllMetadata_fold_In; assumption.
    + rewrite GetAllMetadata_fold_other; [ reflexivity | ].
      intros r Hin Heq. destruct (Hrows r Hin) as (_ & _ & Hfit).
      pose proof (find_none _ _ E r Hin) as Hn. simpl in Hn.
      apply Z.eqb_neq in Hn. congruence.
  - apply GetAllMetadata_fold_sorted. constructor.
  - intros type. rewrite Hlookup. rewrite in_map_iff. split.
    + intros (r & Heq & Hin). destruct (Hrows r Hin) as (_ & _ & Hfit).
      destruct (find _ rows) eqn:E; simpl; [ discriminate | ].
      pose proof (find_none _ _ E r Hin) as Hn. simpl in Hn.
      apply Z.eqb_neq in Hn. congruence.
    + destruct (find _ rows) as [r |] eqn:E; simpl; [ intros _ | congruence ].
      apply find_some in E. destruct E as [Hin Ht]. apply Z.eqb_eq in Ht.
      exists r. split; [ | exact Hin ].
      destruct (Hrows r Hin) as (_ & _ & Hfit). congruence.
  - exact Hnd.
Qed.

Definition two_metadata : Tables :=
  SetMetadata (SetMetadata (SetMetadata empty_Tables 1 8 "b") 1 7 "a") 1 8 "c".

Lemma two_metadata_wf : Metadata_wf two_metadata.
Proof. repeat apply SetMetadata_wf. split; constructor. Qed.

Lemma GetAllMetadata_agrees_with_LookupMetadata_witness :
  Metadata_wf two_metadata
  /\ GetAllMetadata two_metadata 1 = [(7, "a"); (8, "c")]
  /\ LookupMetadata two_metadata 1 8
     = std_map_find (SQLite.BindInt 8) (GetAllMetadata two_metadata 1).
Proof.
  split; [ exact two_metadata_wf | ].
  split; [ reflexivity | ].
  symmetry.
  exact (proj1 (@GetAllMetadata_agrees_with_LookupMetadata
                  two_metadata 1 two_metadata_wf) 8).
Defined.

(** ** Attachments *)

(** Two keys of table AttachedFiles that differ select disjoint rows. *)
Lemma AttachedFiles_key_other (id id' : Z) (type type' : FileContentType)
      (r : AttachedFileRow) :
  id' <> id \/ SQLite.BindInt type' <> SQLite.BindInt type ->
  AttachedFiles_key id' type' r = true -> AttachedFiles_key id type r = false.
Proof.
  unfold AttachedFiles_key, SQLite.BindInt64. intros Hne H.
  apply andb_true_iff in H. destruct H as [H1 H2].
  apply Z.eqb_eq in H1. apply Z.eqb_eq in H2.
  apply andb_false_iff. destruct Hne as [Hne | Hne];
    [ left | right ]; apply Z.eqb_neq; congruence.
Qed.

(** X6: The round trip of an attachment: after a successful [AddAttachment]
    of a record whose two kinds fit a C [int] and whose two sizes are
    [uint64_t] values, [LookupAttachment] returns the record as it was
    given, and the attachments of every other key read as before. *)
Theorem AddAttachment_LookupAttachment (db db' : Tables) (id id' : Z)
        (attachment : FileInfo) (contentType : FileContentType) :
  CInt.fits_int (GetContentType attachment) ->
  CInt.fits_int (GetCompressionType attachment) ->
  0 <= GetCompressedSize attachment < 2 ^ 64 ->
  0 <= GetUncompressedSize attachment < 2 ^ 64 ->
  AddAttachment db id attachment = OK db' ->
  LookupAttachment db' id (GetContentType attachment) = Some attachment
  /\ (id' <> id
      \/ SQLite.BindInt contentType <> SQLite.BindInt (GetContentType attachment) ->
      LookupAttachment db' id' contentType = LookupAttachment db id' contentType).
Proof.
  intros Hct Hcp Hcs Hus H. unfold AddAttachment in H.
  fold (AddAttachment_row id attachment) in H.
  apply bind_OK_inv in H. destruct H as (rows & Hins & [= <-]).
  apply INSERT_OK_inv in Hins. destruct Hins as [Hno ->].
  rewrite (existsb_ext _ _ (AttachedFiles_conflicts_key id attachment) _) in Hno.
  split.
  - unfold LookupAttachment, SQLite.SELECT_WHERE. simpl.
    change (fun r => (a_id r =? SQLite.BindInt64 id)
                     && (a_fileType r
                         =? SQLite.BindInt (GetContentType attachment)))
      with (AttachedFiles_key id (GetContentType attachment)).
    rewrite filter_app, (existsb_false_filter _ _ Hno). simpl.
    unfold AttachedFiles_key at 1. simpl. rewrite !Z.eqb_refl. simpl.
    unfold SQLite.ColumnInt64, SQLite.ColumnInt, SQLite.BindInt64, SQLite.BindInt.
    rewrite !to_int64_to_uint64 by assumption.
    rewrite !(to_int_fits Hcp).
    destruct attachment; reflexivity.
  - intros Hne. unfold LookupAttachment, SQLite.SELECT_WHERE. simpl.
    change (fun r => (a_id r =? SQLite.BindInt64 id')
                     && (a_fileType r =? SQLite.BindInt contentType))
      with (AttachedFiles_key id' contentType).
    rewrite filter_app. simpl.
    replace (AttachedFiles_key id' contentType (AddAttachment_row id attachment))
      with false; [ rewrite app_nil_r; reflexivity | ].
    symmetry. unfold AttachedFiles_key, AddAttachment_row, SQLite.BindInt64.
    simpl. apply andb_false_iff. destruct Hne as [Hne | Hne];
      [ left | right ]; apply Z.eqb_neq; congruence.
Qed.

Lemma AddAttachment_LookupAttachment_witness :
  exists db',
    AddAttachment empty_Tables 1 file_a = OK db'
    /\ LookupAttachment db' 1 1 = Some file_a.
Proof.
  eexists. split; [ reflexivity | ].
  refine (proj1 (@AddAttachment_LookupAttachment
                   empty_Tables _ 1 1 file_a 1 _ _ _ _ eq_refl));
    vm_compute; split; congruence.
Defined.

(** X7: [DeleteAttachment]: the key has no attachment afterwards, the ones
    of every other key read as before, and an attachment of the deleted
    kind can be added again. *)
Theorem DeleteAttachment_then_AddAttachment (db : Tables) (id id' : Z)
        (contentType contentType' : FileContentType) (attachment : FileInfo) :
  let db' := DeleteAttachment db id contentType in
  LookupAttachment db' id contentType = None
  /\ (id' <> id \/ SQLite.BindInt contentType' <> SQLite.BindInt contentType ->
      LookupAttachment db' id' contentType'
      = LookupAttachment db id' contentType')
  /\ (GetContentType attachment = contentType ->
      exists db'', AddAttachment db' id attachment = OK db'').
Proof.
  simpl.
  assert (Hnone : LookupAttachment (DeleteAttachment db id contentType)
                                   id contentType = None).
  { apply LookupAttachment_None. unfold DeleteAttachment. simpl.
    apply filter_nil_existsb. apply filter_after_DELETE_WHERE. auto. }
  split; [ exact Hnone | split ].
  - intros Hne. unfold LookupAttachment, DeleteAttachment, SQLite.SELECT_WHERE.
    simpl.
    change (fun r => (a_id r =? SQLite.BindInt64 id')
                     && (a_fileType r =? SQLite.BindInt contentType'))
      with (AttachedFiles_key id' contentType').
    change (fun r => (a_id r =? SQLite.BindInt64 id)
                     && (a_fileType r =? SQLite.BindInt contentType))
      with (AttachedFiles_key id contentType).
    rewrite filter_DELETE_WHERE_other; [ reflexivity | ].
    intros x. apply AttachedFiles_key_other. exact Hne.
  - intros <-. destruct (AddAttachment_fresh _ _ _ Hnone) as (db'' & _ & H & _).
    exists db''. exact H.
Qed.

(** X8: [ListAvailableAttachments] lists the kinds for which
    [LookupAttachment] finds an attachment, each once, on a table that
    keeps the key discipline. *)
Theorem ListAvailableAttachments_agrees_with_LookupAttachment
        (db : Tables) (id : Z) :
  AttachedFiles_wf db ->
  (forall contentType,
      In (SQLite.BindInt contentType) (ListAvailableAttachments db id)
      <-> LookupAttachment db id contentType <> None)
  /\ NoDup (ListAvailableAttachments db id).
Proof.
  intros [Hnd Hint]. rewrite Forall_forall in Hint.
  assert (Hfit : forall r, In r (AttachedFiles db) ->
                           SQLite.ColumnInt (a_fileType r) = a_fileType r)
    by (intros r Hr; apply to_int_fits; auto).
  unfold ListAvailableAttachments, SQLite.SELECT_WHERE, SQLite.BindInt64.
  split.
  - intros contentType. rewrite LookupAttachment_None, in_map_iff. split.
    + intros (r & Heq & Hin). apply filter_In in Hin. destruct Hin as [Hin Hid].
      intros Hno.
      assert (existsb (AttachedFiles_key id contentType) (AttachedFiles db) = true).
      { apply existsb_exists. exists r. split; [ exact Hin | ].
        unfold AttachedFiles_key, SQLite.BindInt64. rewrite Hid. simpl.
        apply Z.eqb_eq. rewrite <- Heq. symmetry. apply Hfit. exact Hin. }
      congruence.
    + intros Hno.
      destruct (existsb (AttachedFiles_key id contentType) (AttachedFiles db))
        eqn:E; [ | congruence ].
      apply existsb_exists in E. destruct E as (r & Hin & Hk).
      unfold AttachedFiles_key, SQLite.BindInt64 in Hk.
      apply andb_true_iff in Hk. destruct Hk as [Hid Ht]. apply Z.eqb_eq in Ht.
      exists r. split; [ | apply filter_In; auto ].
      rewrite (Hfit r Hin). exact Ht.
  - apply (@NoDup_rows_of _ a_id a_fileType SQLite.ColumnInt id _ Hnd Hfit).
Qed.

Definition two_attachments : Tables :=
  match AddAttachment one_attachment 1 (mkFileInfo "uuid-c" 2 5 "m" 1 5 "n") with
  | OK db => db
  | Throw _ => one_attachment
  end.

Lemma two_attachments_wf : AttachedFiles_wf two_attachments.
Proof.
  apply (@AddAttachment_wf one_attachment two_attachments 1
           (mkFileInfo "uuid-c" 2 5 "m" 1 5 "n")).
  - split.
    + vm_compute. repeat constructor. simpl. tauto.
    + constructor; [ vm_compute; split; congruence | constructor ].
  - vm_compute. reflexivity.
Qed.

Lemma ListAvailableAttachments_agrees_with_LookupAttachment_witness :
  ListAvailableAttachments two_attachments 1 = [1; 2]
  /\ (In (SQLite.BindInt 2) (ListAvailableAttachments two_attachments 1)
      <-> LookupAttachment two_attachments 1 2 <> None).
Proof.
  split; [ vm_compute; reflexivity | ].
  exact (proj1 (@ListAvailableAttachments_agrees_with_LookupAttachment
                  two_attachments 1 two_attachments_wf) 2).
Defined.

(* ================================================================== *)
(** * The table of resources *)

(** The key discipline of table Resources: the internal id and the
    public id each identify one row, and the kind is one that a C [int]
    holds. *)
Definition Resources_wf (db : Tables) : Prop :=
  NoDup (map internalId (Resources db))
  /\ NoDup (map publicId (Resources db))
  /\ Forall (fun r => CInt.fits_int (resourceType r)) (Resources db).

(** The internal ids that [ColumnInt] reads back unchanged. *)
Definition ids_fit_int (db : Tables) : Prop :=
  Forall (fun r => CInt.fits_int (internalId r)) (Resources db).

Lemma filter_NoDup_key {Row K : Type} (key : Row -> K) (eqb : K -> K -> bool) :
  (forall a b, eqb a b = true <-> a = b) ->
  forall (l : list Row) (r : Row),
    NoDup (map key l) -> In r l ->
    filter (fun x => eqb (key x) (key r)) l = [r].
Proof.
  intros Heqb l r. induction l as [| x l IH]; simpl; intros Hnd Hin;
    [ contradiction | ].
  inversion Hnd as [| ? ? Hx Hl]; subst. destruct Hin as [-> | Hin].
  - replace (eqb (key r) (key r)) with true by (symmetry; apply Heqb; reflexivity).
    f_equal. apply existsb_false_filter.
    destruct (existsb _ l) eqn:E; [ | reflexivity ].
    apply existsb_exists in E. destruct E as (y & Hy & Heq).
    apply Heqb in Heq. elim Hx. rewrite <- Heq. apply in_map. exact Hy.
  - destruct (eqb (key x) (key r)) eqn:E; [ | exact (IH Hl Hin) ].
    apply Heqb in E. elim Hx. rewrite E. apply in_map. exact Hin.
Qed.

Lemma rows_of_internalId (db : Tables) (r : ResourceRow) :
  NoDup (map internalId (Resources db)) -> In r (Resources db) ->
  SQLite.SELECT_WHERE (fun x => internalId x =? SQLite.BindInt64 (internalId r))
                      (Resources db) = [r].
Proof.
  intros Hnd Hin. unfold SQLite.SELECT_WHERE, SQLite.BindInt64.
  exact (@filter_NoDup_key _ _ internalId Z.eqb Z.eqb_eq _ r Hnd Hin).
Qed.

Lemma rows_of_publicId (db : Tables) (r : ResourceRow) :
  NoDup (map publicId (Resources db)) -> In r (Resources db) ->
  SQLite.SELECT_WHERE (fun x => String.eqb (publicId x) (publicId r))
                      (Resources db) = [r].
Proof.
  intros Hnd Hin. unfold SQLite.SELECT_WHERE.
  exact (@filter_NoDup_key _ _ publicId String.eqb String.eqb_eq _ r Hnd Hin).
Qed.

(** The row update of [AttachChild]. *)
Definition AttachChild_row (parent child : Z) (r : ResourceRow) : ResourceRow :=
  if internalId r =? SQLite.BindInt64 child
  then mkResourceRow (internalId r) (resourceType r) (publicId r)
                     (Some (SQLite.BindInt64 parent))
  else r.

Lemma AttachChild_OK_inv (db db' : Tables) (parent child : Z) :
  AttachChild db parent child = OK db' ->
  IsExistingResource db child = true ->
  IsExistingResource db parent = true
  /\ db' = with_Resources (map (AttachChild_row parent child) (Resources db))
                          (Resources_counter db) db.
Proof.
  unfold AttachChild. intros H Hc.
  destruct (IsExistingResource db parent).
  - injection H as <-. split; reflexivity.
  - rewrite Hc in H. discriminate.
Qed.

Lemma AttachChild_row_columns (parent child : Z) (r : ResourceRow) :
  internalId (AttachChild_row parent child r) = internalId r
  /\ publicId (AttachChild_row parent child r) = publicId r
  /\ resourceType (AttachChild_row parent child r) = resourceType r.
Proof.
  unfold AttachChild_row. destruct (internalId r =? _); auto.
Qed.

Lemma map_AttachChild_row (parent child : Z) (rows : list ResourceRow) :
  map internalId (map (AttachChild_row parent child) rows) = map internalId rows
  /\ map publicId (map (AttachChild_row parent child) rows) = map publicId rows
  /\ map resourceType (map (AttachChild_row parent child) rows)
     = map resourceType rows.
Proof.
  rewrite !map_map. repeat split; apply map_ext; intros r;
    apply AttachChild_row_columns.
Qed.

Lemma CreateResource_wf (db db' : Tables) (pub : string) (type : ResourceType)
      (id : Z) :
  Resources_wf db -> CreateResource db pub type = OK (db', id) ->
  Resources_wf db'.
Proof.
  intros (Hid & Hpub & Hty) H. apply CreateResource_inv in H. simpl in H.
  destruct H as (-> & Hlt & Hne). unfold Resources_wf. simpl.
  split; [ | split ].
  - apply NoDup_map_snoc; [ exact Hid | ].
    intros y Hy. simpl. specialize (Hlt y Hy). lia.
  - apply NoDup_map_snoc; [ exact Hpub | ].
    intros y Hy. simpl. exact (Hne y Hy).
  - apply Forall_app. split; [ exact Hty | ].
    constructor; [ simpl; apply to_int_range | constructor ].
Qed.

Lemma AttachChild_wf (db db' : Tables) (parent child : Z) :
  Resources_wf db -> AttachChild db parent child = OK db' ->
  Resources_wf db'.
Proof.
  intros (Hid & Hpub & Hty) H. unfold AttachChild in H.
  destruct (IsExistingResource db parent).
  - injection H as <-. unfold Resources_wf. simpl.
    fold (AttachChild_row parent child).
    destruct (map_AttachChild_row parent child (Resources db)) as (E1 & E2 & E3).
    rewrite E1, E2. split; [ exact Hid | split; [ exact Hpub | ] ].
    rewrite Forall_forall in *. intros r Hr. apply in_map_iff in Hr.
    destruct Hr as (r0 & <- & Hr0).
    destruct (AttachChild_row_columns parent child r0) as (_ & _ & ->). auto.
  - destruct (IsExistingResource db child); [ discriminate | ].
    injection H as <-. repeat split; assumption.
Qed.

(** X9: [CreateResource] and [AttachChild] keep the key discipline of table
    Resources, which an empty store has. *)
Theorem resources_keep_their_keys :
  Resources_wf empty_Tables
  /\ (forall db db' pub type id,
         Resources_wf db -> CreateResource db pub type = OK (db', id) ->
         Resources_wf db')
  /\ (forall db db' parent child,
         Resources_wf db -> AttachChild db parent child = OK db' ->
         Resources_wf db').
Proof.
  split; [ repeat split; constructor | ].
  split; [ exact CreateResource_wf | exact AttachChild_wf ].
Qed.

(** What the four lookups answer for a row of a table that keeps the key
    discipline. *)
Lemma lookups_of_row (db : Tables) (r : ResourceRow) :
  Resources_wf db -> In r (Resources db) ->
  LookupResource db (publicId r)
  = Some (CInt.to_int (internalId r), resourceType r)
  /\ GetPublicId db (internalId r) = OK (publicId r)
  /\ GetResourceType db (internalId r) = OK (resourceType r)
  /\ LookupParent db (internalId r) = OK (option_map CInt.to_int (parentId r))
  /\ IsExistingResource db (internalId r) = true.
Proof.
  intros (Hid & Hpub & Hty) Hin.
  unfold LookupResource, GetPublicId, GetResourceType, LookupParent,
    IsExistingResource.
  rewrite (rows_of_publicId db r Hpub Hin), (rows_of_internalId db r Hid Hin).
  simpl. rewrite Forall_forall in Hty. unfold SQLite.ColumnInt.
  rewrite (to_int_fits (Hty r Hin)).
  repeat split. destruct (parentId r); reflexivity.
Qed.

Lemma GetPublicId_OK_row (db : Tables) (id : Z) (pub : string) :
  GetPublicId db id = OK pub ->
  exists r, In r (Resources db) /\ internalId r = id /\ publicId r = pub.
Proof.
  unfold GetPublicId, SQLite.Step, SQLite.SELECT_WHERE, SQLite.BindInt64.
  destruct (filter _ _) as [| x l] eqn:F; [ discriminate | intros [= <-] ].
  assert (Hin : In x (filter (fun r => internalId r =? id) (Resources db)))
    by (rewrite F; left; reflexivity).
  apply filter_In in Hin. destruct Hin as [Hin Heq]. apply Z.eqb_eq in Heq.
  exists x. auto.
Qed.

Lemma LookupResource_Some_row (db : Tables) (pub : string) (id : Z)
      (type : ResourceType) :
  LookupResource db pub = Some (id, type) ->
  exists r, In r (Resources db) /\ publicId r = pub
            /\ CInt.to_int (internalId r) = id
            /\ CInt.to_int (resourceType r) = type.
Proof.
  unfold LookupResource, SQLite.Step, SQLite.SELECT_WHERE.
  destruct (filter _ _) as [| x l] eqn:F; [ discriminate | intros [= <- <-] ].
  assert (Hin : In x (filter (fun r => String.eqb (publicId r) pub) (Resources db)))
    by (rewrite F; left; reflexivity).
  apply filter_In in Hin. destruct Hin as [Hin Heq]. apply String.eqb_eq in Heq.
  exists x. auto.
Qed.

(** X10: [LookupResource] and the pair of [GetPublicId] and [GetResourceType]
    are inverse to each other on a table that keeps the key discipline
    and whose internal ids fit a C [int]. *)
Theorem LookupResource_inverts_GetPublicId (db : Tables) (id : Z)
        (pub : string) (type : ResourceType) :
  Resources_wf db -> ids_fit_int db ->
  LookupResource db pub = Some (id, type)
  <-> GetPublicId db id = OK pub /\ GetResourceType db id = OK type.
Proof.
  intros Hwf Hfit. unfold ids_fit_int in Hfit. rewrite Forall_forall in Hfit.
  split.
  - intros H. apply LookupResource_Some_row in H.
    destruct H as (r & Hin & <- & <- & <-).
    destruct (@lookups_of_row db r Hwf Hin) as (_ & Hp & Ht & _).
    rewrite (to_int_fits (Hfit r Hin)).
    destruct Hwf as (_ & _ & Hty). rewrite Forall_forall in Hty.
    rewrite (to_int_fits (Hty r Hin)). auto.
  - intros [Hp Ht]. apply GetPublicId_OK_row in Hp.
    destruct Hp as (r & Hin & <- & <-).
    destruct (@lookups_of_row db r Hwf Hin) as (Hl & _ & Ht' & _).
    rewrite Ht' in Ht. injection Ht as <-.
    rewrite Hl, (to_int_fits (Hfit r Hin)). reflexivity.
Qed.

Lemma three_levels_wf : Resources_wf three_levels.
Proof.
  split; [ | split ].
  - vm_compute. repeat constructor; simpl; intuition congruence.
  - vm_compute. repeat constructor; simpl; intuition congruence.
  - repeat (constructor; [ vm_compute; split; congruence | ]). constructor.
Qed.

Lemma three_levels_fit : ids_fit_int three_levels.
Proof.
  repeat (constructor; [ vm_compute; split; congruence | ]). constructor.
Qed.

Lemma LookupResource_inverts_GetPublicId_witness :
  LookupResource three_levels "study" = Some (2, ResourceType_Study)
  /\ GetPublicId three_levels 2 = OK "study"
  /\ GetResourceType three_levels 2 = OK ResourceType_Study.
Proof.
  split; [ vm_compute; reflexivity | ].
  apply (proj1 (@LookupResource_inverts_GetPublicId
                  three_levels 2 "study" ResourceType_Study
                  three_levels_wf three_levels_fit)).
  vm_compute. reflexivity.
Defined.

(** ** Parents *)

Lemma unknown_id_has_no_parent (db : Tables) (id : Z) :
  IsExistingResource db id = false ->
  LookupParent db id = Throw ErrorCode_UnknownResource
  /\ GetParentPublicId db id = None.
Proof.
  intros H. apply unknown_id_selects_nothing in H.
  unfold LookupParent, GetParentPublicId, join_parent. rewrite H. auto.
Qed.

(** X11: [LookupParent] throws exactly for an id without row, and then
    UnknownResource, as [GetPublicId] and [GetResourceType] do;
    [GetParentPublicId] throws for no id and answers [false] there. *)
Theorem LookupParent_throws_on_unknown_id (db : Tables) (id : Z) :
  (IsExistingResource db id = true ->
   (exists parent, LookupParent db id = OK parent)
   /\ (exists pub, GetPublicId db id = OK pub)
   /\ (exists type, GetResourceType db id = OK type))
  /\ (IsExistingResource db id = false ->
      LookupParent db id = Throw ErrorCode_UnknownResource
      /\ GetPublicId db id = Throw ErrorCode_UnknownResource
      /\ GetResourceType db id = Throw ErrorCode_UnknownResource
      /\ GetParentPublicId db id = None).
Proof.
  unfold IsExistingResource, LookupParent, GetPublicId, GetResourceType,
    GetParentPublicId, join_parent.
  destruct (SQLite.Step _) as [[row rest] |] eqn:E.
  - split; [ intros _ | discriminate ].
    repeat split; eauto. destruct (parentId row); eauto.
  - split; [ discriminate | intros _ ].
    apply Step_SELECT_None in E. apply existsb_false_filter in E.
    unfold SQLite.SELECT_WHERE at 2. rewrite E. auto.
Qed.

Lemma AttachChild_row_parent (parent child : Z) (r : ResourceRow) :
  internalId r = child ->
  parentId (AttachChild_row parent child r) = Some parent.
Proof.
  unfold AttachChild_row, SQLite.BindInt64. intros ->.
  rewrite Z.eqb_refl. reflexivity.
Qed.

Lemma AttachChild_row_other (parent child : Z) (r : ResourceRow) :
  internalId r <> child -> AttachChild_row parent child r = r.
Proof.
  unfold AttachChild_row, SQLite.BindInt64. intros H.
  replace (internalId r =? child) with false by (symmetry; apply Z.eqb_neq; exact H).
  reflexivity.
Qed.

Lemma filter_map_AttachChild_row (parent child id : Z) (rows : list ResourceRow) :
  filter (fun r => internalId r =? id) (map (AttachChild_row parent child) rows)
  = map (AttachChild_row parent child) (filter (fun r => internalId r =? id) rows).
Proof.
  induction rows as [| x rows IH]; simpl; [ reflexivity | ].
  destruct (AttachChild_row_columns parent child x) as (-> & _ & _).
  destruct (internalId x =? id); simpl; rewrite IH; reflexivity.
Qed.

(** X12: After [AttachChild] of two resources that exist, [LookupParent] of
    the child answers the parent, read through a C [int], and
    [GetParentPublicId] its public id; the child is among the children
    of the parent, and of no other resource when public ids identify
    rows; the parent of every other resource is as before. *)
Theorem AttachChild_sets_the_parent (db db' : Tables) (parent child : Z)
        (pub : string) :
  AttachChild db parent child = OK db' ->
  GetPublicId db child = OK pub ->
  LookupParent db' child = OK (Some (CInt.to_int parent))
  /\ (exists parentPub,
         GetPublicId db' parent = OK parentPub
         /\ GetParentPublicId db' child = Some parentPub)
  /\ In pub (GetChildren db' parent)
  /\ (forall other,
         Resources_wf db -> other <> parent -> ~ In pub (GetChildren db' other))
  /\ (forall other,
         other <> child -> LookupParent db' other = LookupParent db other).
Proof.
  intros H Hpub.
  assert (Hc : IsExistingResource db child = true).
  { apply IsExistingResource_true. apply GetPublicId_OK_row in Hpub.
    destruct Hpub as (r & Hin & Hid & _). eauto. }
  destruct (@AttachChild_OK_inv db db' parent child H Hc) as [Hp ->].
  (* the rows of the child and of the parent, before and after *)
  assert (Hrows : forall id,
             SQLite.SELECT_WHERE (fun r => internalId r =? SQLite.BindInt64 id)
               (map (AttachChild_row parent child) (Resources db))
             = map (AttachChild_row parent child)
                   (SQLite.SELECT_WHERE
                      (fun r => internalId r =? SQLite.BindInt64 id)
                      (Resources db)))
    by (intros id; apply filter_map_AttachChild_row).
  pose proof Hpub as Hrow. unfold GetPublicId in Hrow.
  destruct (SQLite.SELECT_WHERE (fun r => internalId r =? SQLite.BindInt64 child)
                                (Resources db)) as [| c cs] eqn:Ec;
    [ discriminate | ].
  simpl in Hrow. injection Hrow as Hcpub.
  assert (Hcin : In c (filter (fun r => internalId r =? child) (Resources db)))
    by (unfold SQLite.SELECT_WHERE, SQLite.BindInt64 in Ec; rewrite Ec; left;
        reflexivity).
  apply filter_In in Hcin. destruct Hcin as [Hcin Hcid]. apply Z.eqb_eq in Hcid.
  pose proof Hp as Hprow. unfold IsExistingResource in Hprow.
  destruct (SQLite.SELECT_WHERE (fun r => internalId r =? SQLite.BindInt64 parent)
                                (Resources db)) as [| p ps] eqn:Ep;
    [ discriminate | ].
  clear Hprow.
  split; [ | split; [ | split; [ | split ] ] ].
  - unfold LookupParent. simpl. rewrite Hrows, Ec. simpl.
    rewrite (@AttachChild_row_parent parent child c Hcid). reflexivity.
  - exists (publicId p). unfold GetPublicId, GetParentPublicId, join_parent.
    simpl. rewrite !Hrows, Ec, Ep. simpl.
    rewrite (@AttachChild_row_parent parent child c Hcid).
    destruct (AttachChild_row_columns parent child p) as (_ & -> & _).
    split; [ reflexivity | ].
    unfold SQLite.BindInt64 in Hrows. unfold SQLite.SELECT_WHERE at 1.
    unfold SQLite.SELECT_WHERE, SQLite.BindInt64 in Hrows, Ep.
    rewrite (Hrows parent), Ep. simpl.
    destruct (AttachChild_row_columns parent child p) as (_ & -> & _).
    reflexivity.
  - unfold GetChildren. simpl. apply in_map_iff.
    exists (AttachChild_row parent child c).
    destruct (AttachChild_row_columns parent child c) as (_ & -> & _).
    split; [ exact Hcpub | ].
    apply filter_In. split; [ apply in_map; exact Hcin | ].
    unfold has_parent. rewrite (@AttachChild_row_parent parent child c Hcid).
    apply Z.eqb_refl.
  - intros other (_ & Hnd & _) Hne Hin. unfold GetChildren in Hin. simpl in Hin.
    apply in_map_iff in Hin. destruct Hin as (r' & Hr'pub & Hr').
    apply filter_In in Hr'. destruct Hr' as [Hr' Hpar].
    apply in_map_iff in Hr'. destruct Hr' as (r & <- & Hr).
    destruct (AttachChild_row_columns parent child r) as (_ & Epub & _).
    rewrite Epub in Hr'pub.
    assert (r = c).
    { pose proof (@filter_NoDup_key _ _ publicId String.eqb String.eqb_eq
                    _ c Hnd Hcin) as Hu.
      assert (Hrin : In r (filter (fun x => String.eqb (publicId x) (publicId c))
                                  (Resources db))).
      { apply filter_In. split; [ exact Hr | ].
        apply String.eqb_eq. congruence. }
      rewrite Hu in Hrin. destruct Hrin as [<- | []]. reflexivity. }
    subst r. unfold has_parent in Hpar.
    rewrite (@AttachChild_row_parent parent child c Hcid) in Hpar.
    apply Z.eqb_eq in Hpar. unfold SQLite.BindInt64 in Hpar. congruence.
  - intros other Hne. unfold LookupParent. simpl. rewrite Hrows.
    destruct (SQLite.SELECT_WHERE
                (fun r => internalId r =? SQLite.BindInt64 other) (Resources db))
      as [| x l] eqn:E; simpl; [ reflexivity | ].
    assert (Hx : In x (filter (fun r => internalId r =? other) (Resources db)))
      by (unfold SQLite.SELECT_WHERE, SQLite.BindInt64 in E; rewrite E; left;
          reflexivity).
    apply filter_In in Hx. destruct Hx as [_ Hx]. apply Z.eqb_eq in Hx.
    rewrite AttachChild_row_other by congruence. reflexivity.
Qed.

Lemma AttachChild_sets_the_parent_witness :
  exists db',
    AttachChild three_levels 1 3 = OK db'
    /\ LookupParent db' 3 = OK (Some 1)
    /\ GetChildren db' 1 = ["study"; "series"].
Proof.
  exists (with_Resources
            (map (AttachChild_row 1 3) (Resources three_levels)) 3 three_levels).
  split; [ vm_compute; reflexivity | ].
  split; [ | vm_compute; reflexivity ].
  apply (@AttachChild_sets_the_parent three_levels _ 1 3 "series");
    vm_compute; reflexivity.
Defined.

(** ** Children *)

(** X13: For a resource that exists in a table whose internal ids identify
    rows, the three child listings read the same rows, in the same
    order: the rows whose parent is the resource. *)
Theorem child_listings_agree (db : Tables) (id : Z) :
  NoDup (map internalId (Resources db)) ->
  IsExistingResource db id = true ->
  let children := SQLite.SELECT_WHERE (has_parent id) (Resources db) in
  GetChildren db id = map publicId children
  /\ GetChildrenPublicId db id = map publicId children
  /\ GetChildrenInternalId db id = map internalId children.
Proof.
  intros Hnd Hex. simpl. apply IsExistingResource_true in Hex.
  destruct Hex as (r & Hin & <-).
  unfold GetChildren, GetChildrenPublicId, GetChildrenInternalId, join_children.
  rewrite (rows_of_internalId db r Hnd Hin). simpl. rewrite app_nil_r.
  unfold SQLite.BindInt64, SQLite.ColumnInt64. auto.
Qed.

Lemma child_listings_agree_witness :
  GetChildren three_levels 1 = ["study"]
  /\ GetChildrenPublicId three_levels 1 = ["study"]
  /\ GetChildrenInternalId three_levels 1 = [2].
Proof.
  refine (@child_listings_agree three_levels 1 _ _).
  - vm_compute. repeat constructor; simpl; intuition congruence.
  - vm_compute. reflexivity.
Defined.

(** X14: The parent of a resource, as [GetParentPublicId] and [LookupParent]
    report it, in a table whose internal ids identify rows and fit a C
    [int] and that keeps the reference to the parent: where
    [LookupParent] throws or finds no parent, [GetParentPublicId] answers
    [false]; where it finds one, [GetParentPublicId] answers the public
    id of that resource. *)
Theorem GetParentPublicId_agrees_with_LookupParent (db : Tables) (id : Z) :
  NoDup (map internalId (Resources db)) -> ids_fit_int db -> parents_exist db ->
  match LookupParent db id with
  | OK (Some parent) =>
      exists pub,
        GetPublicId db parent = OK pub /\ GetParentPublicId db id = Some pub
  | OK None => GetParentPublicId db id = None
  | Throw _ => GetParentPublicId db id = None
  end.
Proof.
  intros Hnd Hfit Hfk. unfold ids_fit_int in Hfit. rewrite Forall_forall in Hfit.
  destruct (IsExistingResource db id) eqn:Hex.
  - apply IsExistingResource_true in Hex. destruct Hex as (r & Hin & <-).
    unfold LookupParent, GetParentPublicId, join_parent.
    rewrite (rows_of_internalId db r Hnd Hin). simpl. rewrite app_nil_r.
    destruct (parentId r) as [p |] eqn:Ep.
    2:{ assert (Hf : forall l : list ResourceRow,
                   filter (fun _ => false) l = [])
          by (intros l; induction l; simpl; auto).
        unfold SQLite.SELECT_WHERE. rewrite Hf. reflexivity. }
    pose proof (Hfk r p Hin Ep) as Hp. apply IsExistingResource_true in Hp.
    destruct Hp as (a & Ha & <-).
    unfold SQLite.ColumnInt. rewrite (to_int_fits (Hfit a Ha)).
    exists (publicId a). unfold GetPublicId.
    pose proof (rows_of_internalId db a Hnd Ha) as Hrows.
    rewrite Hrows. unfold SQLite.BindInt64 in Hrows. rewrite Hrows.
    split; reflexivity.
  - destruct (@unknown_id_has_no_parent db id Hex) as [-> ->]. reflexivity.
Qed.

Lemma GetParentPublicId_agrees_with_LookupParent_witness :
  LookupParent three_levels 3 = OK (Some 2)
  /\ exists pub,
      GetPublicId three_levels 2 = OK pub
      /\ GetParentPublicId three_levels 3 = Some pub.
Proof.
  split; [ vm_compute; reflexivity | ].
  refine (@GetParentPublicId_agrees_with_LookupParent three_levels 3 _ _ _).
  - vm_compute. repeat constructor; simpl; intuition congruence.
  - exact three_levels_fit.
  - exact parents_exist_three_levels.
Defined.

(** ** Creating a resource *)

Lemma to_int_nat_small (n : nat) :
  Z.of_nat n <= CInt.INT_MAX ->
  CInt.to_uint64 (CInt.to_int64 (SQLite.ColumnInt (Z.of_nat n))) = Z.of_nat n.
Proof.
  intros H. unfold SQLite.ColumnInt.
  assert (Hmax : CInt.INT_MAX = 2147483647) by reflexivity.
  rewrite to_int_fits
    by (unfold CInt.fits_int, CInt.INT_MIN; change (- 2 ^ 31) with (-2147483648);
        lia).
  apply to_int64_to_uint64. change (2 ^ 64) with 18446744073709551616. lia.
Qed.

(** X15: [GetResourceCount] counts the resources that [GetAllPublicIds] lists,
    in a table with at most as many rows as a C [int] counts. *)
Theorem GetResourceCount_counts_GetAllPublicIds (db : Tables)
        (kind : ResourceType) :
  Z.of_nat (List.length (Resources db)) <= CInt.INT_MAX ->
  GetResourceCount db kind
  = OK (Z.of_nat (List.length (GetAllPublicIds db kind))).
Proof.
  intros H. unfold GetResourceCount, GetAllPublicIds. simpl.
  rewrite length_map. f_equal. apply to_int_nat_small.
  pose proof (filter_length_bound
                (fun r => resourceType r =? SQLite.BindInt kind)
                (Resources db)) as Hle.
  unfold SQLite.SELECT_WHERE. lia.
Qed.

Lemma GetResourceCount_counts_GetAllPublicIds_witness :
  GetResourceCount three_levels ResourceType_Study = OK 1.
Proof.
  rewrite (@GetResourceCount_counts_GetAllPublicIds three_levels ResourceType_Study).
  - vm_compute. reflexivity.
  - vm_compute. congruence.
Defined.

(** X16: A successful [CreateResource] adds one resource and leaves the
    others as they were: the new id did not exist and exists now, with
    the public id and the kind given and no parent; every other id and
    every other public id reads as before; and the public id is appended
    to the listing of its kind only. *)
Theorem CreateResource_adds_one_resource (db db' : Tables) (pub : string)
        (type : ResourceType) (id : Z) :
  CreateResource db pub type = OK (db', id) ->
  (IsExistingResource db id = false /\ IsExistingResource db' id = true
   /\ GetPublicId db' id = OK pub
   /\ GetResourceType db' id = OK (CInt.to_int type)
   /\ LookupParent db' id = OK None)
  /\ (forall other,
         other <> id ->
         IsExistingResource db' other = IsExistingResource db other
         /\ GetPublicId db' other = GetPublicId db other
         /\ GetResourceType db' other = GetResourceType db other
         /\ LookupParent db' other = LookupParent db other)
  /\ (forall other,
         other <> pub -> LookupResource db' other = LookupResource db other)
  /\ (forall kind,
         GetAllPublicIds db' kind
         = GetAllPublicIds db kind
           ++ (if SQLite.BindInt type =? SQLite.BindInt kind then [pub] else [])).
Proof.
  intros H. apply CreateResource_inv in H. simpl in H.
  destruct H as (-> & Hlt & Hne).
  assert (Hnone : SQLite.SELECT_WHERE
                    (fun r => internalId r =? SQLite.BindInt64 id) (Resources db)
                  = []).
  { apply existsb_false_filter. destruct (existsb _ _) eqn:E; [ | reflexivity ].
    apply existsb_exists in E. destruct E as (r & Hin & Heq).
    apply Z.eqb_eq in Heq. unfold SQLite.BindInt64 in Heq.
    specialize (Hlt r Hin). lia. }
  split; [ | split; [ | split ] ].
  - unfold IsExistingResource, GetPublicId, GetResourceType, LookupParent.
    simpl. unfold SQLite.SELECT_WHERE in *. rewrite filter_app, Hnone. simpl.
    unfold SQLite.BindInt64. rewrite Z.eqb_refl. simpl.
    unfold SQLite.ColumnInt, SQLite.BindInt.
    rewrite (to_int_fits (to_int_range type)). auto.
  - intros other Hother.
    unfold IsExistingResource, GetPublicId, GetResourceType, LookupParent.
    simpl. unfold SQLite.SELECT_WHERE. rewrite filter_app. simpl.
    unfold SQLite.BindInt64.
    replace (id =? other) with false by (symmetry; apply Z.eqb_neq; congruence).
    rewrite app_nil_r. auto.
  - intros other Hother. unfold LookupResource. simpl.
    unfold SQLite.SELECT_WHERE. rewrite filter_app. simpl.
    replace (String.eqb pub other) with false
      by (symmetry; apply String.eqb_neq; congruence).
    rewrite app_nil_r. reflexivity.
  - intros kind. unfold GetAllPublicIds. simpl.
    unfold SQLite.SELECT_WHERE. rewrite filter_app, map_app. simpl.
    destruct (SQLite.BindInt type =? SQLite.BindInt kind); reflexivity.
Qed.

Lemma CreateResource_adds_one_resource_witness :
  exists db',
    CreateResource three_levels "instance" ResourceType_Instance = OK (db', 4)
    /\ GetPublicId db' 4 = OK "instance"
    /\ GetPublicId db' 3 = GetPublicId three_levels 3.
Proof.
  exists (with_Resources
            (Resources three_levels
             ++ [mkResourceRow 4 ResourceType_Instance "instance" None])
            4 three_levels).
  assert (H : CreateResource three_levels "instance" ResourceType_Instance
              = OK (with_Resources
                      (Resources three_levels
                       ++ [mkResourceRow 4 ResourceType_Instance "instance" None])
                      4 three_levels, 4))
    by (vm_compute; reflexivity).
  split; [ exact H | ].
  destruct (@CreateResource_adds_one_resource
              three_levels _ "instance" ResourceType_Instance 4 H)
    as ((_ & _ & Hp & _) & Ho & _).
  split; [ exact Hp | ].
  apply (Ho 3). discriminate.
Defined.

(* ================================================================== *)
(** * Writing the two logs *)

Section LastRow.

Context {Row : Type}.
Variable key : Row -> Z.

(** [ORDER BY key DESC LIMIT 1] on a table whose last row has the
    largest key, and no other row has that key. *)
Lemma LIMIT_1_ORDER_BY_DESC_snoc (t : list Row) (row : Row) :
  (forall r, In r t -> key r < key row) ->
  SQLite.LIMIT 1 (SQLite.ORDER_BY_DESC key (t ++ [row])) = [row].
Proof.
  intros Hmax. unfold SQLite.ORDER_BY_DESC.
  pose proof (first_of_ORDER_BY (fun r => - key r) (t ++ [row])) as H.
  unfold SQLite.LIMIT in *. simpl in *.
  destruct (SQLite.ORDER_BY (fun r => - key r) (t ++ [row])) as [| r0 l];
    simpl in *.
  - destruct t; discriminate.
  - destruct H as [Hin Hmin]. f_equal.
    apply in_app_or in Hin. destruct Hin as [Hin | [<- | []]]; [ | reflexivity ].
    specialize (Hmax r0 Hin).
    assert (Hrow : In row (t ++ [row]))
      by (apply in_or_app; right; left; reflexivity).
    specialize (Hmin row Hrow).
    lia.
Qed.

(** [WHERE key > since ORDER BY key] on a table whose last row alone is
    above [since]. *)
Lemma ORDER_BY_above_snoc (t : list Row) (row : Row) (since : Z) :
  (forall r, In r t -> key r <= since) -> since < key row ->
  SQLite.ORDER_BY key (filter (fun r => key r >? since) (t ++ [row])) = [row].
Proof.
  intros Hold Hnew. rewrite filter_app. simpl.
  replace (key row >? since) with true by (symmetry; apply Z.gtb_lt; exact Hnew).
  rewrite existsb_false_filter; [ reflexivity | ].
  destruct (existsb _ t) eqn:E; [ | reflexivity ].
  apply existsb_exists in E. destruct E as (r & Hin & Hgt).
  apply Z.gtb_lt in Hgt. specialize (Hold r Hin). lia.
Qed.

End LastRow.

Definition LogExportedResource_row (seq : Z) (resource : ExportedResource.t)
  : ExportedRow :=
  mkExportedRow
    seq
    (SQLite.BindInt (ExportedResource.GetResourceType resource))
    (ExportedResource.GetPublicId resource)
    (ExportedResource.GetModality resource)
    (ExportedResource.GetPatientId resource)
    (ExportedResource.GetStudyInstanceUid resource)
    (ExportedResource.GetSeriesInstanceUid resource)
    (ExportedResource.GetSopInstanceUid resource)
    (ExportedResource.GetDate resource).

(** The record as the log hands it back: the sequence number is the one
    the table gave it. *)
Definition with_seq (seq : Z) (resource : ExportedResource.t)
  : ExportedResource.t :=
  ExportedResource.mk
    seq
    (ExportedResource.GetResourceType resource)
    (ExportedResource.GetPublicId resource)
    (ExportedResource.GetModality resource)
    (ExportedResource.GetDate resource)
    (ExportedResource.GetPatientId resource)
    (ExportedResource.GetStudyInstanceUid resource)
    (ExportedResource.GetSeriesInstanceUid resource)
    (ExportedResource.GetSopInstanceUid resource).

Lemma LogExportedResource_inv (db db' : Tables) (resource : ExportedResource.t) :
  LogExportedResource db resource = OK db' ->
  exists seq,
    (forall row, In row (ExportedResources db) -> e_seq row < seq)
    /\ ExportedResources db'
       = ExportedResources db ++ [LogExportedResource_row seq resource].
Proof.
  unfold LogExportedResource. intros H.
  apply bind_OK_inv in H. destruct H as (seq & Hseq & [= <-]).
  apply next_rowid_fresh in Hseq. destruct Hseq as [_ Hfresh].
  exists seq. split; [ exact Hfresh | reflexivity ].
Qed.

(** X17: The round trip of an export record of a kind that fits a C [int]:
    [LogExportedResource] gives it a sequence number above all those of
    the log; [GetLastExportedResource] then returns the record, with
    that number; so does [GetExportedResources] with [done] set, for a
    reader that has read the log up to [since]; and the sequence numbers
    of the log stay distinct. *)
Theorem LogExportedResource_then_read (db db' : Tables)
        (resource : ExportedResource.t) :
  LogExportedResource db resource = OK db' ->
  CInt.fits_int (ExportedResource.GetResourceType resource) ->
  exists seq,
    (forall row, In row (ExportedResources db) -> e_seq row < seq)
    /\ GetLastExportedResource db' = [with_seq seq resource]
    /\ (forall since maxResults,
           (forall row, In row (ExportedResources db) -> e_seq row <= since) ->
           since < seq -> 0 < maxResults < CInt.UINT32_MAX ->
           GetExportedResources db' since maxResults
           = ([with_seq seq resource], true))
    /\ (NoDup (map e_seq (ExportedResources db)) ->
        NoDup (map e_seq (ExportedResources db'))).
Proof.
  intros H Hfit. apply LogExportedResource_inv in H.
  destruct H as (seq & Hfresh & Hrows). exists seq.
  assert (Hread : read_ExportedResource (LogExportedResource_row seq resource)
                  = with_seq seq resource).
  { unfold read_ExportedResource, LogExportedResource_row, with_seq. simpl.
    unfold SQLite.ColumnInt, SQLite.ColumnInt64, SQLite.BindInt.
    rewrite !(to_int_fits Hfit). reflexivity. }
  split; [ exact Hfresh | split; [ | split ] ].
  - unfold GetLastExportedResource, GetExportedResourcesInternal.
    rewrite Hrows, LIMIT_1_ORDER_BY_DESC_snoc by exact Hfresh.
    simpl. rewrite Hread. reflexivity.
  - intros since maxResults Hold Hnew Hmax.
    rewrite GetExportedResources_page by lia.
    unfold page. rewrite Hrows.
    rewrite (@ORDER_BY_above_snoc _ e_seq (ExportedResources db)
               (LogExportedResource_row seq resource) since Hold Hnew).
    rewrite filter_app. simpl.
    replace (seq >? since) with true by (symmetry; apply Z.gtb_lt; exact Hnew).
    rewrite existsb_false_filter.
    + simpl. destruct (Z.to_nat maxResults) as [| n] eqn:En; [ lia | ].
      simpl. rewrite Hread, firstn_nil. simpl.
      replace (1 <=? maxResults) with true by (symmetry; apply Z.leb_le; lia).
      reflexivity.
    + destruct (existsb _ (ExportedResources db)) eqn:E; [ | reflexivity ].
      apply existsb_exists in E. destruct E as (r & Hin & Hgt).
      apply Z.gtb_lt in Hgt. specialize (Hold r Hin). lia.
  - intros Hnd. rewrite Hrows. apply NoDup_map_snoc; [ exact Hnd | ].
    intros y Hy. simpl. specialize (Hfresh y Hy). lia.
Qed.

Definition an_export : ExportedResource.t :=
  ExportedResource.mk 0 ResourceType_Study "study" "PACS" "20140101T000000"
                      "patient-1" "1.2.3" "" "".

Lemma LogExportedResource_then_read_witness :
  exists db',
    LogExportedResource three_exports an_export = OK db'
    /\ exists seq, GetLastExportedResource db' = [with_seq seq an_export].
Proof.
  exists (append_ExportedResource (LogExportedResource_row 4 an_export)
                                  three_exports).
  assert (E : LogExportedResource three_exports an_export
              = OK (append_ExportedResource
                      (LogExportedResource_row 4 an_export) three_exports))
    by (vm_compute; reflexivity).
  assert (Hfit : CInt.fits_int (ExportedResource.GetResourceType an_export))
    by (vm_compute; split; congruence).
  split; [ exact E | ].
  destruct (@LogExportedResource_then_read three_exports _ an_export E Hfit)
    as (seq & _ & Hlast & _).
  exists seq. exact Hlast.
Defined.

Section LogChangeFacts.

Variable ChangeType_Deleted_value : Z.

Definition LogChange_row (seq internalId : Z) (change : ServerIndexChange.t)
  : ChangeRow :=
  mkChangeRow
    seq
    (SQLite.BindInt
       (ChangeType_to_int ChangeType_Deleted_value
                          (ServerIndexChange.GetChangeType change)))
    (SQLite.BindInt64 internalId)
    (SQLite.BindInt (ServerIndexChange.GetResourceType change))
    (ServerIndexChange.GetDate change).

Lemma LogChange_inv (db db' : Tables) (internalId : Z)
      (change : ServerIndexChange.t) :
  LogChange ChangeType_Deleted_value db internalId change = OK db' ->
  exists seq,
    (forall row, In row (Changes db) -> c_seq row < seq)
    /\ Changes db' = Changes db ++ [LogChange_row seq internalId change]
    /\ Resources db' = Resources db.
Proof.
  unfold LogChange. intros H.
  apply bind_OK_inv in H. destruct H as (seq & Hseq & [= <-]).
  apply next_rowid_fresh in Hseq. destruct Hseq as [_ Hfresh].
  exists seq. split; [ exact Hfresh | split; reflexivity ].
Qed.

Lemma GetPublicId_same_Resources (db db' : Tables) (id : Z) :
  Resources db' = Resources db -> GetPublicId db' id = GetPublicId db id.
Proof. unfold GetPublicId. intros ->. reflexivity. Qed.

(** X18: The round trip of a change of a resource that exists, its two kinds
    fitting a C [int]: [LogChange] gives it a sequence number above all
    those of the log, and [GetLastChange] then returns it with that
    number and with the public id that the resource has when the log is
    read, whatever public id the change held when it was logged; so does
    [GetChanges] with [done] set, for a reader that has read the log up
    to [since]. *)
Theorem LogChange_then_read (db db' : Tables) (internalId : Z)
        (change : ServerIndexChange.t) (pub : string) :
  LogChange ChangeType_Deleted_value db internalId change = OK db' ->
  GetPublicId db internalId = OK pub ->
  CInt.fits_int (ChangeType_to_int ChangeType_Deleted_value
                                   (ServerIndexChange.GetChangeType change)) ->
  CInt.fits_int (ServerIndexChange.GetResourceType change) ->
  exists seq,
    let logged :=
      ServerIndexChange.mk
        seq
        (ChangeType_of_int
           (ChangeType_to_int ChangeType_Deleted_value
                              (ServerIndexChange.GetChangeType change)))
        (ServerIndexChange.GetResourceType change)
        pub
        (ServerIndexChange.GetDate change) in
    (forall row, In row (Changes db) -> c_seq row < seq)
    /\ GetLastChange db' = OK [logged]
    /\ (forall since maxResults,
           (forall row, In row (Changes db) -> c_seq row <= since) ->
           since < seq -> 0 < maxResults < CInt.UINT32_MAX ->
           GetChanges db' since maxResults = OK ([logged], true))
    /\ (NoDup (map c_seq (Changes db)) -> NoDup (map c_seq (Changes db'))).
Proof.
  intros H Hpub Hct Hrt. apply LogChange_inv in H.
  destruct H as (seq & Hfresh & Hrows & Hres). exists seq. simpl.
  assert (Hread : read_Change db' (LogChange_row seq internalId change)
                  = OK (ServerIndexChange.mk
                          seq
                          (ChangeType_of_int
                             (ChangeType_to_int
                                ChangeType_Deleted_value
                                (ServerIndexChange.GetChangeType change)))
                          (ServerIndexChange.GetResourceType change)
                          pub
                          (ServerIndexChange.GetDate change))).
  { unfold read_Change, LogChange_row. simpl.
    unfold SQLite.ColumnInt, SQLite.ColumnInt64, SQLite.BindInt, SQLite.BindInt64.
    rewrite (@GetPublicId_same_Resources db db' internalId Hres), Hpub. simpl.
    rewrite !(to_int_fits Hct), !(to_int_fits Hrt). reflexivity. }
  split; [ exact Hfresh | split; [ | split ] ].
  - unfold GetLastChange. rewrite GetChangesInternal_spec by lia.
    rewrite Hrows, LIMIT_1_ORDER_BY_DESC_snoc by exact Hfresh.
    simpl. rewrite Hread. reflexivity.
  - intros since maxResults Hold Hnew Hmax.
    rewrite GetChanges_page by lia.
    unfold page. rewrite Hrows.
    rewrite (@ORDER_BY_above_snoc _ c_seq (Changes db)
               (LogChange_row seq internalId change) since Hold Hnew).
    rewrite filter_app. simpl.
    replace (seq >? since) with true by (symmetry; apply Z.gtb_lt; exact Hnew).
    rewrite existsb_false_filter.
    + simpl. destruct (Z.to_nat maxResults) as [| n] eqn:En; [ lia | ].
      simpl. rewrite Hread, firstn_nil. simpl.
      replace (1 <=? maxResults) with true by (symmetry; apply Z.leb_le; lia).
      reflexivity.
    + destruct (existsb _ (Changes db)) eqn:E; [ | reflexivity ].
      apply existsb_exists in E. destruct E as (r & Hin & Hgt).
      apply Z.gtb_lt in Hgt. specialize (Hold r Hin). lia.
  - intros Hnd. rewrite Hrows. apply NoDup_map_snoc; [ exact Hnd | ].
    intros y Hy. simpl. specialize (Hfresh y Hy). lia.
Qed.

End LogChangeFacts.

Definition a_change : ServerIndexChange.t :=
  ServerIndexChange.mk 0 (ChangeType_of_int 2) ResourceType_Series
                       "not-the-public-id" "20140101T000000".

Lemma LogChange_then_read_witness :
  exists db',
    LogChange 9 three_changes 3 a_change = OK db'
    /\ exists seq,
        GetLastChange db'
        = OK [ServerIndexChange.mk seq (ChangeType_of_int 2) ResourceType_Series
                                   "series" "20140101T000000"].
Proof.
  exists (append_Change (LogChange_row 9 4 3 a_change) three_changes).
  assert (E : LogChange 9 three_changes 3 a_change
              = OK (append_Change (LogChange_row 9 4 3 a_change) three_changes))
    by (vm_compute; reflexivity).
  assert (Hpub : GetPublicId three_changes 3 = OK "series")
    by (vm_compute; reflexivity).
  assert (Hct : CInt.fits_int
                  (ChangeType_to_int 9 (ServerIndexChange.GetChangeType a_change)))
    by (vm_compute; split; congruence).
  assert (Hrt : CInt.fits_int (ServerIndexChange.GetResourceType a_change))
    by (vm_compute; split; congruence).
  split; [ exact E | ].
  destruct (@LogChange_then_read 9 three_changes _ 3 a_change "series"
              E Hpub Hct Hrt) as (seq & _ & Hlast & _).
  exists seq. exact Hlast.
Defined.

(* ================================================================== *)
(** * The recycling order, continued *)



Lemma IsProtectedPatient_false (db : Tables) (id : Z) :
  IsProtectedPatient db id = false <-> in_recycling_order db id.
Proof.
  unfold IsProtectedPatient, more_rows, in_recycling_order, SQLite.Step,
    SQLite.SELECT_WHERE, SQLite.BindInt64.
  destruct (filter _ _) as [| x l] eqn:F; simpl; split.
  - discriminate.
  - intros (r & Hin & Heq). exfalso.
    assert (Hr : In r (filter (fun r => r_patientId r =? id)
                              (PatientRecyclingOrder db)))
      by (apply filter_In; split; [ exact Hin | apply Z.eqb_eq; exact Heq ]).
    rewrite F in Hr. destruct Hr.
  - intros _.
    assert (Hx : In x (filter (fun r => r_patientId r =? id)
                              (PatientRecyclingOrder db)))
      by (rewrite F; left; reflexivity).
    apply filter_In in Hx. destruct Hx as [Hin Heq]. apply Z.eqb_eq in Heq.
    exists x. auto.
  - reflexivity.
Qed.

(** X19: [SelectPatientToRecycle] spares the protected patients, in a
    recycling order whose patient ids fit a C [int]: the patient it
    selects is not protected, the patient its second form selects is
    neither protected nor the one to avoid, the second form selects whom
    the first would select once the patient to avoid is protected, and
    the first form selects nobody exactly when every patient is
    protected. *)
Theorem SelectPatientToRecycle_spares_protected (db : Tables) :
  Forall (fun r => CInt.fits_int (r_patientId r)) (PatientRecyclingOrder db) ->
  (forall id,
      SelectPatientToRecycle db = Some id -> IsProtectedPatient db id = false)
  /\ (forall avoid id,
         SelectPatientToRecycle_avoid db avoid = Some id ->
         id <> avoid /\ IsProtectedPatient db id = false)
  /\ (forall avoid db',
         SetProtectedPatient db avoid true = OK db' ->
         SelectPatientToRecycle db' = SelectPatientToRecycle_avoid db avoid)
  /\ (SelectPatientToRecycle db = None
      <-> forall id, IsProtectedPatient db id = true).
Proof.
  intros Hfit. rewrite Forall_forall in Hfit.
  split; [ | split; [ | split ] ].
  - intros id H. pose proof (SelectPatientToRecycle_oldest db) as Ho.
    rewrite H in Ho. destruct Ho as (r & Hin & _ & ->).
    apply IsProtectedPatient_false. exists r.
    split; [ exact Hin | symmetry; apply to_int_fits; auto ].
  - intros avoid id H. pose proof (SelectPatientToRecycle_avoid_oldest db avoid) as Ho.
    rewrite H in Ho. destruct Ho as (r & Hin & Hne & _ & ->).
    rewrite (to_int_fits (Hfit r Hin)). split; [ exact Hne | ].
    apply IsProtectedPatient_false. exists r. auto.
  - intros avoid db' [= <-]. reflexivity.
  - pose proof (SelectPatientToRecycle_oldest db) as Ho. split.
    + intros H id. rewrite H in Ho.
      destruct (IsProtectedPatient db id) eqn:E; [ reflexivity | ].
      apply IsProtectedPatient_false in E. destruct E as (r & Hin & _).
      rewrite Ho in Hin. destruct Hin.
    + intros H. destruct (SelectPatientToRecycle db) as [id |]; [ | reflexivity ].
      destruct Ho as (r & Hin & _).
      assert (E : IsProtectedPatient db (r_patientId r) = false)
        by (apply IsProtectedPatient_false; exists r; auto).
      rewrite H in E. discriminate.
Qed.

Definition two_unprotected : Tables :=
  with_PatientRecyclingOrder [mkRecyclingRow 1 10; mkRecyclingRow 2 20] 2
                             empty_Tables.

Lemma two_unprotected_fit :
  Forall (fun r => CInt.fits_int (r_patientId r))
         (PatientRecyclingOrder two_unprotected).
Proof.
  repeat (constructor; [ vm_compute; split; congruence | ]). constructor.
Qed.

Lemma SelectPatientToRecycle_spares_protected_witness :
  SelectPatientToRecycle_avoid two_unprotected 10 = Some 20
  /\ 20 <> 10 /\ IsProtectedPatient two_unprotected 20 = false.
Proof.
  split; [ vm_compute; reflexivity | ].
  apply (proj1 (proj2 (@SelectPatientToRecycle_spares_protected
                         two_unprotected two_unprotected_fit)) 10 20).
  vm_compute. reflexivity.
Defined.



(* ================================================================== *)
(** * Reading the tags of a resource *)

Section GetMainDicomTagsFacts.

Variable IsIdentifier : DicomTag -> bool.

(** The values one table contributes to [GetMainDicomTags]. *)
Definition SetValue_calls (id : Z) (table : list TagRow) : list (Z * Z * string) :=
  map (fun s => (SQLite.ColumnInt (t_tagGroup s),
                 SQLite.ColumnInt (t_tagElement s),
                 t_value s))
      (SQLite.SELECT_WHERE (fun r => t_id r =? SQLite.BindInt64 id) table).

Lemma SetValue_calls_snoc (id other : Z) (tag : DicomTag) (value : string)
      (table : list TagRow) :
  0 <= GetGroup tag < 65536 -> 0 <= GetElement tag < 65536 ->
  SetValue_calls other (table ++ [SetMainDicomTag_row id tag value])
  = SetValue_calls other table
    ++ (if id =? other then [(GetGroup tag, GetElement tag, value)] else []).
Proof.
  intros Hg He. unfold SetValue_calls, SQLite.SELECT_WHERE.
  rewrite filter_app, map_app. unfold SetMainDicomTag_row. simpl.
  unfold SQLite.BindInt64.
  destruct (id =? other); simpl; [ | reflexivity ].
  rewrite !(BindInt_uint16 Hg), !(BindInt_uint16 He).
  change (SQLite.ColumnInt (GetGroup tag)) with (SQLite.BindInt (GetGroup tag)).
  change (SQLite.ColumnInt (GetElement tag))
    with (SQLite.BindInt (GetElement tag)).
  rewrite (BindInt_uint16 Hg), (BindInt_uint16 He). reflexivity.
Qed.

(** X21: After a successful [SetMainDicomTag], [GetMainDicomTags] of the
    resource hands the tag and its value to the map, whichever of the
    two tables the tag went to, and makes one [SetValue] call more than
    before; the tags of every other resource read as before; and a tag
    that is not an identifier leaves the answers of both forms of
    [LookupIdentifier] as they were. *)
Theorem SetMainDicomTag_then_GetMainDicomTags (db db' : Tables) (id : Z)
        (tag : DicomTag) (value : string) :
  SetMainDicomTag IsIdentifier db id tag value = OK db' ->
  0 <= GetGroup tag < 65536 -> 0 <= GetElement tag < 65536 ->
  In (GetGroup tag, GetElement tag, value) (GetMainDicomTags db' id)
  /\ List.length (GetMainDicomTags db' id)
     = S (List.length (GetMainDicomTags db id))
  /\ (forall other,
         other <> id -> GetMainDicomTags db' other = GetMainDicomTags db other)
  /\ (IsIdentifier tag = false ->
      forall tag' value',
        LookupIdentifier IsIdentifier db' tag' value'
        = LookupIdentifier IsIdentifier db tag' value'
        /\ LookupIdentifier_any db' value' = LookupIdentifier_any db value').
Proof.
  intros H Hg He. unfold SetMainDicomTag, SetMainDicomTagsInternal in H.
  fold (SetMainDicomTag_row id tag value) in H.
  assert (Hcalls : forall other db0,
             GetMainDicomTags db0 other
             = SetValue_calls other (MainDicomTags db0)
               ++ SetValue_calls other (DicomIdentifiers db0))
    by reflexivity.
  destruct (IsIdentifier tag) eqn:E;
    apply bind_OK_inv in H; destruct H as (rows & Hins & [= <-]);
    apply INSERT_OK_inv in Hins; destruct Hins as [_ ->];
    rewrite !Hcalls; unfold with_DicomIdentifiers, with_MainDicomTags;
    cbn [MainDicomTags DicomIdentifiers];
    (split; [ | split; [ | split ] ]).
  - rewrite SetValue_calls_snoc, Z.eqb_refl by assumption.
    apply in_or_app. right. apply in_or_app. right. left. reflexivity.
  - rewrite SetValue_calls_snoc, Z.eqb_refl by assumption.
    rewrite !length_app. simpl. lia.
  - intros other Hne. rewrite Hcalls. cbn [MainDicomTags DicomIdentifiers].
    rewrite SetValue_calls_snoc by assumption.
    replace (id =? other) with false by (symmetry; apply Z.eqb_neq; congruence).
    rewrite app_nil_r. reflexivity.
  - discriminate.
  - rewrite SetValue_calls_snoc, Z.eqb_refl by assumption.
    apply in_or_app. left. apply in_or_app. right. left. reflexivity.
  - rewrite SetValue_calls_snoc, Z.eqb_refl by assumption.
    rewrite !length_app. simpl. lia.
  - intros other Hne. rewrite Hcalls. cbn [MainDicomTags DicomIdentifiers].
    rewrite SetValue_calls_snoc by assumption.
    replace (id =? other) with false by (symmetry; apply Z.eqb_neq; congruence).
    rewrite app_nil_r. reflexivity.
  - intros _ tag' value'. split; reflexivity.
Qed.

End GetMainDicomTagsFacts.

Lemma SetMainDicomTag_then_GetMainDicomTags_witness :
  exists db',
    SetMainDicomTag identifier_tags one_tag 1 PatientName "DOE^JOHN" = OK db'
    /\ In (16, 16, "DOE^JOHN") (GetMainDicomTags db' 1).
Proof.
  exists (with_MainDicomTags
            (MainDicomTags one_tag ++ [SetMainDicomTag_row 1 PatientName "DOE^JOHN"])
            one_tag).
  assert (E : SetMainDicomTag identifier_tags one_tag 1 PatientName "DOE^JOHN"
              = OK (with_MainDicomTags
                      (MainDicomTags one_tag
                       ++ [SetMainDicomTag_row 1 PatientName "DOE^JOHN"])
                      one_tag))
    by (vm_compute; reflexivity).
  split; [ exact E | ].
  apply (@SetMainDicomTag_then_GetMainDicomTags identifier_tags one_tag _ 1
           PatientName "DOE^JOHN" E); vm_compute; split; congruence.
Defined.

(* ================================================================== *)
(** * The listener and the deletions *)



Section ListenerFacts.

Variable ON_DELETE : Tables -> ResourceRow -> Tables * list ScalarCall.


End ListenerFacts.

(* ================================================================== *)
(** * Opening any connection *)

Section OpenScripts.

Variable Execute : FileResourceId -> Tables -> Tables.

(** X23: The scripts that [Open] runs on a connection, whether or not it
    holds a schema: PREPARE_DATABASE first, exactly when table
    GlobalProperties is missing, then no migration, or the one from 4 to
    5, or the one from 3 to 4 followed by the one from 4 to 5.  The
    connection holds table GlobalProperties afterwards, also when [Open]
    throws; the wrapper that [Open] returns has the tables as the
    scripts left them and no listener. *)
Theorem Open_runs_scripts_in_order (c : Connection) :
  let c' := fst (Open Execute c) in
  (exists migrations,
      executed c'
      = executed c
        ++ (if DoesTableExist_GlobalProperties c then [] else [PREPARE_DATABASE])
        ++ migrations
      /\ (migrations = []
          \/ migrations = [UPGRADE_DATABASE_4_TO_5]
          \/ migrations = [UPGRADE_DATABASE_3_TO_4; UPGRADE_DATABASE_4_TO_5]))
  /\ (DoesTableExist_GlobalProperties c = false ->
      DoesTableExist_GlobalProperties c' = true
      /\ Open Execute c = Open Execute (Execute_script Execute PREPARE_DATABASE c))
  /\ (forall this,
         snd (Open Execute c) = OK this ->
         db_ this = tables c' /\ listener_ this = false
         /\ Internals.HasRemainingAncestor (signalRemainingAncestor_ this) = false).
Proof.
  simpl.
  assert (Hschema : forall c0,
             DoesTableExist_GlobalProperties c0 = true ->
             (exists migrations,
                 executed (fst (Open Execute c0)) = executed c0 ++ migrations
                 /\ (migrations = []
                     \/ migrations = [UPGRADE_DATABASE_4_TO_5]
                     \/ migrations
                        = [UPGRADE_DATABASE_3_TO_4; UPGRADE_DATABASE_4_TO_5]))
             /\ DoesTableExist_GlobalProperties (fst (Open Execute c0)) = true
             /\ (forall this,
                    snd (Open Execute c0) = OK this ->
                    db_ this = tables (fst (Open Execute c0))
                    /\ listener_ this = false
                    /\ Internals.HasRemainingAncestor
                         (signalRemainingAncestor_ this) = false)).
  { intros c0 H0. unfold Open. rewrite H0.
    cbn -[Z.eqb boost.lexical_cast_unsigned_int LookupGlobalProperty].
    destruct (boost.lexical_cast_unsigned_int _) as [v |].
    - destruct (v =? 3) eqn:E3.
      + cbn. split; [ | split ].
        * exists [UPGRADE_DATABASE_3_TO_4; UPGRADE_DATABASE_4_TO_5].
          rewrite <- app_assoc. auto.
        * reflexivity.
        * intros this [= <-]. auto.
      + cbn -[Z.eqb]. destruct (v =? 4) eqn:E4.
        * cbn. split; [ | split ].
          -- exists [UPGRADE_DATABASE_4_TO_5]. auto.
          -- reflexivity.
          -- intros this [= <-]. auto.
        * cbn -[Z.eqb].
          destruct (ORTHANC_DATABASE_VERSION =? v) eqn:E5; cbn -[Z.eqb].
          -- apply Z.eqb_eq in E5. subst v. cbn. split; [ | split ].
             ++ exists []. rewrite app_nil_r. auto.
             ++ exact H0.
             ++ intros this [= <-]. auto.
          -- split; [ | split ].
             ++ exists []. rewrite app_nil_r. auto.
             ++ exact H0.
             ++ discriminate.
    - cbn. split; [ | split ].
      + exists []. rewrite app_nil_r. auto.
      + exact H0.
      + discriminate. }
  destruct (DoesTableExist_GlobalProperties c) eqn:Hc.
  - destruct (Hschema c Hc) as (Hm & _ & Hw).
    split; [ exact Hm | split; [ discriminate | exact Hw ] ].
  - assert (Hopen : Open Execute c
                    = Open Execute (Execute_script Execute PREPARE_DATABASE c)).
    { unfold Open. rewrite Hc. reflexivity. }
    rewrite Hopen.
    destruct (Hschema (Execute_script Execute PREPARE_DATABASE c) eq_refl)
      as ((migrations & Hm & Hcases) & Ht & Hw).
    split; [ | split; [ intros _; split; [ exact Ht | reflexivity ] | exact Hw ] ].
    exists migrations. split; [ | exact Hcases ].
    rewrite Hm. simpl. rewrite <- app_assoc. reflexivity.
Qed.

End OpenScripts.
